(** * Hardware-Benchmark-tool: normalization, aggregation and capacity planning

    A shallow embedding of the scoring core of the benchmark tool
    ([benchmarks/*.py], [utils/data_normalizer.py], [capacity_planner.py])
    and the properties its specification states about it.

    Conventions of the embedding:
    - Python objects that end up in [raw_results.json] and
      [normalized_results.json] are JSON-shaped; they are the type [value].
      A [dict] is an association list in insertion order, which is also the
      order Python iterates it in.
    - Python numbers ([int] and [float]) are exact rationals [Q]; equality of
      numbers is [==].  [round(x, 2)] is rounding to the nearest multiple of
      1/100, ties to even.
    - A Python exception is the [Raise] case of the result type [res]. *)

From Stdlib Require Import QArith Qround ZArith List String Ascii Bool Lia Lqa.
From Stdlib Require Import Permutation Sorted.
Import ListNotations.

Local Open Scope Q_scope.

(* ===================================================================== *)
(** * Python values and built-ins *)
(* ===================================================================== *)

Module Py.

#[local] Unset Elimination Schemes.
Inductive value : Type :=
| VNone
| VBool (b : bool)
| VNum (q : Q)
| VStr (s : string)
| VList (l : list value)
| VDict (d : list (string * value)).
#[local] Set Elimination Schemes.

Definition dict : Type := list (string * value).

Inductive exn : Type :=
| AttributeError
| TypeError
| KeyError
| ZeroDivisionError
| StatisticsError
| ValueError.

Inductive res (A : Type) : Type :=
| Ok (a : A)
| Raise (e : exn).

Arguments Ok {A} a.
Arguments Raise {A} e.

Definition bind {A B : Type} (m : res A) (k : A -> res B) : res B :=
  match m with
  | Ok a => k a
  | Raise e => Raise e
  end.

Declare Scope py_scope.
Delimit Scope py_scope with py.
Notation "x <- m ;; k" := (bind m (fun x => k))
  (at level 61, m at next level, right associativity) : py_scope.
Local Open Scope py_scope.

Fixpoint mapM {A B : Type} (f : A -> res B) (l : list A) : res (list B) :=
  match l with
  | [] => Ok []
  | x :: xs => y <- f x ;; ys <- mapM f xs ;; Ok (y :: ys)
  end.

(** ** Dictionaries *)

Fixpoint dict_lookup (k : string) (d : dict) : option value :=
  match d with
  | [] => None
  | (k', v) :: d' => if String.eqb k k' then Some v else dict_lookup k d'
  end.

Definition dict_has (k : string) (d : dict) : bool :=
  match dict_lookup k d with Some _ => true | None => false end.

(** [d[k] = v]: overwrite in place, or append a new key at the end. *)
Fixpoint dict_set (k : string) (v : value) (d : dict) : dict :=
  match d with
  | [] => [(k, v)]
  | (k', v') :: d' =>
      if String.eqb k k' then (k', v) :: d' else (k', v') :: dict_set k v d'
  end.

Definition dict_values (d : dict) : list value := map snd d.

(** ** Strings: [sub in s] *)

Fixpoint is_prefix (p s : string) : bool :=
  match p, s with
  | EmptyString, _ => true
  | String a p', String b s' => Ascii.eqb a b && is_prefix p' s'
  | String _ _, EmptyString => false
  end.

Fixpoint str_contains (sub s : string) : bool :=
  is_prefix sub s ||
  match s with
  | EmptyString => false
  | String _ s' => str_contains sub s'
  end.

Definition is_str (k : string) (v : value) : bool :=
  match v with VStr s => String.eqb k s | _ => false end.

(** ** Dynamically typed operations *)

(** [k in v] for a string [k]. *)
Definition py_in (k : string) (v : value) : res bool :=
  match v with
  | VDict d => Ok (dict_has k d)
  | VStr s => Ok (str_contains k s)
  | VList l => Ok (existsb (is_str k) l)
  | VNone | VBool _ | VNum _ => Raise TypeError
  end.

(** [v.get(k, dflt)]: only dictionaries have the method. *)
Definition py_get (v : value) (k : string) (dflt : value) : res value :=
  match v with
  | VDict d => Ok (match dict_lookup k d with Some x => x | None => dflt end)
  | _ => Raise AttributeError
  end.

(** [v[k]] with a string key. *)
Definition py_index (v : value) (k : string) : res value :=
  match v with
  | VDict d => match dict_lookup k d with Some x => Ok x | None => Raise KeyError end
  | _ => Raise TypeError
  end.

(** The number an operand of float arithmetic or of an ordering
    comparison with a number stands for; [bool] is a subtype of [int]. *)
Definition as_num (v : value) : res Q :=
  match v with
  | VNum q => Ok q
  | VBool b => Ok (if b then 1 else 0)
  | VNone | VStr _ | VList _ | VDict _ => Raise TypeError
  end.

(** ** Numbers *)

Definition Qltb (x y : Q) : bool := negb (Qle_bool y x).

(** [x / y] *)
Definition pydiv (x y : Q) : res Q :=
  if Qeq_bool y 0 then Raise ZeroDivisionError else Ok (x / y).

(** Two-argument [min(a, b)] and [max(a, b)]: the first argument wins ties. *)
Definition py_min2 (a b : Q) : Q := if Qltb b a then b else a.
Definition py_max2 (a b : Q) : Q := if Qltb a b then b else a.

(** [min(l)], [max(l)] of a non-empty list. *)
Definition py_min (l : list Q) : res Q :=
  match l with
  | [] => Raise ValueError
  | x :: xs => Ok (fold_left py_min2 xs x)
  end.

Definition py_max (l : list Q) : res Q :=
  match l with
  | [] => Raise ValueError
  | x :: xs => Ok (fold_left py_max2 xs x)
  end.

(** [sum(l)] *)
Definition py_sum (l : list Q) : Q := fold_left Qplus l 0.

(** Nearest integer, ties to the even neighbour. *)
Definition round_half_even (x : Q) : Z :=
  let f := Qfloor x in
  let r := x - inject_Z f in
  if Qltb r (1 # 2) then f
  else if Qltb (1 # 2) r then (f + 1)%Z
  else if Z.even f then f else (f + 1)%Z.

(** [round(x, 2)], as a fraction in lowest terms. *)
Definition round2 (x : Q) : Q := Qred (inject_Z (round_half_even (x * 100)) / 100).

(** [len(l)] as a number. *)
Definition len {A : Type} (l : list A) : Q := inject_Z (Z.of_nat (List.length l)).

(** What [f"{v:.2f}"] can raise; the text itself is console output only. *)
Definition py_format_2f (v : value) : res unit :=
  match v with
  | VNum _ | VBool _ => Ok tt
  | VStr _ => Raise ValueError
  | VNone | VList _ | VDict _ => Raise TypeError
  end.

End Py.

Import Py.
Local Open Scope py_scope.
Local Open Scope string_scope.

(* ===================================================================== *)
(** * The [statistics] module of the Python library *)
(* ===================================================================== *)

Module Statistics.

Section WithSqrt.

(** [math.sqrt] on non-negative numbers; the only irrational operation. *)
Variable sqrt : Q -> Q.

Definition mean (data : list Q) : res Q :=
  match data with
  | [] => Raise StatisticsError
  | _ => Ok (py_sum data / len data)
  end.

Fixpoint insert_sorted (x : Q) (l : list Q) : list Q :=
  match l with
  | [] => [x]
  | y :: ys => if Qltb x y then x :: y :: ys else y :: insert_sorted x ys
  end.

Definition sorted (data : list Q) : list Q :=
  fold_left (fun acc x => insert_sorted x acc) data [].

Definition median (data : list Q) : res Q :=
  let s := sorted data in
  let n := List.length s in
  match n with
  | O => Raise StatisticsError
  | _ =>
      if Nat.odd n then Ok (nth (n / 2) s 0)
      else Ok ((nth (n / 2 - 1) s 0 + nth (n / 2) s 0) / 2)
  end.

(** Sample variance, denominator [n - 1]. *)
Definition variance (data : list Q) : res Q :=
  if (List.length data <? 2)%nat then Raise StatisticsError
  else
    let m := py_sum data / len data in
    Ok (py_sum (map (fun x => (x - m) * (x - m)) data) / (len data - 1)).

Definition stdev (data : list Q) : res Q :=
  v <- variance data ;; Ok (sqrt v).

End WithSqrt.

End Statistics.

(* ===================================================================== *)
(** * benchmarks/*.py: repeated runs and their aggregation *)
(* ===================================================================== *)

Module Benchmarks.

Section WithSqrt.

Variable sqrt : Q -> Q.

(** The dictionary literal every [aggregate_results] stores per metric. *)
Definition metric_statistics (values : list value) : res value :=
  nums <- mapM as_num values ;;
  mean <- Statistics.mean nums ;;
  median <- Statistics.median nums ;;
  stdev <- (if (1 <? List.length nums)%nat then Statistics.stdev sqrt nums else Ok 0) ;;
  mn <- py_min nums ;;
  mx <- py_max nums ;;
  variance_percent <-
    (if (1 <? List.length nums)%nat
     then
       m <- Statistics.mean nums ;;
       if Qltb 0 m
       then
         s <- Statistics.stdev sqrt nums ;;
         m' <- Statistics.mean nums ;;
         q <- pydiv s m' ;;
         Ok (q * 100)
       else Ok 0
     else Ok 0) ;;
  Ok (VDict [("mean", VNum mean);
             ("median", VNum median);
             ("stdev", VNum stdev);
             ("min", VNum mn);
             ("max", VNum mx);
             ("variance_percent", VNum variance_percent)]).

(** [[r.get(metric) for r in results if metric in r]]; the network
    benchmark also drops values that are [None]. *)
Fixpoint metric_values (skip_none : bool) (metric : string)
    (results : list value) : res (list value) :=
  match results with
  | [] => Ok []
  | r :: rs =>
      present <- py_in metric r ;;
      if present then
        v <- py_get r metric VNone ;;
        match skip_none, v with
        | true, VNone => metric_values skip_none metric rs
        | _, _ => vs <- metric_values skip_none metric rs ;; Ok (v :: vs)
        end
      else metric_values skip_none metric rs
  end.

(** The loop over [metrics], filling [aggregated['statistics']]. *)
Fixpoint statistics_loop (skip_none : bool) (metrics : list string)
    (results : list value) (statistics : dict) : res dict :=
  match metrics with
  | [] => Ok statistics
  | metric :: rest =>
      values <- metric_values skip_none metric results ;;
      match values with
      | [] => statistics_loop skip_none rest results statistics
      | _ =>
          entry <- metric_statistics values ;;
          statistics_loop skip_none rest results (dict_set metric entry statistics)
      end
  end.

Definition aggregate (skip_none : bool) (metrics : list string)
    (results : list value) : res value :=
  match results with
  | [] => Ok (VDict [])
  | _ =>
      statistics <- statistics_loop skip_none metrics results [] ;;
      Ok (VDict [("runs", VList results); ("statistics", VDict statistics)])
  end.

(** The [run] loop of the CPU, memory and network benchmarks.
    [run_single_test i] is what the [i]-th invocation of the external tool
    returns; [shown] is the metric echoed on the console after a run. *)
Fixpoint run_loop (aggregate_results : list value -> res value)
    (shown : string) (run_single_test : nat -> value)
    (todo i : nat) (all_results : list value) : res value :=
  match todo with
  | O => aggregate_results all_results
  | S todo' =>
      let result := run_single_test i in
      failed <- py_in "error" result ;;
      if failed then Ok result
      else
        v <- py_get result shown (VNum 0) ;;
        _ <- py_format_2f v ;;
        run_loop aggregate_results shown run_single_test todo' (S i)
                 (all_results ++ [result])
  end.

End WithSqrt.

End Benchmarks.

Module CPUBenchmark.
Section WithSqrt.
Variable sqrt : Q -> Q.

Definition metrics : list string :=
  ["events_per_second"; "latency_avg_ms"; "latency_95p_ms"].

Definition aggregate_results (results : list value) : res value :=
  Benchmarks.aggregate sqrt false metrics results.

Definition run (run_single_test : nat -> value) (num_runs : nat) : res value :=
  Benchmarks.run_loop aggregate_results "events_per_second"
    run_single_test num_runs 0 [].

End WithSqrt.
End CPUBenchmark.

Module MemoryBenchmark.
Section WithSqrt.
Variable sqrt : Q -> Q.

Definition metrics : list string :=
  ["transfer_rate_mib_sec"; "operations_per_second"; "latency_avg_ms"].

Definition aggregate_results (results : list value) : res value :=
  Benchmarks.aggregate sqrt false metrics results.

Definition run (run_single_test : nat -> value) (num_runs : nat) : res value :=
  Benchmarks.run_loop aggregate_results "transfer_rate_mib_sec"
    run_single_test num_runs 0 [].

End WithSqrt.
End MemoryBenchmark.

Module NetworkBenchmark.
Section WithSqrt.
Variable sqrt : Q -> Q.

Definition metrics : list string :=
  ["bandwidth_mbps"; "bandwidth_received_mbps"; "retransmits"].

Definition aggregate_results (results : list value) : res value :=
  Benchmarks.aggregate sqrt true metrics results.

Definition run (run_single_test : nat -> value) (num_runs : nat) : res value :=
  Benchmarks.run_loop aggregate_results "bandwidth_mbps"
    run_single_test num_runs 0 [].

End WithSqrt.
End NetworkBenchmark.

Module DiskBenchmark.
Section WithSqrt.
Variable sqrt : Q -> Q.

Definition metrics : list string := ["iops"; "bandwidth_kb"; "latency_mean_us"].

Definition test_types : list string := ["randread"; "randwrite"; "read"; "write"].

Definition aggregate_results (results : list value) : res value :=
  Benchmarks.aggregate sqrt false metrics results.

(** The external tool: [run_single_test n test_type] is what the [n]-th
    invocation overall returns when asked for [test_type].  The state
    threaded through the loops is the number of invocations made. *)
Section Loops.
Variable run_single_test : nat -> string -> value.

(** The inner [for i in range(num_runs)] loop; it ends by exhaustion or by
    [break], and yields [all_results], [test_results] and the call count. *)
Fixpoint runs_loop (test_type : string) (todo calls : nat)
    (all_results : dict) (test_results : list value)
    : res (dict * list value * nat) :=
  match todo with
  | O => Ok (all_results, test_results, calls)
  | S todo' =>
      let result := run_single_test calls test_type in
      failed <- py_in "error" result ;;
      if failed then
        Ok (dict_set test_type result all_results, test_results, S calls)
      else
        iops <- py_get result "iops" (VNum 0) ;;
        _ <- py_format_2f iops ;;
        runs_loop test_type todo' (S calls) all_results (test_results ++ [result])
  end.

(** The outer [for test_type in test_types] loop. *)
Fixpoint types_loop (types : list string) (num_runs calls : nat)
    (all_results : dict) : res dict :=
  match types with
  | [] => Ok all_results
  | test_type :: rest =>
      st <- runs_loop test_type num_runs calls all_results [] ;;
      let '(all_results1, test_results, calls1) := st in
      match test_results with
      | [] => types_loop rest num_runs calls1 all_results1
      | _ =>
          agg <- aggregate_results test_results ;;
          types_loop rest num_runs calls1 (dict_set test_type agg all_results1)
      end
  end.

Definition run (num_runs : nat) : res value :=
  all_results <- types_loop test_types num_runs 0 [] ;;
  Ok (VDict all_results).

End Loops.
End WithSqrt.
End DiskBenchmark.

(* ===================================================================== *)
(** * utils/data_normalizer.py *)
(* ===================================================================== *)

Module DataNormalizer.

Record baseline : Type := {
  min : Q;
  max : Q;
  higher_better : bool
}.

(** [self.baselines] *)
Definition baselines_cpu : baseline :=
  {| min := 100; max := 10000; higher_better := true |}.
Definition baselines_memory : baseline :=
  {| min := 1000; max := 50000; higher_better := true |}.
Definition baselines_network : baseline :=
  {| min := 10; max := 10000; higher_better := true |}.
Definition baselines_disk : list (string * baseline) :=
  [("randread", {| min := 100; max := 100000; higher_better := true |});
   ("randwrite", {| min := 100; max := 100000; higher_better := true |});
   ("read", {| min := 10000; max := 5000000; higher_better := true |});
   ("write", {| min := 10000; max := 5000000; higher_better := true |})].

Fixpoint baseline_lookup (k : string) (t : list (string * baseline)) : res baseline :=
  match t with
  | [] => Raise KeyError
  | (k', b) :: t' => if String.eqb k k' then Ok b else baseline_lookup k t'
  end.

(** [max(min_val, min(max_val, value))] *)
Definition clamp (min_val max_val v : Q) : Q := py_max2 min_val (py_min2 max_val v).

Definition normalize_value (value : value) (min_val max_val : Q)
    (higher_better : bool) : res Q :=
  match value with
  | VNone => Ok 0
  | _ =>
      v <- as_num value ;;
      let clamped := clamp min_val max_val v in
      normalized <-
        (if higher_better
         then q <- pydiv (clamped - min_val) (max_val - min_val) ;; Ok (q * 100)
         else q <- pydiv (max_val - clamped) (max_val - min_val) ;; Ok (q * 100)) ;;
      Ok (round2 normalized)
  end.

(** The body shared by [normalize_cpu], [normalize_memory],
    [normalize_network] and the two branches of [normalize_disk], after the
    error test: read [statistics[metric]], score its mean. *)
Definition score_entry (results : value) (metric : string) (b : baseline)
    : res value :=
  stats <- py_get results "statistics" (VDict []) ;;
  m <- py_get stats metric (VDict []) ;;
  raw <- py_get m "mean" (VNum 0) ;;
  score <- normalize_value raw (min b) (max b) (higher_better b) ;;
  m' <- py_get stats metric (VDict []) ;;
  variance <- py_get m' "variance_percent" (VNum 0) ;;
  Ok (VDict [("score", VNum score);
             ("raw_value", raw);
             ("metric", VStr metric);
             ("variance", variance)]).

Definition normalize_cpu (cpu_results : value) : res value :=
  failed <- py_in "error" cpu_results ;;
  if failed then Ok cpu_results
  else score_entry cpu_results "events_per_second" baselines_cpu.

Definition normalize_memory (memory_results : value) : res value :=
  failed <- py_in "error" memory_results ;;
  if failed then Ok memory_results
  else score_entry memory_results "transfer_rate_mib_sec" baselines_memory.

Definition normalize_network (network_results : value) : res value :=
  failed <- py_in "error" network_results ;;
  if failed then Ok network_results
  else score_entry network_results "bandwidth_mbps" baselines_network.

Definition test_types : list string := ["randread"; "randwrite"; "read"; "write"].

(** The [for test_type in ...] loop of [normalize_disk]. *)
Fixpoint disk_loop (types : list string) (disk_results : value)
    (normalized : dict) : res dict :=
  match types with
  | [] => Ok normalized
  | test_type :: rest =>
      present <- py_in test_type disk_results ;;
      if negb present then disk_loop rest disk_results normalized
      else
        test_data <- py_index disk_results test_type ;;
        failed <- py_in "error" test_data ;;
        if failed then
          disk_loop rest disk_results (dict_set test_type test_data normalized)
        else
          let metric :=
            if str_contains "rand" test_type then "iops" else "bandwidth_kb" in
          b <- baseline_lookup test_type baselines_disk ;;
          entry <- score_entry test_data metric b ;;
          disk_loop rest disk_results (dict_set test_type entry normalized)
  end.

(** [[v['score'] for v in normalized.values()
      if isinstance(v, dict) and 'score' in v]] *)
Fixpoint disk_scores (vs : list value) : list value :=
  match vs with
  | [] => []
  | VDict d :: rest =>
      match dict_lookup "score" d with
      | Some s => s :: disk_scores rest
      | None => disk_scores rest
      end
  | _ :: rest => disk_scores rest
  end.

Definition average_score (normalized : dict) : res Q :=
  match disk_scores (dict_values normalized) with
  | [] => Ok 0
  | scores =>
      nums <- mapM as_num scores ;;
      q <- pydiv (py_sum nums) (len scores) ;;
      Ok (round2 q)
  end.

Definition normalize_disk (disk_results : value) : res value :=
  normalized <- disk_loop test_types disk_results [] ;;
  avg <- average_score normalized ;;
  Ok (VDict (dict_set "average_score" (VNum avg) normalized)).

Definition weights : list (string * Q) :=
  [("cpu", 3 # 10); ("memory", 2 # 10); ("disk", 3 # 10); ("network", 2 # 10)].

(** The loop of [calculate_overall_score] over [weights.items()];
    the accumulator is [(total_score, total_weight)]. *)
Fixpoint overall_loop (ws : list (string * Q)) (normalized : dict)
    (total_score total_weight : Q) : res (Q * Q) :=
  match ws with
  | [] => Ok (total_score, total_weight)
  | (component, weight) :: rest =>
      match dict_lookup component normalized with
      | Some entry =>
          score <- py_get entry
                     (if String.eqb component "disk" then "average_score" else "score")
                     (VNum 0) ;;
          s <- as_num score ;;
          overall_loop rest normalized
            (total_score + s * weight) (total_weight + weight)
      | None => overall_loop rest normalized total_score total_weight
      end
  end.

(** [calculate_overall_score] for a given table of weights. *)
Definition overall_score_with (ws : list (string * Q)) (normalized : dict) : res Q :=
  totals <- overall_loop ws normalized 0 0 ;;
  let '(total_score, total_weight) := totals in
  if Qltb 0 total_weight
  then q <- pydiv total_score total_weight ;; Ok (round2 q)
  else Ok 0.

Definition calculate_overall_score (normalized : dict) : res Q :=
  overall_score_with weights normalized.

(** One [if domain in results: normalized[domain] = f(results[domain])]. *)
Definition normalize_domain (domain : string) (f : value -> res value)
    (results : value) (normalized : dict) : res dict :=
  present <- py_in domain results ;;
  if present then
    raw <- py_index results domain ;;
    n <- f raw ;;
    Ok (dict_set domain n normalized)
  else Ok normalized.

Definition normalize (results : value) : res value :=
  n1 <- normalize_domain "cpu" normalize_cpu results [] ;;
  n2 <- normalize_domain "memory" normalize_memory results n1 ;;
  n3 <- normalize_domain "disk" normalize_disk results n2 ;;
  n4 <- normalize_domain "network" normalize_network results n3 ;;
  overall <- calculate_overall_score n4 ;;
  Ok (VDict (dict_set "overall_score" (VNum overall) n4)).

End DataNormalizer.

(* ===================================================================== *)
(** * capacity_planner.py *)
(* ===================================================================== *)

Module CapacityPlanner.

Record min_scores_t : Type := {
  cpu : Q;
  memory : Q;
  disk : Q;
  network : Q
}.

Record profile : Type := {
  cpu_weight : Q;
  memory_weight : Q;
  disk_weight : Q;
  network_weight : Q;
  min_scores : min_scores_t
}.

Definition web_server : profile :=
  {| cpu_weight := 35 # 100; memory_weight := 30 # 100;
     disk_weight := 20 # 100; network_weight := 15 # 100;
     min_scores := {| cpu := 60; memory := 50; disk := 40; network := 50 |} |}.

Definition database : profile :=
  {| cpu_weight := 30 # 100; memory_weight := 35 # 100;
     disk_weight := 30 # 100; network_weight := 5 # 100;
     min_scores := {| cpu := 70; memory := 80; disk := 75; network := 30 |} |}.

Definition file_server : profile :=
  {| cpu_weight := 15 # 100; memory_weight := 20 # 100;
     disk_weight := 50 # 100; network_weight := 15 # 100;
     min_scores := {| cpu := 40; memory := 50; disk := 80; network := 60 |} |}.

Definition compute_intensive : profile :=
  {| cpu_weight := 60 # 100; memory_weight := 25 # 100;
     disk_weight := 10 # 100; network_weight := 5 # 100;
     min_scores := {| cpu := 85; memory := 70; disk := 40; network := 30 |} |}.

Definition general_purpose : profile :=
  {| cpu_weight := 30 # 100; memory_weight := 25 # 100;
     disk_weight := 25 # 100; network_weight := 20 # 100;
     min_scores := {| cpu := 60; memory := 60; disk := 60; network := 50 |} |}.

(** [self.workload_profiles] *)
Definition workload_profiles : list (string * profile) :=
  [("web_server", web_server);
   ("database", database);
   ("file_server", file_server);
   ("compute_intensive", compute_intensive);
   ("general_purpose", general_purpose)].

Fixpoint profile_lookup (k : string) (t : list (string * profile)) : option profile :=
  match t with
  | [] => None
  | (k', p) :: t' => if String.eqb k k' then Some p else profile_lookup k t'
  end.

(** An entry of [self.systems], as [load_system] builds it: the parsed
    [normalized_results.json] and the optional [cost: float = None]. *)
Record system_t : Type := {
  name : string;
  normalized : value;
  cost : option Q
}.

(** An entry of the list [recommend_for_workload] returns. *)
Record recommendation : Type := {
  system : string;
  workload_score : Q;
  meets_requirements : bool;
  rec_cost : option Q;
  cost_performance_ratio : option Q
}.

(** [norm.get(domain, {}).get(key, 0)] *)
Definition domain_score (norm : value) (domain key : string) : res value :=
  entry <- py_get norm domain (VDict []) ;;
  py_get entry key (VNum 0).

Definition calculate_workload_score (sys : system_t) (p : profile) : res Q :=
  let norm := normalized sys in
  cpu_score <- domain_score norm "cpu" "score" ;;
  mem_score <- domain_score norm "memory" "score" ;;
  disk_score <- domain_score norm "disk" "average_score" ;;
  net_score <- domain_score norm "network" "score" ;;
  c <- as_num cpu_score ;;
  m <- as_num mem_score ;;
  d <- as_num disk_score ;;
  n <- as_num net_score ;;
  Ok (round2 (c * cpu_weight p + m * memory_weight p +
              d * disk_weight p + n * network_weight p)).

(** [a >= b] against a numeric threshold. *)
Definition py_ge (a : value) (b : Q) : res bool :=
  x <- as_num a ;; Ok (Qle_bool b x).

(** [a and b] on comparisons: [b] is not evaluated when [a] is false. *)
Definition py_and (a : res bool) (b : res bool) : res bool :=
  x <- a ;; if x then b else Ok false.

Definition check_requirements (sys : system_t) (p : profile) : res bool :=
  let norm := normalized sys in
  let ms := min_scores p in
  cpu_score <- domain_score norm "cpu" "score" ;;
  mem_score <- domain_score norm "memory" "score" ;;
  disk_score <- domain_score norm "disk" "average_score" ;;
  net_score <- domain_score norm "network" "score" ;;
  py_and (py_ge cpu_score (cpu ms))
    (py_and (py_ge mem_score (memory ms))
       (py_and (py_ge disk_score (disk ms))
          (py_ge net_score (network ms)))).

(** Truth value of an optional number: [None] and zero are false. *)
Definition truthy_opt (o : option Q) : bool :=
  match o with
  | Some q => negb (Qeq_bool q 0)
  | None => false
  end.

(** The body of the loop of [recommend_for_workload] for one system. *)
Definition recommend_one (p : profile) (sys : system_t) : res recommendation :=
  score <- calculate_workload_score sys p ;;
  meets <- check_requirements sys p ;;
  ratio <-
    match cost sys with
    | Some c =>
        if truthy_opt (Some c) then q <- pydiv score c ;; Ok (Some q) else Ok None
    | None => Ok None
    end ;;
  Ok {| system := name sys;
        workload_score := score;
        meets_requirements := meets;
        rec_cost := cost sys;
        cost_performance_ratio := ratio |}.

(** [list.sort(key=..., reverse=True)]: the stable sort in descending order
    of the key, as insertion from the left. *)
Fixpoint insert_desc {A : Type} (key : A -> Q) (x : A) (l : list A) : list A :=
  match l with
  | [] => [x]
  | y :: ys =>
      if Qltb (key y) (key x) then x :: y :: ys
      else y :: insert_desc key x ys
  end.

Definition sort_desc {A : Type} (key : A -> Q) (l : list A) : list A :=
  fold_left (fun acc x => insert_desc key x acc) l [].

Definition recommend_for_workload (systems : list system_t)
    (workload_type : string) : res (list recommendation) :=
  match profile_lookup workload_type workload_profiles with
  | None => Ok []
  | Some p =>
      recommendations <- mapM (recommend_one p) systems ;;
      Ok (sort_desc workload_score recommendations)
  end.

(** ** The best-value block of [generate_recommendation_report] *)

(** [[r for r in recommendations if r['cost_performance_ratio']]] *)
Definition with_cost (recommendations : list recommendation) : list recommendation :=
  filter (fun r => truthy_opt (cost_performance_ratio r)) recommendations.

Definition ratio_of (r : recommendation) : Q :=
  match cost_performance_ratio r with Some q => q | None => 0 end.

(** [min(l, key=...)] of a non-empty list: the first minimal element. *)
Definition min_by {A : Type} (key : A -> Q) (x : A) (xs : list A) : A :=
  fold_left (fun best r => if Qltb (key r) (key best) then r else best) xs x.

Definition best_value (recommendations : list recommendation) : option recommendation :=
  match with_cost recommendations with
  | [] => None
  | x :: xs => Some (min_by ratio_of x xs)
  end.

Section Report.

(** [f"{x:.2f}"] and [f"{x:,.2f}"] *)
Variable format_2f : Q -> string.
Variable format_comma_2f : Q -> string.

Definition newline : string := String (ascii_of_nat 10) EmptyString.

(** The lines appended under [# Find best value if costs are provided]. *)
Definition best_value_lines (recommendations : list recommendation) : list string :=
  match best_value recommendations with
  | None => []
  | Some best =>
      [newline ++ "💰 Best Value: " ++ system best;
       "   Score: " ++ format_2f (workload_score best) ++ "/100";
       "   Cost/Performance: $" ++ format_2f (ratio_of best) ++ " per point"]
  end.

(** The two lines each ranked system gets when it has a cost. *)
Definition cost_lines (r : recommendation) : res (list string) :=
  match rec_cost r with
  | Some c =>
      if truthy_opt (Some c) then
        q <- pydiv c (workload_score r) ;;
        Ok ["   Cost: $" ++ format_comma_2f c;
            "   Cost/Performance: $" ++ format_2f q ++ " per point"]
      else Ok []
  | None => Ok []
  end.

End Report.

End CapacityPlanner.

(* ===================================================================== *)
(** * Reference definitions and example data *)
(* ===================================================================== *)

Module Reference.

(** ** Aggregated statistics *)

(** What the specification asks of the entry stored for one metric whose
    samples are [nums]: no spread for fewer than two samples, and the
    coefficient of variation only for two or more samples of positive mean. *)
Definition guarded_entry (sqrt : Q -> Q) (nums : list Q) (entry : value) : Prop :=
  exists mean median stdev mn mx variance_percent,
    entry = VDict [("mean", VNum mean);
                   ("median", VNum median);
                   ("stdev", VNum stdev);
                   ("min", VNum mn);
                   ("max", VNum mx);
                   ("variance_percent", VNum variance_percent)] /\
    Statistics.mean nums = Ok mean /\
    ((List.length nums < 2)%nat -> stdev = 0 /\ variance_percent = 0) /\
    ((2 <= List.length nums)%nat -> Statistics.stdev sqrt nums = Ok stdev) /\
    ((2 <= List.length nums)%nat -> 0 < mean ->
       variance_percent = stdev / mean * 100) /\
    (mean <= 0 -> variance_percent = 0).

(** The exceptions an ill-typed record can cause; a division by zero or a
    [StatisticsError] is not among them. *)
Definition type_fault (e : exn) : Prop := e = TypeError \/ e = AttributeError.

(** ** Repeated runs *)

(** A run that succeeded and whose echoed metric can be printed. *)
Definition clean_run (shown : string) (result : value) : Prop :=
  py_in "error" result = Ok false /\
  exists v, py_get result shown (VNum 0) = Ok v /\ py_format_2f v = Ok tt.

Definition timed_out : value := VDict [("error", VStr "Benchmark timed out")].

(** What [parse_output] of the disk benchmark returns for a good run. *)
Definition disk_sample (test_type : string) : value :=
  VDict [("test_type", VStr test_type);
         ("iops", VNum 5000);
         ("bandwidth_kb", VNum 20000);
         ("latency_mean_us", VNum 200);
         ("latency_stddev_us", VNum 10)].

(** A disk tool whose second invocation times out. *)
Definition flaky_disk (n : nat) (test_type : string) : value :=
  match n with
  | 1%nat => timed_out
  | _ => disk_sample test_type
  end.

Definition cpu_sample : value :=
  VDict [("events_per_second", VNum 5500);
         ("total_events", VNum 165000);
         ("latency_avg_ms", VNum (7 # 10))].

(** A CPU tool whose second invocation times out. *)
Definition flaky_cpu (n : nat) : value :=
  match n with
  | 1%nat => timed_out
  | _ => cpu_sample
  end.

(** ** Normalized scores *)

(** A record that carries an error and no score, such as the one a failed
    run returns. *)
Definition error_record (v : value) : Prop :=
  exists d, v = VDict d /\ dict_has "error" d = true /\ dict_has "score" d = false.

(** An aggregated record without error whose statistics give [metric] the
    numeric mean [mean]. *)
Definition measured (metric : string) (v : value) (mean : Q) (variance : value) : Prop :=
  exists d stats m,
    v = VDict d /\
    dict_has "error" d = false /\
    dict_lookup "statistics" d = Some (VDict stats) /\
    dict_lookup metric stats = Some (VDict m) /\
    dict_lookup "mean" m = Some (VNum mean) /\
    variance = match dict_lookup "variance_percent" m with
               | Some x => x
               | None => VNum 0
               end.

(** The metric [normalize_disk] reads for an I/O pattern. *)
Definition disk_metric (test_type : string) : string :=
  if str_contains "rand" test_type then "iops" else "bandwidth_kb".

(** The three shapes of an I/O pattern in the disk results, with the entry
    the normalizer stores for it and the score it contributes. *)
Inductive pattern (disk_results : dict) (test_type : string)
  : option value -> option Q -> Prop :=
| pattern_absent :
    dict_lookup test_type disk_results = None ->
    pattern disk_results test_type None None
| pattern_error (v : value) :
    dict_lookup test_type disk_results = Some v ->
    error_record v ->
    pattern disk_results test_type (Some v) None
| pattern_measured (v : value) (mean : Q) (variance : value)
    (b : DataNormalizer.baseline) (s : Q) :
    dict_lookup test_type disk_results = Some v ->
    measured (disk_metric test_type) v mean variance ->
    DataNormalizer.baseline_lookup test_type DataNormalizer.baselines_disk = Ok b ->
    DataNormalizer.normalize_value (VNum mean) (DataNormalizer.min b)
      (DataNormalizer.max b) (DataNormalizer.higher_better b) = Ok s ->
    pattern disk_results test_type
      (Some (VDict [("score", VNum s);
                    ("raw_value", VNum mean);
                    ("metric", VStr (disk_metric test_type));
                    ("variance", variance)]))
      (Some s).

(** What one pattern adds to the normalized record. *)
Definition store (t : string) (e : option value) (normalized : dict) : dict :=
  match e with
  | Some x => dict_set t x normalized
  | None => normalized
  end.

Definition present {A : Type} (l : list (option A)) : list A :=
  flat_map (fun o => match o with Some x => [x] | None => [] end) l.

(** The arithmetic mean, to two decimals, of the scores that exist;
    0 when there is none. *)
Definition mean_of_present (scores : list (option Q)) : Q :=
  match present scores with
  | [] => 0
  | xs => round2 (py_sum xs / len xs)
  end.

(** The entries of the normalized disk record, in pattern order. *)
Definition disk_entries (entries : list (string * option value)) : dict :=
  flat_map (fun '(t, o) => match o with Some x => [(t, x)] | None => [] end) entries.

(** The value one domain feeds into the overall score: nothing when the
    domain is absent, else its score field, 0 when the record has none. *)
Definition domain_value (normalized : dict) (component : string) : res (option Q) :=
  match dict_lookup component normalized with
  | None => Ok None
  | Some entry =>
      score <- py_get entry
                 (if String.eqb component "disk" then "average_score" else "score")
                 (VNum 0) ;;
      s <- as_num score ;;
      Ok (Some s)
  end.

(** Weighted mean over the domains that are present, to two decimals;
    0 when none is. *)
Definition weighted_mean (parts : list (option Q * Q)) : Q :=
  let scored :=
    flat_map (fun '(o, w) => match o with Some s => [(s, w)] | None => [] end) parts in
  let total_weight := py_sum (map snd scored) in
  if Qltb 0 total_weight
  then round2 (py_sum (map (fun '(s, w) => s * w) scored) / total_weight)
  else 0.

(** The example of the specification: patterns scoring 80, error, 60, 40. *)
Definition aggregated (metric : string) (mean : Q) : value :=
  VDict [("runs", VList []);
         ("statistics",
          VDict [(metric, VDict [("mean", VNum mean);
                                 ("variance_percent", VNum 1)])])].

Definition disk_example : dict :=
  [("randread", aggregated "iops" 80020);
   ("randwrite", timed_out);
   ("read", aggregated "bandwidth_kb" 3004000);
   ("write", aggregated "bandwidth_kb" 2006000)].


(** ** Systems for the recommender *)

(** A system whose normalized record holds the four given scores. *)
Definition scored_system (name : string) (c m d n : Q) (cost : option Q)
    : CapacityPlanner.system_t :=
  {| CapacityPlanner.name := name;
     CapacityPlanner.normalized :=
       VDict [("cpu", VDict [("score", VNum c)]);
              ("memory", VDict [("score", VNum m)]);
              ("disk", VDict [("average_score", VNum d)]);
              ("network", VDict [("score", VNum n)])];
     CapacityPlanner.cost := cost |}.

(** The system of the specification's workload example. *)
Definition example_system : CapacityPlanner.system_t :=
  scored_system "X" 90 70 50 40 None.

(** The two systems of the best-value example: A scores 80 and costs 1000,
    B scores 60 and costs 500. *)
Definition system_A : CapacityPlanner.system_t :=
  scored_system "A" 80 80 80 80 (Some 1000).
Definition system_B : CapacityPlanner.system_t :=
  scored_system "B" 60 60 60 60 (Some 500).

(** Systems loaded without a cost, and with a cost of 0. *)
Definition system_free : CapacityPlanner.system_t :=
  scored_system "F" 70 70 70 70 None.
Definition system_zero : CapacityPlanner.system_t :=
  scored_system "Z" 70 70 70 70 (Some 0).

(** The recommendations computed for these systems under
    [general_purpose]. *)
Definition rec_A : CapacityPlanner.recommendation :=
  {| CapacityPlanner.system := "A";
     CapacityPlanner.workload_score := 80;
     CapacityPlanner.meets_requirements := true;
     CapacityPlanner.rec_cost := Some 1000;
     CapacityPlanner.cost_performance_ratio := Some (80 / 1000) |}.

Definition rec_B : CapacityPlanner.recommendation :=
  {| CapacityPlanner.system := "B";
     CapacityPlanner.workload_score := 60;
     CapacityPlanner.meets_requirements := true;
     CapacityPlanner.rec_cost := Some 500;
     CapacityPlanner.cost_performance_ratio := Some (60 / 500) |}.

Definition rec_free : CapacityPlanner.recommendation :=
  {| CapacityPlanner.system := "F";
     CapacityPlanner.workload_score := 70;
     CapacityPlanner.meets_requirements := true;
     CapacityPlanner.rec_cost := None;
     CapacityPlanner.cost_performance_ratio := None |}.

Definition rec_zero : CapacityPlanner.recommendation :=
  {| CapacityPlanner.system := "Z";
     CapacityPlanner.workload_score := 70;
     CapacityPlanner.meets_requirements := true;
     CapacityPlanner.rec_cost := Some 0;
     CapacityPlanner.cost_performance_ratio := None |}.

(** A system that scores 0 in every domain and costs 1000. *)
Definition system_idle : CapacityPlanner.system_t :=
  scored_system "I" 0 0 0 0 (Some 1000).

(** A recommendation takes part in the best-value selection when its
    stored ratio is present and not zero. *)
Definition qualifies (r : CapacityPlanner.recommendation) : Prop :=
  CapacityPlanner.truthy_opt (CapacityPlanner.cost_performance_ratio r) = true.

End Reference.

Import Reference.

(* ===================================================================== *)
(** * capacity_planner.py: the recommendation report *)
(* ===================================================================== *)

Module CapacityReport.

Import CapacityPlanner.

Section Formats.

(** Number and text formatting of the Python library: [f"{x:.0f}"],
    [f"{x:.2f}"], [f"{x:,.2f}"], [str(x)] of a number, [str(n)] of a
    count, and [s.upper()]. *)
Variable format_0f : Q -> string.
Variable format_2f : Q -> string.
Variable format_comma_2f : Q -> string.
Variable str_num : Q -> string.
Variable str_count : nat -> string.
Variable upper : string -> string.

(** [s * n] *)
Fixpoint str_mul (s : string) (n : nat) : string :=
  match n with
  | O => EmptyString
  | S n' => s ++ str_mul s n'
  end.

(** [sep.join(lines)] *)
Fixpoint join (sep : string) (lines : list string) : string :=
  match lines with
  | [] => EmptyString
  | [l] => l
  | l :: rest => l ++ sep ++ join sep rest
  end.

Definition header_lines (workload_type : string) (p : profile) : list string :=
  [str_mul "=" 80;
   "CAPACITY PLANNING REPORT - " ++ upper workload_type;
   str_mul "=" 80;
   EmptyString;
   "WORKLOAD PROFILE";
   str_mul "-" 80;
   "CPU Weight: " ++ format_0f (cpu_weight p * 100) ++ "%";
   "Memory Weight: " ++ format_0f (memory_weight p * 100) ++ "%";
   "Disk Weight: " ++ format_0f (disk_weight p * 100) ++ "%";
   "Network Weight: " ++ format_0f (network_weight p * 100) ++ "%";
   EmptyString;
   "MINIMUM REQUIREMENTS";
   str_mul "-" 80;
   upper "cpu" ++ ": " ++ str_num (cpu (min_scores p)) ++ "/100";
   upper "memory" ++ ": " ++ str_num (memory (min_scores p)) ++ "/100";
   upper "disk" ++ ": " ++ str_num (disk (min_scores p)) ++ "/100";
   upper "network" ++ ": " ++ str_num (network (min_scores p)) ++ "/100";
   EmptyString;
   "SYSTEM RECOMMENDATIONS (Ranked)";
   str_mul "-" 80].

(** The lines of one ranked system, [i] being its rank. *)
Definition ranked_lines (i : nat) (rec : recommendation) : res (list string) :=
  costs <- cost_lines format_2f format_comma_2f rec ;;
  Ok (List.app
        [newline ++ str_count i ++ ". " ++ system rec;
         "   Workload Score: " ++ format_2f (workload_score rec) ++ "/100";
         "   Meets Requirements: " ++
           (if meets_requirements rec then "✓ YES" else "✗ NO")]
        costs).

(** [for i, rec in enumerate(recommendations, 1)] *)
Fixpoint ranking_loop (i : nat) (recommendations : list recommendation)
    : res (list string) :=
  match recommendations with
  | [] => Ok []
  | rec :: rest =>
      ls <- ranked_lines i rec ;;
      more <- ranking_loop (S i) rest ;;
      Ok (List.app ls more)
  end.

(** [[r for r in recommendations if not r['meets_requirements']]] *)
Definition failed (recommendations : list recommendation) : list recommendation :=
  filter (fun r => negb (meets_requirements r)) recommendations.

Definition failed_lines (recommendations : list recommendation) : list string :=
  match failed recommendations with
  | [] => []
  | fs =>
      (newline ++ "⚠️  Systems NOT Meeting Requirements: "
         ++ str_count (List.length fs))
      :: map (fun f => "   - " ++ system f) fs
  end.

Definition summary_lines (best_performance : recommendation)
    (recommendations : list recommendation) : list string :=
  List.app
    [newline ++ str_mul "=" 80;
     "RECOMMENDATION SUMMARY";
     str_mul "=" 80;
     newline ++ "🏆 Best Performance: " ++ system best_performance;
     "   Score: " ++ format_2f (workload_score best_performance) ++ "/100"]
    (List.app (best_value_lines format_2f recommendations)
       (List.app (failed_lines recommendations)
          [newline ++ str_mul "=" 80])).

(** The text written to [output_file]; [None] when the function returns
    without writing. *)
Definition generate_recommendation_report (systems : list system_t)
    (workload_type : string) : res (option string) :=
  recommendations <- recommend_for_workload systems workload_type ;;
  match recommendations with
  | [] => Ok None
  | best_performance :: _ =>
      match profile_lookup workload_type workload_profiles with
      | None => Raise KeyError
      | Some p =>
          ranked <- ranking_loop 1 recommendations ;;
          Ok (Some (join newline
                      (List.app (header_lines workload_type p)
                         (List.app ranked
                            (summary_lines best_performance recommendations)))))
      end
  end.

End Formats.

End CapacityReport.

(* ===================================================================== *)
(** * utils/report_generator.py and comparison_tool.py: ratings *)
(* ===================================================================== *)

Module ReportGenerator.

Definition get_performance_rating (score : value) : res string :=
  s <- as_num score ;;
  if Qle_bool 90 s then Ok "Rating: Excellent ⭐⭐⭐⭐⭐"
  else if Qle_bool 75 s then Ok "Rating: Very Good ⭐⭐⭐⭐"
  else if Qle_bool 60 s then Ok "Rating: Good ⭐⭐⭐"
  else if Qle_bool 40 s then Ok "Rating: Fair ⭐⭐"
  else Ok "Rating: Needs Improvement ⭐".

End ReportGenerator.

Module HardwareComparison.


(** The double quote of the HTML attributes. *)
Definition dquote : string := String (ascii_of_nat 34) EmptyString.

(** [f'<span class="metric-badge {css}">{label}</span>'], the shape of the
    four literals that [get_badge] returns. *)
Definition badge (css label : string) : string :=
  "<span class=" ++ dquote ++ "metric-badge " ++ css ++ dquote ++ ">"
    ++ label ++ "</span>".

Definition get_badge (score : value) : res string :=
  s <- as_num score ;;
  if Qle_bool 70 s then
    Ok (badge "badge-excellent" "Good")
  else if Qle_bool 50 s then
    Ok (badge "badge-good" "Fair")
  else if Qle_bool 30 s then
    Ok (badge "badge-fair" "Below Avg")
  else
    Ok (badge "badge-poor" "Poor").



End HardwareComparison.

(* ===================================================================== *)
(** * benchmarks/network_benchmark.py: reading the tool's output *)
(* ===================================================================== *)

Module NetworkOutput.

(** What a statement of a [try] block that catches [KeyError] does: it
    yields a value, fails on a missing key (caught; the key is the
    exception's argument), or raises something the handler lets through. *)
Inductive tried (A : Type) : Type :=
| Got (a : A)
| Missing (key : string)
| Escapes (e : exn).
Arguments Got {A} a.
Arguments Missing {A} key.
Arguments Escapes {A} e.

Definition try_bind {A B : Type} (m : tried A) (k : A -> tried B) : tried B :=
  match m with
  | Got a => k a
  | Missing key => Missing key
  | Escapes e => Escapes e
  end.

Notation "x <~ m ;; k" := (try_bind m (fun x => k))
  (at level 61, m at next level, right associativity) : py_scope.

(** [v[key]] inside the block. *)
Definition subscript (v : value) (key : string) : tried value :=
  match v with
  | VDict d =>
      match dict_lookup key d with
      | Some x => Got x
      | None => Missing key
      end
  | _ => Escapes TypeError
  end.

(** An operation that never raises [KeyError]. *)
Definition lift {A : Type} (m : res A) : tried A :=
  match m with
  | Ok a => Got a
  | Raise e => Escapes e
  end.

(** [f'Failed to parse iperf3 output: {e}'] *)
Definition parse_error (e : string) : value :=
  VDict [("error", VStr ("Failed to parse iperf3 output: " ++ e))].

(** [str(KeyError(key))] for the keys of the block, which are literals
    without quotes or escapes. *)
Definition str_key_error (key : string) : string := "'" ++ key ++ "'".

(** The block after [data = json.loads(output)]. *)
Definition parse_data (protocol data : value) : tried value :=
  let results := [("protocol", protocol)] in
  has_end <~ lift (py_in "end" data) ;;
  if has_end : bool then
    e <~ subscript data "end" ;;
    summary <~ subscript e "sum_sent" ;;
    bps <~ subscript summary "bits_per_second" ;;
    b <~ lift (as_num bps) ;;
    let results := dict_set "bandwidth_mbps" (VNum (b / 1000000)) results in
    bytes <~ subscript summary "bytes" ;;
    let results := dict_set "bytes_transferred" bytes results in
    retransmits <~ lift (py_get summary "retransmits" (VNum 0)) ;;
    let results := dict_set "retransmits" retransmits results in
    e' <~ subscript data "end" ;;
    has_received <~ lift (py_in "sum_received" e') ;;
    if has_received : bool then
      e'' <~ subscript data "end" ;;
      recv <~ subscript e'' "sum_received" ;;
      rbps <~ subscript recv "bits_per_second" ;;
      r <~ lift (as_num rbps) ;;
      Got (VDict (dict_set "bandwidth_received_mbps" (VNum (r / 1000000)) results))
    else Got (VDict results)
  else Got (VDict results).

(** [parse_output]; [output] is what [json.loads] makes of the text: the
    message of its [JSONDecodeError], or the decoded value. *)
Definition parse_output (protocol : value) (output : string + value) : res value :=
  match output with
  | inl message => Ok (parse_error message)
  | inr data =>
      match parse_data protocol data with
      | Got results => Ok results
      | Missing key => Ok (parse_error (str_key_error key))
      | Escapes e => Raise e
      end
  end.

(** What [subprocess.run] does in [run_single_test]. *)
Inductive outcome : Type :=
| Completed (stdout : string + value)
| TimeoutExpired
| FileNotFoundError
| OtherException (message : string).

Section Messages.

(** [str(e)] of an exception raised while parsing. *)
Variable str_exn : exn -> string.

Definition run_single_test (protocol : value) (o : outcome) : value :=
  match o with
  | Completed stdout =>
      match parse_output protocol stdout with
      | Ok results => results
      | Raise e => VDict [("error", VStr (str_exn e))]
      end
  | TimeoutExpired => VDict [("error", VStr "Benchmark timed out")]
  | FileNotFoundError => VDict [("error", VStr "iperf3 not found. Please install it.")]
  | OtherException message => VDict [("error", VStr message)]
  end.

End Messages.

End NetworkOutput.

(* ===================================================================== *)
(** * Further reference definitions *)
(* ===================================================================== *)

Module Properties.

(** The mean a domain normalizer reads:
    [results.get('statistics', {}).get(metric, {}).get('mean', 0)]. *)
Definition raw_mean (results : value) (metric : string) : res value :=
  stats <- py_get results "statistics" (VDict []) ;;
  m <- py_get stats metric (VDict []) ;;
  py_get m "mean" (VNum 0).

(** A value [normalize_value] accepts: [None] or a number. *)
Definition scorable (v : value) : Prop :=
  v = VNone \/ exists q, as_num v = Ok q.

(** The results of [n] consecutive invocations of the disk tool for one
    pattern, the first being invocation number [start]. *)
Definition disk_block (run_single_test : nat -> string -> value)
    (start n : nat) (test_type : string) : list value :=
  map (fun j => run_single_test (start + j)%nat test_type) (seq 0 n).

(** The values of [metric] the runs carry, in run order; with
    [skip_none] (the network benchmark) values that are [None] are left out. *)
Definition carried (skip_none : bool) (metric : string) (results : list value)
    : list value :=
  flat_map
    (fun r =>
       match r with
       | VDict d =>
           match dict_lookup metric d with
           | Some VNone => if skip_none then [] else [VNone]
           | Some v => [v]
           | None => []
           end
       | _ => []
       end)
    results.

(** A run record whose values for the given metrics are numbers (or, with
    [skip_none], [None]). *)
Definition numeric_run (skip_none : bool) (metrics : list string) (r : value) : Prop :=
  exists d,
    r = VDict d /\
    forall m v, In m metrics -> dict_lookup m d = Some v ->
      (exists q, as_num v = Ok q) \/ (skip_none = true /\ v = VNone).

(** Descending order of a key, as the ranking has it. *)
Definition desc {A : Type} (key : A -> Q) (a b : A) : Prop := key b <= key a.

(** Weights that are not negative and add up to 1, as those of every
    built-in profile do. *)
Definition sound_weights (p : CapacityPlanner.profile) : Prop :=
  0 <= CapacityPlanner.cpu_weight p /\
  0 <= CapacityPlanner.memory_weight p /\
  0 <= CapacityPlanner.disk_weight p /\
  0 <= CapacityPlanner.network_weight p /\
  CapacityPlanner.cpu_weight p + CapacityPlanner.memory_weight p
  + CapacityPlanner.disk_weight p + CapacityPlanner.network_weight p == 1.

(** The workload score of the minimum requirements themselves. *)
Definition threshold_score (p : CapacityPlanner.profile) : Q :=
  round2
    (CapacityPlanner.cpu (CapacityPlanner.min_scores p) * CapacityPlanner.cpu_weight p
     + CapacityPlanner.memory (CapacityPlanner.min_scores p)
       * CapacityPlanner.memory_weight p
     + CapacityPlanner.disk (CapacityPlanner.min_scores p)
       * CapacityPlanner.disk_weight p
     + CapacityPlanner.network (CapacityPlanner.min_scores p)
       * CapacityPlanner.network_weight p).

(** A recommendation whose report line divides by a zero score. *)
Definition divides_by_zero (r : CapacityPlanner.recommendation) : Prop :=
  CapacityPlanner.truthy_opt (CapacityPlanner.rec_cost r) = true /\
  CapacityPlanner.workload_score r == 0.

(** The number of occurrences of [sub] in [s]. *)
Fixpoint count_sub (sub s : string) : nat :=
  match s with
  | EmptyString => 0
  | String _ s' => (if is_prefix sub s then 1 else 0) + count_sub sub s'
  end.

(** The stars a rating line shows. *)
Definition stars (rating : string) : nat := count_sub "⭐" rating.

(** The style classes of the badges, from the worst to the best. *)
Definition badge_rank (html : string) : nat :=
  if str_contains "badge-excellent" html then 3
  else if str_contains "badge-good" html then 2
  else if str_contains "badge-fair" html then 1
  else 0.




End Properties.

Import Properties.

(* ===================================================================== *)
(** * Properties of the built-ins *)
(* ===================================================================== *)

Lemma Qltb_lt (x y : Q) : Qltb x y = true <-> x < y.
Proof.
  unfold Qltb. rewrite negb_true_iff. split; intros H.
  - apply Qnot_le_lt. intros Hle. apply Qle_bool_iff in Hle. congruence.
  - destruct (Qle_bool y x) eqn:E; [|reflexivity].
    apply Qle_bool_iff in E. exfalso. apply (Qlt_not_le _ _ H E).
Qed.

Lemma Qltb_ge (x y : Q) : Qltb x y = false <-> y <= x.
Proof.
  unfold Qltb. rewrite negb_false_iff. apply Qle_bool_iff.
Qed.

Lemma Qltb_spec (x y : Q) : BoolSpec (x < y) (y <= x) (Qltb x y).
Proof.
  destruct (Qltb x y) eqn:E; constructor.
  - now apply Qltb_lt.
  - now apply Qltb_ge.
Qed.

Lemma Qeq_bool_spec (x y : Q) : BoolSpec (x == y) (~ x == y) (Qeq_bool x y).
Proof.
  destruct (Qeq_bool x y) eqn:E; constructor.
  - now apply Qeq_bool_iff.
  - now apply Qeq_bool_neq.
Qed.

#[export] Instance Qltb_comp : Proper (Qeq ==> Qeq ==> eq) Qltb.
Proof.
  intros x x' Hx y y' Hy. unfold Qltb. now rewrite Hx, Hy.
Qed.

(** ** Rounding *)

#[export] Instance round_half_even_comp : Proper (Qeq ==> eq) round_half_even.
Proof.
  intros x y H. unfold round_half_even.
  rewrite (Qfloor_comp _ _ H).
  assert (E : x - inject_Z (Qfloor y) == y - inject_Z (Qfloor y)) by now rewrite H.
  now rewrite !E.
Qed.

#[export] Instance round2_comp : Proper (Qeq ==> Qeq) round2.
Proof.
  intros x y H. unfold round2.
  assert (E : x * 100 == y * 100) by now rewrite H.
  now rewrite (round_half_even_comp _ _ E).
Qed.

Lemma round2_value (x : Q) : round2 x == inject_Z (round_half_even (x * 100)) / 100.
Proof. unfold round2. apply Qred_correct. Qed.

Lemma round_half_even_Z (z : Z) : round_half_even (inject_Z z) = z.
Proof.
  unfold round_half_even. rewrite Qfloor_Z.
  destruct (Qltb_spec (inject_Z z - inject_Z z) (1 # 2)) as [H|H].
  - reflexivity.
  - exfalso. lra.
Qed.

Lemma round_half_even_range (x : Q) :
  (Qfloor x <= round_half_even x <= Qfloor x + 1)%Z.
Proof.
  unfold round_half_even.
  destruct (Qltb _ _); [lia|].
  destruct (Qltb _ _); [lia|].
  destruct (Z.even _); lia.
Qed.

Lemma round_half_even_mono (x y : Q) :
  x <= y -> (round_half_even x <= round_half_even y)%Z.
Proof.
  intros Hxy.
  pose proof (Qfloor_resp_le _ _ Hxy) as Hf.
  destruct (Z.eq_dec (Qfloor x) (Qfloor y)) as [E|NE].
  - unfold round_half_even. rewrite E.
    set (f := Qfloor y).
    destruct (Qltb_spec (x - inject_Z f) (1 # 2)) as [H1|H1];
      destruct (Qltb_spec (y - inject_Z f) (1 # 2)) as [H2|H2];
      try lia; try (exfalso; lra).
    + destruct (Qltb (1 # 2) (y - inject_Z f)); [lia|].
      destruct (Z.even f); lia.
    + destruct (Qltb_spec (1 # 2) (x - inject_Z f)) as [H3|H3];
        destruct (Qltb_spec (1 # 2) (y - inject_Z f)) as [H4|H4];
        try lia; try (exfalso; lra).
      destruct (Z.even f); lia.
  - pose proof (round_half_even_range x). pose proof (round_half_even_range y). lia.
Qed.

Lemma round2_mono (x y : Q) : x <= y -> round2 x <= round2 y.
Proof.
  intros H. rewrite !round2_value.
  assert (Hm : x * 100 <= y * 100) by lra.
  apply round_half_even_mono in Hm.
  rewrite Zle_Qle in Hm.
  apply Qmult_le_compat_r with (z := / 100) in Hm; [exact Hm | discriminate].
Qed.

Lemma round2_of_Z (z : Z) (x : Q) : x == inject_Z z -> round2 x == inject_Z z.
Proof.
  intros H. rewrite H, round2_value.
  assert (E : inject_Z z * 100 == inject_Z (z * 100)).
  { rewrite inject_Z_mult. reflexivity. }
  rewrite (round_half_even_comp _ _ E), round_half_even_Z.
  rewrite inject_Z_mult. field.
Qed.

Lemma round2_bounds (lo hi : Z) (q : Q) :
  inject_Z lo <= q <= inject_Z hi -> inject_Z lo <= round2 q <= inject_Z hi.
Proof.
  intros [H1 H2]. split.
  - rewrite <- (round2_of_Z lo (inject_Z lo)) by reflexivity. now apply round2_mono.
  - rewrite <- (round2_of_Z hi (inject_Z hi)) by reflexivity. now apply round2_mono.
Qed.

(* ===================================================================== *)
(** * Normalizer: [normalize_value] *)
(* ===================================================================== *)

Import DataNormalizer.

Lemma pydiv_ok (x y : Q) : ~ y == 0 -> pydiv x y = Ok (x / y).
Proof.
  intros H. unfold pydiv. destruct (Qeq_bool_spec y 0); [contradiction | reflexivity].
Qed.

Lemma clamp_cases (lo hi v : Q) :
  lo < hi ->
  (v < lo /\ clamp lo hi v = lo) \/
  (lo <= v <= hi /\ clamp lo hi v == v) \/
  (hi < v /\ clamp lo hi v = hi).
Proof.
  intros Hlh. unfold clamp, py_max2, py_min2.
  destruct (Qltb_spec v hi) as [H1|H1].
  - destruct (Qltb_spec lo v) as [H2|H2].
    + right; left. split; [split; lra | reflexivity].
    + destruct (Qlt_le_dec v lo) as [H3|H3].
      * left. now split.
      * right; left. split; [split; lra | lra].
  - destruct (Qltb_spec lo hi) as [H2|H2]; [|exfalso; lra].
    destruct (Qlt_le_dec hi v) as [H3|H3].
    + right; right. now split.
    + right; left. split; [split; lra | lra].
Qed.

Lemma clamp_lo (lo hi : Q) : lo < hi -> clamp lo hi lo = lo.
Proof.
  intros Hlh. unfold clamp, py_max2, py_min2.
  destruct (Qltb_spec lo hi); [|exfalso; lra].
  destruct (Qltb_spec lo lo); [exfalso; lra | reflexivity].
Qed.

Lemma clamp_hi (lo hi : Q) : lo < hi -> clamp lo hi hi = hi.
Proof.
  intros Hlh. unfold clamp, py_max2, py_min2.
  destruct (Qltb_spec hi hi); [exfalso; lra|].
  destruct (Qltb_spec lo hi); [reflexivity | exfalso; lra].
Qed.

Lemma clamp_mono (lo hi v w : Q) :
  lo < hi -> v <= w -> clamp lo hi v <= clamp lo hi w.
Proof.
  intros Hlh Hvw.
  destruct (clamp_cases lo hi v Hlh) as [[Hv Ev]|[[Hv Ev]|[Hv Ev]]];
    destruct (clamp_cases lo hi w Hlh) as [[Hw Ew]|[[Hw Ew]|[Hw Ew]]];
    rewrite Ev, Ew; lra.
Qed.

Lemma clamp_range (lo hi v : Q) : lo < hi -> lo <= clamp lo hi v <= hi.
Proof.
  intros Hlh.
  destruct (clamp_cases lo hi v Hlh) as [[Hv Ev]|[[Hv Ev]|[Hv Ev]]];
    rewrite Ev; lra.
Qed.

Lemma normalize_value_num (lo hi v : Q) :
  lo < hi ->
  normalize_value (VNum v) lo hi true
  = Ok (round2 ((clamp lo hi v - lo) / (hi - lo) * 100)).
Proof.
  intros Hlh. unfold normalize_value. cbn [as_num bind].
  rewrite pydiv_ok by lra. reflexivity.
Qed.

Lemma scale_mono (lo hi a b : Q) :
  lo < hi -> a <= b -> (a - lo) / (hi - lo) * 100 <= (b - lo) / (hi - lo) * 100.
Proof.
  intros Hlh Hab.
  apply Qmult_le_compat_r; [|discriminate].
  unfold Qdiv. apply Qmult_le_compat_r; [lra|].
  apply Qinv_le_0_compat. lra.
Qed.

Lemma scale_lo (lo hi : Q) : lo < hi -> (lo - lo) / (hi - lo) * 100 == 0.
Proof. intros H. field. lra. Qed.

Lemma scale_hi (lo hi : Q) : lo < hi -> (hi - lo) / (hi - lo) * 100 == 100.
Proof. intros H. field. lra. Qed.

Lemma baselines_well_formed :
  Forall (fun b => min b < max b /\ higher_better b = true)
    ([baselines_cpu; baselines_memory; baselines_network]
       ++ map snd baselines_disk)%list.
Proof. repeat constructor. Qed.

Example cpu_5500_scores_54_55 :
  exists s, normalize_value (VNum 5500) 100 10000 true = Ok s /\ s == 5455 # 100.
Proof. eexists. split; reflexivity. Qed.

(** C5. With [higher_better = True] and a baseline [lo < hi],
    [normalize_value] is defined on every number, non-decreasing, sends
    [lo] to 0 and [hi] to 100, gives an input below [lo] the score of [lo]
    and an input above [hi] the score of [hi], and stays within [0, 100]. *)
Theorem normalize_value_clamped_monotone (lo hi : Q) :
  lo < hi ->
  (forall v, exists s,
      normalize_value (VNum v) lo hi true = Ok s /\ 0 <= s <= 100) /\
  (forall v w s t, v <= w ->
      normalize_value (VNum v) lo hi true = Ok s ->
      normalize_value (VNum w) lo hi true = Ok t -> s <= t) /\
  (exists s, normalize_value (VNum lo) lo hi true = Ok s /\ s == 0) /\
  (exists s, normalize_value (VNum hi) lo hi true = Ok s /\ s == 100) /\
  (forall v, v < lo ->
      normalize_value (VNum v) lo hi true = normalize_value (VNum lo) lo hi true) /\
  (forall v, hi < v ->
      normalize_value (VNum v) lo hi true = normalize_value (VNum hi) lo hi true).
Proof.
  intros Hlh. repeat split.
  - intros v. eexists. split; [apply normalize_value_num; exact Hlh|].
    apply (round2_bounds 0 100).
    pose proof (clamp_range lo hi v Hlh) as [Hc1 Hc2].
    pose proof (scale_mono lo hi _ _ Hlh Hc1) as Hlo.
    pose proof (scale_mono lo hi _ _ Hlh Hc2) as Hhi.
    rewrite (scale_lo lo hi Hlh) in Hlo. rewrite (scale_hi lo hi Hlh) in Hhi.
    split; assumption.
  - intros v w s t Hvw Hs Ht.
    rewrite normalize_value_num in Hs, Ht by exact Hlh.
    injection Hs as <-. injection Ht as <-.
    apply round2_mono, scale_mono; [exact Hlh|].
    now apply clamp_mono.
  - eexists. split; [apply normalize_value_num; exact Hlh|].
    apply (round2_of_Z 0). rewrite clamp_lo by exact Hlh.
    apply scale_lo; exact Hlh.
  - eexists. split; [apply normalize_value_num; exact Hlh|].
    apply (round2_of_Z 100). rewrite clamp_hi by exact Hlh.
    apply scale_hi; exact Hlh.
  - intros v Hv. rewrite !normalize_value_num by exact Hlh.
    destruct (clamp_cases lo hi v Hlh) as [[Hv' Ev]|[[Hv' Ev]|[Hv' Ev]]]; try lra.
    now rewrite Ev, clamp_lo.
  - intros v Hv. rewrite !normalize_value_num by exact Hlh.
    destruct (clamp_cases lo hi v Hlh) as [[Hv' Ev]|[[Hv' Ev]|[Hv' Ev]]]; try lra.
    now rewrite Ev, clamp_hi.
Qed.

Lemma normalize_value_clamped_monotone_witness :
  100 < 10000 /\
  exists s, normalize_value (VNum 5500) 100 10000 true = Ok s /\ 0 <= s <= 100.
Proof.
  split; [reflexivity|].
  apply (proj1 (normalize_value_clamped_monotone 100 10000 eq_refl)).
Defined.

(* ===================================================================== *)
(** * Aggregator: statistics of one metric *)
(* ===================================================================== *)

Lemma bind_ok {A B : Type} (m : res A) (k : A -> res B) (b : B) :
  bind m k = Ok b -> exists a, m = Ok a /\ k a = Ok b.
Proof.
  destruct m as [a|e]; cbn; intros H; [eauto | discriminate].
Qed.

Lemma bind_raise {A B : Type} (m : res A) (k : A -> res B) (e : exn) :
  bind m k = Raise e -> m = Raise e \/ exists a, m = Ok a /\ k a = Raise e.
Proof.
  destruct m as [a|e']; cbn; intros H; [right; eauto | left; congruence].
Qed.

Lemma as_num_raise (v : value) (e : exn) : as_num v = Raise e -> e = TypeError.
Proof. destruct v as [| [] | | | |]; cbn; congruence. Qed.

Lemma mapM_as_num_raise (vs : list value) (e : exn) :
  mapM as_num vs = Raise e -> e = TypeError.
Proof.
  induction vs as [|v vs IH]; cbn; [discriminate|].
  intros H. apply bind_raise in H as [H|(q & _ & H)].
  - eapply as_num_raise; eauto.
  - apply bind_raise in H as [H|(qs & _ & H)]; [auto | discriminate].
Qed.

Lemma mapM_length {A B : Type} (f : A -> res B) (l : list A) (l' : list B) :
  mapM f l = Ok l' -> List.length l' = List.length l.
Proof.
  revert l'. induction l as [|x xs IH]; cbn; intros l' H.
  - now injection H as <-.
  - apply bind_ok in H as (y & _ & H). apply bind_ok in H as (ys & Hys & H).
    injection H as <-. cbn. f_equal. now apply IH.
Qed.

Lemma insert_sorted_length (x : Q) (l : list Q) :
  List.length (Statistics.insert_sorted x l) = S (List.length l).
Proof.
  induction l as [|y ys IH]; cbn; [reflexivity|].
  destruct (Qltb x y); cbn; [reflexivity | now rewrite IH].
Qed.

Lemma sorted_length (data : list Q) :
  List.length (Statistics.sorted data) = List.length data.
Proof.
  unfold Statistics.sorted.
  assert (G : forall acc,
             List.length (fold_left (fun a x => Statistics.insert_sorted x a) data acc)
             = (List.length data + List.length acc)%nat).
  { induction data as [|x xs IH]; intros acc; cbn; [reflexivity|].
    rewrite IH, insert_sorted_length. lia. }
  rewrite G. cbn. lia.
Qed.

Lemma median_ok (data : list Q) :
  data <> [] -> exists m, Statistics.median data = Ok m.
Proof.
  intros Hne. unfold Statistics.median.
  pose proof (sorted_length data) as Hl.
  destruct (List.length (Statistics.sorted data)) as [|n] eqn:E.
  - destruct data; [contradiction | discriminate].
  - destruct (Nat.odd (S n)); eauto.
Qed.

Lemma mean_ok (x : Q) (xs : list Q) :
  Statistics.mean (x :: xs) = Ok (py_sum (x :: xs) / len (x :: xs)).
Proof. reflexivity. Qed.

Lemma stdev_ok (sqrt : Q -> Q) (data : list Q) :
  (2 <= List.length data)%nat -> exists s, Statistics.stdev sqrt data = Ok s.
Proof.
  intros H. unfold Statistics.stdev, Statistics.variance.
  destruct (Nat.ltb_spec (List.length data) 2); [lia|]. cbn. eauto.
Qed.

Lemma metric_statistics_guarded (sqrt : Q -> Q) (values : list value) (nums : list Q) :
  mapM as_num values = Ok nums -> nums <> [] ->
  exists entry,
    Benchmarks.metric_statistics sqrt values = Ok entry /\
    guarded_entry sqrt nums entry.
Proof.
  intros Hnums Hne. unfold Benchmarks.metric_statistics, guarded_entry.
  rewrite Hnums. cbn [bind].
  destruct nums as [|x xs]; [contradiction|].
  rewrite !mean_ok. cbn [bind].
  destruct (median_ok (x :: xs) Hne) as [md ->]. cbn [bind].
  change (py_min (x :: xs)) with (Ok (fold_left py_min2 xs x)).
  change (py_max (x :: xs)) with (Ok (fold_left py_max2 xs x)).
  set (mean := py_sum (x :: xs) / len (x :: xs)).
  destruct (Nat.ltb_spec 1 (List.length (x :: xs))) as [Hlen|Hlen].
  - destruct (stdev_ok sqrt (x :: xs) Hlen) as [s Hs]. rewrite Hs. cbn [bind].
    destruct (Qltb_spec 0 mean) as [Hm|Hm].
    + rewrite pydiv_ok by lra. cbn [bind].
      eexists. split; [reflexivity|].
      do 6 eexists. split; [reflexivity|].
      repeat split; try reflexivity; intros; try lia; try lra.
    + eexists. split; [reflexivity|].
      do 6 eexists. split; [reflexivity|].
      repeat split; try reflexivity; intros; try lia; try lra.
  - cbn [bind]. eexists. split; [reflexivity|].
    do 6 eexists. split; [reflexivity|].
    repeat split; try reflexivity; intros; try lia.
Qed.

Lemma metric_statistics_inv (sqrt : Q -> Q) (values : list value) (entry : value) :
  values <> [] ->
  Benchmarks.metric_statistics sqrt values = Ok entry ->
  exists nums, nums <> [] /\ guarded_entry sqrt nums entry.
Proof.
  intros Hne H.
  destruct (mapM as_num values) as [nums|e] eqn:Hn.
  - assert (Hnums : nums <> []).
    { apply mapM_length in Hn. destruct nums; [|discriminate].
      destruct values; [contradiction | discriminate]. }
    destruct (metric_statistics_guarded sqrt values nums Hn Hnums) as (e' & He' & G).
    rewrite He' in H. injection H as <-. eauto.
  - unfold Benchmarks.metric_statistics in H. rewrite Hn in H. discriminate.
Qed.

Lemma metric_statistics_raise (sqrt : Q -> Q) (values : list value) (e : exn) :
  values <> [] ->
  Benchmarks.metric_statistics sqrt values = Raise e -> e = TypeError.
Proof.
  intros Hne H.
  destruct (mapM as_num values) as [nums|e'] eqn:Hn.
  - assert (Hnums : nums <> []).
    { apply mapM_length in Hn. destruct nums; [|discriminate].
      destruct values; [contradiction | discriminate]. }
    destruct (metric_statistics_guarded sqrt values nums Hn Hnums) as (e' & He' & _).
    congruence.
  - unfold Benchmarks.metric_statistics in H. rewrite Hn in H. cbn in H.
    injection H as <-. eapply mapM_as_num_raise; eauto.
Qed.

Lemma py_in_raise (k : string) (v : value) (e : exn) :
  py_in k v = Raise e -> type_fault e.
Proof. destruct v; cbn; intros H; try discriminate; injection H as <-; now left. Qed.

Lemma py_get_raise (v : value) (k : string) (d : value) (e : exn) :
  py_get v k d = Raise e -> type_fault e.
Proof. destruct v; cbn; intros H; try discriminate; injection H as <-; now right. Qed.

Lemma metric_values_raise (skip : bool) (metric : string) (results : list value) (e : exn) :
  Benchmarks.metric_values skip metric results = Raise e -> type_fault e.
Proof.
  induction results as [|r rs IH]; cbn; [discriminate|].
  intros H. apply bind_raise in H as [H|(present & _ & H)].
  - eapply py_in_raise; eauto.
  - destruct present; [|auto].
    apply bind_raise in H as [H|(v & _ & H)]; [eapply py_get_raise; eauto|].
    assert (G : Benchmarks.metric_values skip metric rs = Raise e).
    { destruct skip, v; try exact H;
        apply bind_raise in H as [H|(vs & _ & H)]; auto; discriminate. }
    auto.
Qed.

Lemma dict_set_In (k k' : string) (v e : value) (d : dict) :
  In (k, e) (dict_set k' v d) -> e = v \/ In (k, e) d.
Proof.
  induction d as [|[k0 v0] d IH]; cbn.
  - intros [H|[]]. left. congruence.
  - destruct (String.eqb k' k0); cbn.
    + intros [H|H]; [left; congruence | right; now right].
    + intros [H|H]; [right; now left|].
      destruct (IH H); [now left | right; now right].
Qed.

Lemma statistics_loop_entries (sqrt : Q -> Q) (skip : bool) (metrics : list string)
    (results : list value) (P : value -> Prop) :
  (forall values entry, values <> [] ->
     Benchmarks.metric_statistics sqrt values = Ok entry -> P entry) ->
  forall acc statistics,
    Benchmarks.statistics_loop sqrt skip metrics results acc = Ok statistics ->
    (forall k e, In (k, e) acc -> P e) ->
    forall k e, In (k, e) statistics -> P e.
Proof.
  intros HP. induction metrics as [|metric rest IH]; cbn; intros acc statistics H Hacc.
  - now injection H as <-.
  - apply bind_ok in H as (values & _ & H).
    destruct values as [|v vs]; [eapply IH; eauto|].
    apply bind_ok in H as (entry & He & H).
    eapply IH; [exact H|].
    intros k e Hin. apply dict_set_In in Hin as [->|Hin]; [|eauto].
    eapply HP; [|exact He]. discriminate.
Qed.

Lemma statistics_loop_raise (sqrt : Q -> Q) (skip : bool) (metrics : list string)
    (results : list value) (acc : dict) (e : exn) :
  Benchmarks.statistics_loop sqrt skip metrics results acc = Raise e -> type_fault e.
Proof.
  revert acc. induction metrics as [|metric rest IH]; cbn; intros acc H; [discriminate|].
  apply bind_raise in H as [H|(values & _ & H)].
  - eapply metric_values_raise; eauto.
  - destruct values as [|v vs]; [eauto|].
    apply bind_raise in H as [H|(entry & _ & H)]; [|eauto].
    left. eapply metric_statistics_raise; [|exact H]. discriminate.
Qed.

(** C9. Every per-metric entry an aggregation stores has [stdev = 0] and
    [variance_percent = 0] for a single sample, has
    [variance_percent = stdev / mean * 100] for two or more samples of
    positive mean and [variance_percent = 0] otherwise; the entry is always
    produced for numeric samples, and no aggregation ends in a division by
    zero or a [StatisticsError]. *)
Theorem aggregated_variance_guarded (sqrt : Q -> Q) :
  (forall values nums,
      mapM as_num values = Ok nums -> nums <> [] ->
      exists entry,
        Benchmarks.metric_statistics sqrt values = Ok entry /\
        guarded_entry sqrt nums entry) /\
  (forall skip metrics results agg,
      results <> [] ->
      Benchmarks.aggregate sqrt skip metrics results = Ok agg ->
      exists statistics,
        agg = VDict [("runs", VList results); ("statistics", VDict statistics)] /\
        forall k entry, In (k, entry) statistics ->
          exists nums, nums <> [] /\ guarded_entry sqrt nums entry) /\
  (forall skip metrics results e,
      Benchmarks.aggregate sqrt skip metrics results = Raise e -> type_fault e).
Proof.
  split; [|split].
  - intros values nums. apply metric_statistics_guarded.
  - intros skip metrics results agg Hne H. unfold Benchmarks.aggregate in H.
    destruct results as [|r rs]; [contradiction|].
    apply bind_ok in H as (statistics & Hs & H). injection H as <-.
    exists statistics. split; [reflexivity|].
    eapply statistics_loop_entries; [|exact Hs|].
    + intros values entry. apply metric_statistics_inv.
    + intros k e [].
  - intros skip metrics results e H. unfold Benchmarks.aggregate in H.
    destruct results as [|r rs]; [discriminate|].
    apply bind_raise in H as [H|(statistics & _ & H)]; [|discriminate].
    eapply statistics_loop_raise; eauto.
Qed.

Lemma aggregated_variance_guarded_witness :
  exists entry,
    Benchmarks.metric_statistics (fun q => q) [VNum 5] = Ok entry /\
    guarded_entry (fun q => q) [5] entry.
Proof.
  apply (proj1 (aggregated_variance_guarded (fun q => q)) [VNum 5] [5]).
  - reflexivity.
  - discriminate.
Defined.

(* ===================================================================== *)
(** * Aggregator: a failed run *)
(* ===================================================================== *)

(** The CPU, memory and network loops stop at the first failed run and
    return its record, however many runs succeeded before it. *)
Lemma run_loop_fail_fast (aggregate_results : list value -> res value)
    (shown : string) (run_single_test : nat -> value) (k : nat) :
  forall todo i all_results,
    (k < todo)%nat ->
    (forall j, (j < k)%nat -> clean_run shown (run_single_test (i + j)%nat)) ->
    py_in "error" (run_single_test (i + k)%nat) = Ok true ->
    Benchmarks.run_loop aggregate_results shown run_single_test todo i all_results
    = Ok (run_single_test (i + k)%nat).
Proof.
  induction k as [|k IH]; intros todo i all_results Hk Hclean Herr.
  - destruct todo as [|todo]; [lia|]. cbn.
    rewrite Nat.add_0_r in Herr. rewrite Herr. cbn. now rewrite Nat.add_0_r.
  - destruct todo as [|todo]; [lia|]. cbn.
    destruct (Hclean 0%nat ltac:(lia)) as (H0 & v & Hv & Hf).
    rewrite Nat.add_0_r in H0, Hv. rewrite H0. cbn. rewrite Hv. cbn. rewrite Hf. cbn.
    replace (i + S k)%nat with (S i + k)%nat by lia.
    apply IH; [lia| |].
    + intros j Hj. replace (S i + j)%nat with (i + S j)%nat by lia.
      apply Hclean. lia.
    + now replace (S i + k)%nat with (i + S k)%nat by lia.
Qed.

Lemma cpu_run_fail_fast (sqrt : Q -> Q) (run_single_test : nat -> value) (k num_runs : nat) :
  (k < num_runs)%nat ->
  (forall j, (j < k)%nat -> clean_run "events_per_second" (run_single_test j)) ->
  py_in "error" (run_single_test k) = Ok true ->
  CPUBenchmark.run sqrt run_single_test num_runs = Ok (run_single_test k).
Proof.
  intros. unfold CPUBenchmark.run.
  now apply (run_loop_fail_fast _ _ _ k num_runs 0%nat []).
Qed.

Lemma memory_run_fail_fast (sqrt : Q -> Q) (run_single_test : nat -> value) (k num_runs : nat) :
  (k < num_runs)%nat ->
  (forall j, (j < k)%nat -> clean_run "transfer_rate_mib_sec" (run_single_test j)) ->
  py_in "error" (run_single_test k) = Ok true ->
  MemoryBenchmark.run sqrt run_single_test num_runs = Ok (run_single_test k).
Proof.
  intros. unfold MemoryBenchmark.run.
  now apply (run_loop_fail_fast _ _ _ k num_runs 0%nat []).
Qed.

Lemma network_run_fail_fast (sqrt : Q -> Q) (run_single_test : nat -> value) (k num_runs : nat) :
  (k < num_runs)%nat ->
  (forall j, (j < k)%nat -> clean_run "bandwidth_mbps" (run_single_test j)) ->
  py_in "error" (run_single_test k) = Ok true ->
  NetworkBenchmark.run sqrt run_single_test num_runs = Ok (run_single_test k).
Proof.
  intros. unfold NetworkBenchmark.run.
  now apply (run_loop_fail_fast _ _ _ k num_runs 0%nat []).
Qed.

Example cpu_run_returns_error (sqrt : Q -> Q) :
  CPUBenchmark.run sqrt flaky_cpu 3 = Ok timed_out.
Proof. reflexivity. Qed.

Lemma dict_lookup_set_eq (k : string) (v : value) (d : dict) :
  dict_lookup k (dict_set k v d) = Some v.
Proof.
  induction d as [|[k' v'] d IH]; cbn.
  - now rewrite String.eqb_refl.
  - destruct (String.eqb k k') eqn:E; cbn; rewrite E; [reflexivity | exact IH].
Qed.

Lemma dict_lookup_set_ne (k k' : string) (v : value) (d : dict) :
  k <> k' -> dict_lookup k (dict_set k' v d) = dict_lookup k d.
Proof.
  intros Hne. induction d as [|[k0 v0] d IH]; cbn.
  - destruct (String.eqb_spec k k'); [contradiction | reflexivity].
  - destruct (String.eqb_spec k' k0) as [->|N]; cbn.
    + destruct (String.eqb_spec k k0); [contradiction | reflexivity].
    + destruct (String.eqb k k0); [reflexivity | exact IH].
Qed.

Lemma aggregate_shape (sqrt : Q -> Q) (skip : bool) (metrics : list string)
    (results : list value) (agg : value) :
  results <> [] ->
  Benchmarks.aggregate sqrt skip metrics results = Ok agg ->
  exists statistics,
    agg = VDict [("runs", VList results); ("statistics", VDict statistics)].
Proof.
  intros Hne H. unfold Benchmarks.aggregate in H.
  destruct results as [|r rs]; [contradiction|].
  apply bind_ok in H as (statistics & _ & H). injection H as <-. eauto.
Qed.

(** The inner disk loop on [k] good runs followed by a failed one: the
    error is stored under the pattern, and the good runs stay in
    [test_results]. *)
Lemma runs_loop_break (run_single_test : nat -> string -> value) (t : string) (k : nat) :
  forall todo calls all_results test_results,
    (k < todo)%nat ->
    (forall j, (j < k)%nat -> clean_run "iops" (run_single_test (calls + j)%nat t)) ->
    py_in "error" (run_single_test (calls + k)%nat t) = Ok true ->
    DiskBenchmark.runs_loop run_single_test t todo calls all_results test_results
    = Ok (dict_set t (run_single_test (calls + k)%nat t) all_results,
          (test_results
             ++ map (fun j => run_single_test (calls + j)%nat t) (seq 0 k))%list,
          S (calls + k)).
Proof.
  induction k as [|k IH]; intros todo calls all_results test_results Hk Hclean Herr.
  - destruct todo as [|todo]; [lia|]. cbn [DiskBenchmark.runs_loop].
    rewrite Nat.add_0_r in *. rewrite Herr. cbn. now rewrite app_nil_r.
  - destruct todo as [|todo]; [lia|]. cbn [DiskBenchmark.runs_loop].
    destruct (Hclean 0%nat ltac:(lia)) as (H0 & v & Hv & Hf).
    rewrite Nat.add_0_r in H0, Hv. rewrite H0. cbn [bind]. rewrite Hv. cbn [bind].
    rewrite Hf. cbn [bind].
    rewrite (IH todo (S calls)); [| lia | |].
    + replace (S calls + k)%nat with (calls + S k)%nat by lia.
      rewrite <- app_assoc. cbn [app seq map].
      rewrite Nat.add_0_r, <- seq_shift, map_map.
      assert (E : map (fun j => run_single_test (S calls + j)%nat t) (seq 0 k)
                  = map (fun j => run_single_test (calls + S j)%nat t) (seq 0 k)).
      { apply map_ext. intros j. f_equal. lia. }
      now rewrite E.
    + intros j Hj. replace (S calls + j)%nat with (calls + S j)%nat by lia.
      apply Hclean. lia.
    + now replace (S calls + k)%nat with (calls + S k)%nat by lia.
Qed.

Lemma runs_loop_all_results (run_single_test : nat -> string -> value) (t : string) :
  forall todo calls all_results test_results all_results' test_results' calls',
    DiskBenchmark.runs_loop run_single_test t todo calls all_results test_results
    = Ok (all_results', test_results', calls') ->
    all_results' = all_results \/ exists r, all_results' = dict_set t r all_results.
Proof.
  induction todo as [|todo IH]; intros calls ar tr ar' tr' calls' H;
    cbn [DiskBenchmark.runs_loop] in H.
  - injection H as <- _ _. now left.
  - apply bind_ok in H as (failed & _ & H). destruct failed.
    + injection H as <- _ _. right. eauto.
    + apply bind_ok in H as (iops & _ & H). apply bind_ok in H as (u & _ & H).
      eapply IH; eauto.
Qed.

(** Later patterns leave the entry of an earlier pattern alone. *)
Lemma types_loop_other (sqrt : Q -> Q) (run_single_test : nat -> string -> value)
    (key : string) (num_runs : nat) (types : list string) :
  ~ In key types ->
  forall calls all_results final,
    DiskBenchmark.types_loop sqrt run_single_test types num_runs calls all_results
    = Ok final ->
    dict_lookup key final = dict_lookup key all_results.
Proof.
  induction types as [|t rest IH]; intros Hnot calls ar final H;
    cbn [DiskBenchmark.types_loop] in H.
  - now injection H as <-.
  - assert (Hne : key <> t) by (intros ->; apply Hnot; now left).
    assert (Hrest : ~ In key rest) by (intros Hin; apply Hnot; now right).
    apply bind_ok in H as ([[ar1 tr1] calls1] & Hruns & H).
    assert (Hl : dict_lookup key ar1 = dict_lookup key ar).
    { destruct (runs_loop_all_results _ _ _ _ _ _ _ _ _ Hruns) as [->|(r & ->)];
        [reflexivity | now apply dict_lookup_set_ne]. }
    destruct tr1 as [|x tr1].
    + rewrite (IH Hrest _ _ _ H). exact Hl.
    + apply bind_ok in H as (agg & _ & H).
      rewrite (IH Hrest _ _ _ H), dict_lookup_set_ne by exact Hne. exact Hl.
Qed.

(** C3. The disk benchmark does not fail fast.  When the first [k >= 1]
    runs of the first pattern succeed and the next one fails, the error
    record stored for the pattern is replaced: the result of the run-set is
    the statistics object over the [k] runs that succeeded. *)
Theorem disk_run_keeps_partial_statistics (sqrt : Q -> Q)
    (run_single_test : nat -> string -> value) (num_runs k : nat)
    (all_results : dict) :
  (1 <= k < num_runs)%nat ->
  (forall j, (j < k)%nat -> clean_run "iops" (run_single_test j "randread")) ->
  py_in "error" (run_single_test k "randread") = Ok true ->
  DiskBenchmark.run sqrt run_single_test num_runs = Ok (VDict all_results) ->
  exists statistics,
    dict_lookup "randread" all_results
    = Some (VDict [("runs",
                    VList (map (fun j => run_single_test j "randread") (seq 0 k)));
                   ("statistics", VDict statistics)]) /\
    DiskBenchmark.aggregate_results sqrt
      (map (fun j => run_single_test j "randread") (seq 0 k))
    = Ok (VDict [("runs",
                  VList (map (fun j => run_single_test j "randread") (seq 0 k)));
                 ("statistics", VDict statistics)]) /\
    dict_lookup "randread" all_results <> Some (run_single_test k "randread").
Proof.
  intros [Hk1 Hk] Hclean Herr Hrun.
  unfold DiskBenchmark.run in Hrun.
  apply bind_ok in Hrun as (final & Hloop & Hrun). injection Hrun as <-.
  unfold DiskBenchmark.test_types in Hloop.
  cbn [DiskBenchmark.types_loop] in Hloop.
  rewrite (runs_loop_break run_single_test "randread" k num_runs 0%nat [] [])
    in Hloop by assumption.
  cbn [bind app Nat.add] in Hloop.
  set (runs := map (fun j => run_single_test j "randread") (seq 0 k)) in *.
  assert (Hne : runs <> []).
  { subst runs. destruct k; [lia | discriminate]. }
  destruct runs as [|r0 runs'] eqn:Eruns; [contradiction|].
  apply bind_ok in Hloop as (agg & Hagg & Hloop).
  pose proof Hagg as Hshape. unfold DiskBenchmark.aggregate_results in Hshape.
  destruct (aggregate_shape _ _ _ _ _ Hne Hshape) as (statistics & ->).
  exists statistics.
  assert (Hfinal : dict_lookup "randread" final
                   = Some (VDict [("runs", VList (r0 :: runs'));
                                  ("statistics", VDict statistics)])).
  { rewrite (types_loop_other sqrt run_single_test "randread" num_runs
               ["randwrite"; "read"; "write"] ltac:(cbn; intuition discriminate)
               _ _ _ Hloop).
    apply dict_lookup_set_eq. }
  split; [exact Hfinal|]. split; [exact Hagg|].
  rewrite Hfinal. intros E. injection E as E.
  rewrite <- E in Herr. discriminate.
Qed.

Lemma disk_run_keeps_partial_statistics_witness :
  exists all_results statistics,
    DiskBenchmark.run (fun q => q) flaky_disk 3 = Ok (VDict all_results) /\
    dict_lookup "randread" all_results
    = Some (VDict [("runs", VList [disk_sample "randread"]);
                   ("statistics", VDict statistics)]) /\
    dict_lookup "randread" all_results <> Some timed_out.
Proof.
  destruct (DiskBenchmark.run (fun q => q) flaky_disk 3)
    as [[| | | | |all_results]|e] eqn:Hrun;
    try (vm_compute in Hrun; discriminate).
  exists all_results.
  destruct (disk_run_keeps_partial_statistics (fun q => q) flaky_disk 3 1 all_results)
    as (statistics & Hl & _ & Hne).
  - lia.
  - intros j Hj. assert (j = 0%nat) as -> by lia.
    split; [reflexivity|]. exists (VNum 5000). split; reflexivity.
  - reflexivity.
  - exact Hrun.
  - exists statistics. split; [reflexivity|]. split; [exact Hl | exact Hne].
Defined.

(* ===================================================================== *)
(** * Normalizer: the disk average *)
(* ===================================================================== *)

Lemma dict_has_false (k : string) (d : dict) :
  dict_has k d = false -> dict_lookup k d = None.
Proof. unfold dict_has. destruct (dict_lookup k d); [discriminate | reflexivity]. Qed.

Lemma score_entry_measured (metric : string) (v : value) (mean : Q) (variance : value)
    (b : baseline) (s : Q) :
  measured metric v mean variance ->
  normalize_value (VNum mean) (min b) (max b) (higher_better b) = Ok s ->
  score_entry v metric b
  = Ok (VDict [("score", VNum s); ("raw_value", VNum mean);
               ("metric", VStr metric); ("variance", variance)]).
Proof.
  intros (d & stats & m & -> & _ & Hs & Hm & Hmean & ->) Hn.
  unfold score_entry. cbn [py_get bind].
  rewrite Hs. cbn [py_get bind]. rewrite Hm. cbn [py_get bind].
  rewrite Hmean, Hn. cbn [bind]. reflexivity.
Qed.

Lemma disk_loop_step (dr : dict) (t : string) (rest : list string) (n : dict)
    (e : option value) (s : option Q) :
  pattern dr t e s ->
  disk_loop (t :: rest) (VDict dr) n = disk_loop rest (VDict dr) (store t e n).
Proof.
  intros [Habs | v Hv (d & -> & Herr & _) | v mean variance b sc Hv Hm Hb Hn].
  - cbn [disk_loop py_in bind]. unfold dict_has. rewrite Habs. reflexivity.
  - cbn [disk_loop py_in py_index bind]. unfold dict_has at 1. rewrite Hv.
    cbn [negb py_in bind]. rewrite Herr. reflexivity.
  - cbn [disk_loop py_in py_index bind]. unfold dict_has at 1. rewrite Hv.
    cbn [negb bind].
    pose proof Hm as (d & stats & m & -> & Herr & _).
    cbn [py_in bind]. rewrite Herr, Hb. cbn [bind].
    fold (disk_metric t).
    rewrite (score_entry_measured _ _ _ _ _ _ Hm Hn). reflexivity.
Qed.

Lemma disk_scores_app (l1 l2 : list value) :
  disk_scores (l1 ++ l2)%list = (disk_scores l1 ++ disk_scores l2)%list.
Proof.
  induction l1 as [|v l1 IH]; [reflexivity|].
  destruct v as [| | | | |d]; cbn; try exact IH.
  destruct (dict_lookup "score" d); cbn; now rewrite IH.
Qed.

Lemma pattern_contributes (dr : dict) (t : string) (e : option value) (s : option Q) :
  pattern dr t e s -> disk_scores (present [e]) = map VNum (present [s]).
Proof.
  intros [Habs | v Hv (d & -> & _ & Hsc) | v mean variance b sc Hv Hm Hb Hn].
  - reflexivity.
  - cbn. now rewrite (dict_has_false _ _ Hsc).
  - reflexivity.
Qed.

Lemma mapM_as_num_VNum (xs : list Q) : mapM as_num (map VNum xs) = Ok xs.
Proof.
  induction xs as [|x xs IH]; [reflexivity|]. cbn. now rewrite IH.
Qed.

Lemma len_pos {A : Type} (x : A) (xs : list A) : 0 < len (x :: xs).
Proof.
  unfold len. change 0 with (inject_Z 0). rewrite <- Zlt_Qlt. cbn [List.length]. lia.
Qed.

Lemma average_of_scores (normalized : dict) (xs : list Q) :
  disk_scores (dict_values normalized) = map VNum xs ->
  average_score normalized = Ok (mean_of_present (map Some xs)).
Proof.
  intros H. unfold average_score, mean_of_present. rewrite H.
  assert (Hp : present (map Some xs) = xs).
  { clear. induction xs as [|x xs IH]; [reflexivity|]. cbn. now f_equal. }
  rewrite Hp.
  destruct xs as [|x xs]; [reflexivity|].
  cbn [map mapM as_num bind]. rewrite mapM_as_num_VNum. cbn [bind].
  assert (Hl : len (VNum x :: map VNum xs) = len (x :: xs)).
  { unfold len. cbn [List.length]. now rewrite length_map. }
  rewrite Hl, pydiv_ok; [reflexivity|].
  pose proof (len_pos x xs). lra.
Qed.

Lemma present_map_Some {A : Type} (l : list A) : present (map Some l) = l.
Proof. induction l as [|x l IH]; [reflexivity|]. cbn. now f_equal. Qed.

Lemma mean_of_present_idem (l : list (option Q)) :
  mean_of_present (map Some (present l)) = mean_of_present l.
Proof. unfold mean_of_present. now rewrite present_map_Some. Qed.

(** [normalize_disk] on results in which each pattern is absent, failed or
    measured: every entry is the failed record itself or the pattern's
    score entry, and [average_score] averages the measured patterns only. *)
Lemma normalize_disk_average (dr : dict)
    (e1 e2 e3 e4 : option value) (s1 s2 s3 s4 : option Q) :
  pattern dr "randread" e1 s1 ->
  pattern dr "randwrite" e2 s2 ->
  pattern dr "read" e3 s3 ->
  pattern dr "write" e4 s4 ->
  exists n,
    normalize_disk (VDict dr) = Ok (VDict n) /\
    dict_lookup "randread" n = e1 /\
    dict_lookup "randwrite" n = e2 /\
    dict_lookup "read" n = e3 /\
    dict_lookup "write" n = e4 /\
    dict_lookup "average_score" n = Some (VNum (mean_of_present [s1; s2; s3; s4])).
Proof.
  intros H1 H2 H3 H4. unfold normalize_disk, test_types.
  rewrite (disk_loop_step _ _ _ _ _ _ H1), (disk_loop_step _ _ _ _ _ _ H2),
    (disk_loop_step _ _ _ _ _ _ H3), (disk_loop_step _ _ _ _ _ _ H4).
  cbn [disk_loop bind].
  set (N := store "write" e4 (store "read" e3 (store "randwrite" e2
              (store "randread" e1 [])))).
  assert (HN : N = disk_entries [("randread", e1); ("randwrite", e2);
                                 ("read", e3); ("write", e4)]).
  { subst N. clear. destruct e1, e2, e3, e4; reflexivity. }
  assert (Hv : dict_values N
               = (present [e1] ++ present [e2] ++ present [e3] ++ present [e4])%list).
  { rewrite HN. clear. destruct e1, e2, e3, e4; reflexivity. }
  assert (Hs : disk_scores (dict_values N) = map VNum (present [s1; s2; s3; s4])).
  { rewrite Hv, !disk_scores_app.
    rewrite (pattern_contributes _ _ _ _ H1), (pattern_contributes _ _ _ _ H2),
      (pattern_contributes _ _ _ _ H3), (pattern_contributes _ _ _ _ H4).
    clear. destruct s1, s2, s3, s4; reflexivity. }
  rewrite (average_of_scores N _ Hs), mean_of_present_idem. cbn [bind].
  eexists. split; [reflexivity|].
  rewrite HN. clear. destruct e1, e2, e3, e4; cbn; repeat split.
Qed.

(* ===================================================================== *)
(** * Overall score *)
(* ===================================================================== *)

Lemma overall_loop_step (c : string) (w : Q) (rest : list (string * Q))
    (n : dict) (ts tw : Q) :
  overall_loop ((c, w) :: rest) n ts tw
  = (o <- domain_value n c ;;
     match o with
     | Some s => overall_loop rest n (ts + s * w) (tw + w)
     | None => overall_loop rest n ts tw
     end).
Proof.
  cbn [overall_loop]. unfold domain_value.
  destruct (dict_lookup c n) as [entry|]; [|reflexivity].
  destruct (py_get entry _ _) as [score|e]; [|reflexivity]. cbn [bind].
  destruct (as_num score); reflexivity.
Qed.

(** The overall score is the weighted mean over the domains present in the
    normalized record, whatever the four weights are. *)
Lemma overall_score_weighted_mean (w1 w2 w3 w4 : Q) (n : dict) (c m d nt : option Q) :
  domain_value n "cpu" = Ok c ->
  domain_value n "memory" = Ok m ->
  domain_value n "disk" = Ok d ->
  domain_value n "network" = Ok nt ->
  overall_score_with [("cpu", w1); ("memory", w2); ("disk", w3); ("network", w4)] n
  = Ok (weighted_mean [(c, w1); (m, w2); (d, w3); (nt, w4)]).
Proof.
  intros Hc Hm Hd Hn. unfold overall_score_with.
  rewrite overall_loop_step, Hc. cbn [bind].
  destruct c as [cs|]; rewrite overall_loop_step, Hm; cbn [bind];
    destruct m as [ms|]; rewrite overall_loop_step, Hd; cbn [bind];
    destruct d as [ds|]; rewrite overall_loop_step, Hn; cbn [bind];
    destruct nt as [ns|]; cbn [overall_loop bind];
    unfold weighted_mean, py_sum; cbn [flat_map app map snd fold_left];
    match goal with
    | |- context [Qltb 0 ?t] => destruct (Qltb_spec 0 t)
    end;
    try reflexivity; rewrite pydiv_ok by lra; reflexivity.
Qed.





Lemma timed_out_error_record : error_record timed_out.
Proof. exists [("error", VStr "Benchmark timed out")]. repeat split. Qed.

Lemma aggregated_measured (metric : string) (mean : Q) :
  measured metric (aggregated metric mean) mean (VNum 1).
Proof.
  exists [("runs", VList []);
          ("statistics",
           VDict [(metric, VDict [("mean", VNum mean); ("variance_percent", VNum 1)])])],
         [(metric, VDict [("mean", VNum mean); ("variance_percent", VNum 1)])],
         [("mean", VNum mean); ("variance_percent", VNum 1)].
  repeat split. cbn. now rewrite String.eqb_refl.
Qed.




Example normalize_cpu_and_memory_only :
  exists n x,
    normalize (VDict [("cpu", aggregated "events_per_second" 5500);
                      ("memory", aggregated "transfer_rate_mib_sec" 25500)])
    = Ok (VDict n) /\
    dict_has "disk" n = false /\ dict_has "network" n = false /\
    dict_lookup "overall_score" n = Some (VNum x) /\ x == 5273 # 100.
Proof. eexists. eexists. vm_compute. repeat split. Qed.




(* ===================================================================== *)
(** * Recommender: workload score and requirements *)
(* ===================================================================== *)

Import CapacityPlanner.

Lemma domain_score_missing (norm : dict) (domain key : string) :
  dict_lookup domain norm = None ->
  domain_score (VDict norm) domain key = Ok (VNum 0).
Proof. intros H. unfold domain_score. cbn. now rewrite H. Qed.

Lemma calculate_workload_score_sum (sys : system_t) (p : profile)
    (vc vm vd vn : value) (c m d n : Q) :
  domain_score (normalized sys) "cpu" "score" = Ok vc ->
  domain_score (normalized sys) "memory" "score" = Ok vm ->
  domain_score (normalized sys) "disk" "average_score" = Ok vd ->
  domain_score (normalized sys) "network" "score" = Ok vn ->
  as_num vc = Ok c -> as_num vm = Ok m -> as_num vd = Ok d -> as_num vn = Ok n ->
  calculate_workload_score sys p
  = Ok (round2 (c * cpu_weight p + m * memory_weight p +
                d * disk_weight p + n * network_weight p)).
Proof.
  intros Hc Hm Hd Hn Ec Em Ed En. unfold calculate_workload_score.
  rewrite Hc, Hm, Hd, Hn. cbn [bind]. rewrite Ec, Em, Ed, En. reflexivity.
Qed.




Lemma py_ge_num (v : value) (x threshold : Q) :
  as_num v = Ok x -> py_ge v threshold = Ok (Qle_bool threshold x).
Proof. intros H. unfold py_ge. now rewrite H. Qed.

(** C8. [check_requirements] is true exactly when each of the four domain
    scores reaches the profile's minimum; a domain missing from the
    normalized results scores 0, so the check fails when the minimum of a
    missing domain is positive. *)
Theorem check_requirements_iff (sys : system_t) (p : profile)
    (vc vm vd vn : value) (c m d n : Q) :
  domain_score (normalized sys) "cpu" "score" = Ok vc ->
  domain_score (normalized sys) "memory" "score" = Ok vm ->
  domain_score (normalized sys) "disk" "average_score" = Ok vd ->
  domain_score (normalized sys) "network" "score" = Ok vn ->
  as_num vc = Ok c -> as_num vm = Ok m -> as_num vd = Ok d -> as_num vn = Ok n ->
  (exists b,
      check_requirements sys p = Ok b /\
      (b = true <->
       cpu (min_scores p) <= c /\ memory (min_scores p) <= m /\
       disk (min_scores p) <= d /\ network (min_scores p) <= n)) /\
  (forall norm domain key,
      dict_lookup domain norm = None ->
      domain_score (VDict norm) domain key = Ok (VNum 0)) /\
  ((c == 0 /\ 0 < cpu (min_scores p)) \/
   (m == 0 /\ 0 < memory (min_scores p)) \/
   (d == 0 /\ 0 < disk (min_scores p)) \/
   (n == 0 /\ 0 < network (min_scores p)) ->
   check_requirements sys p = Ok false).
Proof.
  intros Hc Hm Hd Hn Ec Em Ed En.
  assert (E : check_requirements sys p
              = Ok (Qle_bool (cpu (min_scores p)) c &&
                    (Qle_bool (memory (min_scores p)) m &&
                     (Qle_bool (disk (min_scores p)) d &&
                      Qle_bool (network (min_scores p)) n)))).
  { unfold check_requirements. rewrite Hc, Hm, Hd, Hn. cbn [bind].
    rewrite (py_ge_num _ _ _ Ec), (py_ge_num _ _ _ Em),
      (py_ge_num _ _ _ Ed), (py_ge_num _ _ _ En).
    unfold py_and. cbn [bind].
    destruct (Qle_bool (cpu (min_scores p)) c); [|reflexivity].
    destruct (Qle_bool (memory (min_scores p)) m); [|reflexivity].
    destruct (Qle_bool (disk (min_scores p)) d); reflexivity. }
  split; [|split].
  - eexists. split; [exact E|].
    rewrite !andb_true_iff, !Qle_bool_iff. tauto.
  - apply domain_score_missing.
  - intros H. rewrite E. f_equal.
    apply not_true_is_false. rewrite !andb_true_iff, !Qle_bool_iff.
    intros (H1 & H2 & H3 & H4).
    destruct H as [[H0 Hp]|[[H0 Hp]|[[H0 Hp]|[H0 Hp]]]]; lra.
Qed.

Lemma check_requirements_iff_witness :
  exists b,
    check_requirements example_system compute_intensive = Ok b /\
    (b = true <-> 85 <= 90 /\ 70 <= 70 /\ 40 <= 50 /\ 30 <= 40).
Proof.
  apply (proj1 (check_requirements_iff example_system compute_intensive
                  (VNum 90) (VNum 70) (VNum 50) (VNum 40) 90 70 50 40
                  eq_refl eq_refl eq_refl eq_refl eq_refl eq_refl eq_refl eq_refl)).
Defined.

Example example_system_meets_requirements :
  check_requirements example_system compute_intensive = Ok true.
Proof. reflexivity. Qed.

(* ===================================================================== *)
(** * Recommender: cost ratio and best value *)
(* ===================================================================== *)

Lemma truthy_opt_true (o : option Q) :
  truthy_opt o = true <-> exists q, o = Some q /\ ~ q == 0.
Proof.
  destruct o as [q|]; cbn.
  - destruct (Qeq_bool_spec q 0) as [E|NE]; cbn; split.
    + discriminate.
    + intros (q' & Hq & Hn). injection Hq as <-. contradiction.
    + eauto.
    + reflexivity.
  - split; [discriminate | intros (q & Hq & _); discriminate].
Qed.

(** What the loop body stores for one system: the ratio is the workload
    score divided by the cost when the cost is present and not zero, and
    [None] otherwise. *)
Lemma recommend_one_fields (p : profile) (sys : system_t) (r : recommendation) :
  recommend_one p sys = Ok r ->
  system r = name sys /\
  calculate_workload_score sys p = Ok (workload_score r) /\
  check_requirements sys p = Ok (meets_requirements r) /\
  rec_cost r = cost sys /\
  cost_performance_ratio r
  = match cost sys with
    | Some c => if Qeq_bool c 0 then None else Some (workload_score r / c)
    | None => None
    end.
Proof.
  unfold recommend_one. intros H.
  apply bind_ok in H as (score & Hs & H).
  apply bind_ok in H as (meets & Hm & H).
  apply bind_ok in H as (ratio & Hr & H).
  injection H as <-. cbn. repeat split; try assumption.
  destruct (cost sys) as [c|]; cbn in Hr |- *.
  - unfold pydiv in Hr. destruct (Qeq_bool c 0); cbn in Hr; congruence.
  - congruence.
Qed.

Lemma mapM_In {A B : Type} (f : A -> res B) (l : list A) (l' : list B) (y : B) :
  mapM f l = Ok l' -> In y l' -> exists x, In x l /\ f x = Ok y.
Proof.
  revert l'. induction l as [|a l IH]; cbn; intros l' H Hy.
  - injection H as <-. contradiction.
  - apply bind_ok in H as (b & Hb & H). apply bind_ok in H as (bs & Hbs & H).
    injection H as <-. destruct Hy as [<-|Hy].
    + exists a. auto.
    + destruct (IH bs Hbs Hy) as (x & Hx & Hfx). exists x. auto.
Qed.

Lemma insert_desc_In {A : Type} (key : A -> Q) (x y : A) (l : list A) :
  In y (insert_desc key x l) <-> y = x \/ In y l.
Proof.
  induction l as [|z l IH]; cbn.
  - intuition congruence.
  - destruct (Qltb (key z) (key x)); cbn; [intuition congruence|].
    rewrite IH. intuition congruence.
Qed.

Lemma sort_desc_In {A : Type} (key : A -> Q) (y : A) (l : list A) :
  In y (sort_desc key l) <-> In y l.
Proof.
  unfold sort_desc.
  assert (G : forall acc,
             In y (fold_left (fun a x => insert_desc key x a) l acc)
             <-> In y l \/ In y acc).
  { induction l as [|x l IH]; intros acc; cbn; [tauto|].
    rewrite IH, insert_desc_In. intuition congruence. }
  rewrite G. cbn. tauto.
Qed.

(** Every recommendation returned comes from one loaded system. *)
Lemma recommend_for_workload_In (systems : list system_t) (workload_type : string)
    (recs : list recommendation) (r : recommendation) :
  recommend_for_workload systems workload_type = Ok recs -> In r recs ->
  exists p sys,
    profile_lookup workload_type workload_profiles = Some p /\
    In sys systems /\ recommend_one p sys = Ok r.
Proof.
  unfold recommend_for_workload. intros H Hr.
  destruct (profile_lookup workload_type workload_profiles) as [p|].
  - apply bind_ok in H as (rs & Hrs & H). injection H as <-.
    apply sort_desc_In in Hr.
    destruct (mapM_In _ _ _ _ Hrs Hr) as (sys & Hsys & Hone).
    exists p, sys. auto.
  - injection H as <-. contradiction.
Qed.

Lemma min_by_spec {A : Type} (key : A -> Q) (xs : list A) :
  forall x,
    In (min_by key x xs) (x :: xs) /\
    forall y, In y (x :: xs) -> key (min_by key x xs) <= key y.
Proof.
  unfold min_by. induction xs as [|z xs IH]; intros x; cbn [fold_left].
  - split; [now left|]. intros y [<-|[]]. apply Qle_refl.
  - destruct (Qltb_spec (key z) (key x)) as [Hlt|Hge].
    + destruct (IH z) as [Hin Hmin]. split.
      * right. exact Hin.
      * intros y [<-|Hy]; [|now apply Hmin].
        apply Qle_trans with (key z); [apply Hmin; now left | now apply Qlt_le_weak].
    + destruct (IH x) as [Hin Hmin]. split.
      * destruct Hin as [<-|Hin]; [now left | right; now right].
      * intros y [<-|[<-|Hy]].
        -- apply Hmin. now left.
        -- apply Qle_trans with (key x); [apply Hmin; now left | exact Hge].
        -- apply Hmin. now right.
Qed.

(** [min_by] returns the first of the minimal elements. *)
Lemma min_by_first {A : Type} (key : A -> Q) (xs : list A) :
  forall x, exists l1 l2,
    (x :: xs = l1 ++ min_by key x xs :: l2)%list /\
    (forall y, In y l1 -> key (min_by key x xs) < key y) /\
    (forall y, In y l2 -> key (min_by key x xs) <= key y).
Proof.
  induction xs as [|z xs IH]; intros x.
  - exists [], []. cbn. repeat split; intros y [].
  - unfold min_by in *. cbn [fold_left].
    destruct (Qltb_spec (key z) (key x)) as [Hlt|Hge].
    + destruct (IH z) as (l1 & l2 & E & H1 & H2).
      exists (x :: l1), l2. cbn. rewrite <- E. split; [reflexivity|].
      split; [|exact H2].
      intros y [<-|Hy]; [|now apply H1].
      apply Qle_lt_trans with (key z); [|exact Hlt].
      apply (proj2 (min_by_spec key xs z)). now left.
    + destruct (IH x) as (l1 & l2 & E & H1 & H2).
      remember (fold_left (fun best r => if Qltb (key r) (key best) then r else best)
                  xs x) as m eqn:Em.
      clear Em IH.
      destruct l1 as [|x' l1]; cbn in E; injection E as Ex El.
      * subst m l2. exists [], (z :: xs). cbn.
        split; [reflexivity|]. split; [intros y []|].
        intros y [<-|Hy]; [exact Hge | now apply H2].
      * subst x' xs. exists (x :: z :: l1), l2. cbn.
        split; [reflexivity|]. split; [|exact H2].
        intros y [<-|[<-|Hy]].
        -- apply H1. now left.
        -- apply Qlt_le_trans with (key x); [apply H1; now left | exact Hge].
        -- apply H1. now right.
Qed.

Lemma with_cost_In (recs : list recommendation) (r : recommendation) :
  In r (with_cost recs) <-> In r recs /\ qualifies r.
Proof. unfold with_cost, qualifies. apply filter_In. Qed.

Lemma best_value_some (recs : list recommendation) (b : recommendation) :
  best_value recs = Some b ->
  In b recs /\ qualifies b /\
  forall r, In r recs -> qualifies r -> ratio_of b <= ratio_of r.
Proof.
  unfold best_value. intros H.
  destruct (with_cost recs) as [|x xs] eqn:E; [discriminate|].
  injection H as <-.
  destruct (min_by_spec ratio_of xs x) as [Hin Hmin].
  rewrite <- E in Hin, Hmin.
  apply with_cost_In in Hin as [Hin Hq].
  repeat split; try assumption.
  intros r Hr Hqr. apply Hmin. now apply with_cost_In.
Qed.

Lemma best_value_first (recs : list recommendation) (b : recommendation) :
  best_value recs = Some b ->
  exists l1 l2,
    (with_cost recs = l1 ++ b :: l2)%list /\
    forall r, In r l1 -> ratio_of b < ratio_of r.
Proof.
  unfold best_value. intros H.
  destruct (with_cost recs) as [|x xs]; [discriminate|].
  injection H as <-.
  destruct (min_by_first ratio_of xs x) as (l1 & l2 & E & H1 & _).
  exists l1, l2. split; assumption.
Qed.

Lemma best_value_none (recs : list recommendation) :
  best_value recs = None <-> forall r, In r recs -> ~ qualifies r.
Proof.
  unfold best_value. split.
  - destruct (with_cost recs) as [|x xs] eqn:E; [|discriminate].
    intros _ r Hr Hq.
    assert (Hin : In r (with_cost recs)) by now apply with_cost_In.
    rewrite E in Hin. contradiction.
  - intros H. destruct (with_cost recs) as [|x xs] eqn:E; [reflexivity|].
    assert (Hin : In x (with_cost recs)) by (rewrite E; now left).
    apply with_cost_In in Hin as [Hin Hq]. exfalso. eapply H; eauto.
Qed.

Lemma Qdiv_nonzero (x y : Q) : ~ y == 0 -> (~ x / y == 0 <-> ~ x == 0).
Proof.
  intros Hy. split; intros H E; apply H.
  - rewrite E. field. exact Hy.
  - assert (G : x == x / y * y) by (field; exact Hy).
    rewrite G, E. ring.
Qed.

Lemma qualifies_iff (p : profile) (sys : system_t) (r : recommendation) :
  recommend_one p sys = Ok r ->
  (qualifies r <->
   (exists c, rec_cost r = Some c /\ ~ c == 0) /\ ~ workload_score r == 0).
Proof.
  intros H. apply recommend_one_fields in H as (_ & _ & _ & Hc & Hr).
  unfold qualifies. rewrite truthy_opt_true, Hr, Hc.
  destruct (cost sys) as [c|].
  - destruct (Qeq_bool_spec c 0) as [E|NE].
    + split.
      * intros (q & Hq & _). discriminate.
      * intros [(c' & Hc' & Hn) _]. injection Hc' as <-. contradiction.
    + split.
      * intros (q & Hq & Hn). injection Hq as <-.
        split; [eauto | now apply (Qdiv_nonzero _ c NE)].
      * intros [_ Hs]. eexists. split; [reflexivity|].
        now apply (Qdiv_nonzero _ c NE).
  - split.
    + intros (q & Hq & _). discriminate.
    + intros [(c' & Hc' & _) _]. discriminate.
Qed.

(** C1 (amended). [best_value] is the first recommendation with the least
    stored [cost_performance_ratio] among those whose stored ratio is
    present and not zero, which for the recommendations of
    [recommend_for_workload] are those with a known non-zero cost and a
    non-zero workload score; when none qualifies there is no best value and
    the report gets no best-value lines at all. *)
Theorem best_value_least_stored_ratio (recs : list recommendation) :
  (forall b, best_value recs = Some b ->
     In b recs /\ qualifies b /\
     (forall r, In r recs -> qualifies r -> ratio_of b <= ratio_of r) /\
     exists l1 l2,
       (with_cost recs = l1 ++ b :: l2)%list /\
       forall r, In r l1 -> ratio_of b < ratio_of r) /\
  ((exists r, In r recs /\ qualifies r) -> exists b, best_value recs = Some b) /\
  ((forall r, In r recs -> ~ qualifies r) ->
     best_value recs = None /\
     forall format_2f, best_value_lines format_2f recs = []) /\
  (forall systems workload_type,
     recommend_for_workload systems workload_type = Ok recs ->
     forall r, In r recs ->
       (qualifies r <->
        (exists c, rec_cost r = Some c /\ ~ c == 0) /\ ~ workload_score r == 0)).
Proof.
  split; [|split; [|split]].
  - intros b Hb. destruct (best_value_some _ _ Hb) as (Hin & Hq & Hmin).
    repeat split; try assumption. now apply best_value_first.
  - intros (r & Hr & Hq).
    destruct (best_value recs) as [b|] eqn:E; [eauto|].
    exfalso. rewrite best_value_none in E. eapply E; eauto.
  - intros H. apply best_value_none in H. split; [exact H|].
    intros format_2f. unfold best_value_lines. now rewrite H.
  - intros systems workload_type H r Hr.
    destruct (recommend_for_workload_In _ _ _ _ H Hr) as (p & sys & _ & _ & Hone).
    eapply qualifies_iff; eauto.
Qed.

Lemma best_value_least_stored_ratio_witness :
  exists b, best_value [rec_A; rec_B] = Some b.
Proof.
  apply (proj1 (proj2 (best_value_least_stored_ratio [rec_A; rec_B]))).
  exists rec_A. split; [now left | reflexivity].
Defined.

(** On the specification's two systems the code selects A, not B; and a
    report without any cost gets no best-value line, hence no message. *)
Lemma best_value_example_selects_A :
  recommend_for_workload [system_A; system_B] "general_purpose" = Ok [rec_A; rec_B] /\
  best_value [rec_A; rec_B] = Some rec_A /\
  best_value [rec_A; rec_B] <> Some rec_B /\
  recommend_for_workload [system_free] "general_purpose" = Ok [rec_free] /\
  forall format_2f, best_value_lines format_2f [rec_free] = [].
Proof.
  repeat split. discriminate.
Qed.

(** C2. The stored [cost_performance_ratio] is the workload score divided
    by the cost, not the cost divided by the score.  For a system that
    scores 80 and costs 1000 it is 80/1000 = 0.08, while the report line of
    the same system prints 1000/80 = 12.5; for a system that scores 0 it is
    the number 0, not [None]. *)
Theorem cost_performance_ratio_is_score_per_cost :
  (forall p sys r,
     recommend_one p sys = Ok r ->
     cost_performance_ratio r
     = match cost sys with
       | Some c => if Qeq_bool c 0 then None else Some (workload_score r / c)
       | None => None
       end) /\
  recommend_one general_purpose system_A = Ok rec_A /\
  (exists q, cost_performance_ratio rec_A = Some q /\
             q == 8 # 100 /\ ~ q == 125 # 10) /\
  (forall format_2f format_comma_2f, exists q,
     cost_lines format_2f format_comma_2f rec_A
     = Ok ["   Cost: $" ++ format_comma_2f 1000;
           "   Cost/Performance: $" ++ format_2f q ++ " per point"] /\
     q == 125 # 10) /\
  (exists r q,
     recommend_one general_purpose system_idle = Ok r /\
     workload_score r = 0 /\
     cost_performance_ratio r = Some q /\ q == 0).
Proof.
  split; [|split; [|split; [|split]]].
  - intros p sys r H. now apply recommend_one_fields in H.
  - reflexivity.
  - eexists. split; [reflexivity|]. split; [reflexivity | discriminate].
  - intros format_2f format_comma_2f. eexists. split; reflexivity.
  - eexists. eexists. split; [reflexivity|]. repeat split.
Qed.

Lemma cost_performance_ratio_is_score_per_cost_witness :
  cost_performance_ratio rec_B = Some (60 / 500).
Proof.
  apply (proj1 cost_performance_ratio_is_score_per_cost general_purpose system_B rec_B).
  reflexivity.
Defined.

(** C10. A system loaded with cost 0 is treated like one loaded without a
    cost: its recommendation has no ratio and is never the best value. *)
Theorem zero_cost_is_no_cost (systems : list system_t) (workload_type : string)
    (recs : list recommendation) (r : recommendation) :
  recommend_for_workload systems workload_type = Ok recs ->
  In r recs ->
  exists sys,
    In sys systems /\ system r = name sys /\ rec_cost r = cost sys /\
    ((cost sys = None \/ exists c, cost sys = Some c /\ c == 0) ->
     cost_performance_ratio r = None /\ best_value recs <> Some r).
Proof.
  intros H Hr.
  destruct (recommend_for_workload_In _ _ _ _ H Hr) as (p & sys & _ & Hsys & Hone).
  pose proof (recommend_one_fields _ _ _ Hone) as (Hname & _ & _ & Hc & Hratio).
  exists sys. split; [exact Hsys|]. split; [exact Hname|]. split; [exact Hc|].
  intros Hzero.
  assert (Hnone : cost_performance_ratio r = None).
  { destruct Hzero as [E|(c & E & Hz)]; rewrite E in Hratio; [exact Hratio|].
    destruct (Qeq_bool_spec c 0); [exact Hratio | contradiction]. }
  split; [exact Hnone|].
  intros Hb. apply best_value_some in Hb as (_ & Hq & _).
  unfold qualifies in Hq. rewrite Hnone in Hq. discriminate.
Qed.

Lemma zero_cost_is_no_cost_witness :
  exists sys,
    In sys [system_zero; system_A] /\ system rec_zero = name sys /\
    rec_cost rec_zero = cost sys /\
    ((cost sys = None \/ exists c, cost sys = Some c /\ c == 0) ->
     cost_performance_ratio rec_zero = None /\
     best_value [rec_A; rec_zero] <> Some rec_zero).
Proof.
  apply (zero_cost_is_no_cost [system_zero; system_A] "general_purpose"
           [rec_A; rec_zero] rec_zero).
  - reflexivity.
  - right. now left.
Defined.

(* ===================================================================== *)
(** * Normalizer: the other direction and degenerate baselines *)
(* ===================================================================== *)

Lemma normalize_value_num_lower (lo hi v : Q) :
  lo < hi ->
  normalize_value (VNum v) lo hi false
  = Ok (round2 ((hi - clamp lo hi v) / (hi - lo) * 100)).
Proof.
  intros Hlh. unfold normalize_value. cbn [as_num bind].
  rewrite pydiv_ok by lra. reflexivity.
Qed.

Lemma scale_anti (lo hi a b : Q) :
  lo < hi -> a <= b -> (hi - b) / (hi - lo) * 100 <= (hi - a) / (hi - lo) * 100.
Proof.
  intros Hlh Hab.
  apply Qmult_le_compat_r; [|discriminate].
  unfold Qdiv. apply Qmult_le_compat_r; [lra|].
  apply Qinv_le_0_compat. lra.
Qed.

Lemma scale_lower_lo (lo hi : Q) : lo < hi -> (hi - lo) / (hi - lo) * 100 == 100.
Proof. intros H. field. lra. Qed.

Lemma scale_lower_hi (lo hi : Q) : lo < hi -> (hi - hi) / (hi - lo) * 100 == 0.
Proof. intros H. field. lra. Qed.

(** X1. With [higher_better = False] and a baseline [lo < hi],
    [normalize_value] is defined on every number, non-increasing, sends
    [lo] to 100 and [hi] to 0, clamps inputs outside the baseline to the
    nearer end, and stays within [0, 100]. *)
Theorem normalize_value_lower_better (lo hi : Q) :
  lo < hi ->
  (forall v, exists s,
      normalize_value (VNum v) lo hi false = Ok s /\ 0 <= s <= 100) /\
  (forall v w s t, v <= w ->
      normalize_value (VNum v) lo hi false = Ok s ->
      normalize_value (VNum w) lo hi false = Ok t -> t <= s) /\
  (exists s, normalize_value (VNum lo) lo hi false = Ok s /\ s == 100) /\
  (exists s, normalize_value (VNum hi) lo hi false = Ok s /\ s == 0) /\
  (forall v, v < lo ->
      normalize_value (VNum v) lo hi false = normalize_value (VNum lo) lo hi false) /\
  (forall v, hi < v ->
      normalize_value (VNum v) lo hi false = normalize_value (VNum hi) lo hi false).
Proof.
  intros Hlh. repeat split.
  - intros v. eexists. split; [apply normalize_value_num_lower; exact Hlh|].
    apply (round2_bounds 0 100).
    pose proof (clamp_range lo hi v Hlh) as [Hc1 Hc2].
    pose proof (scale_anti lo hi _ _ Hlh Hc1) as Hhi.
    pose proof (scale_anti lo hi _ _ Hlh Hc2) as Hlo.
    rewrite (scale_lower_lo lo hi Hlh) in Hhi.
    rewrite (scale_lower_hi lo hi Hlh) in Hlo.
    split; assumption.
  - intros v w s t Hvw Hs Ht.
    rewrite normalize_value_num_lower in Hs, Ht by exact Hlh.
    injection Hs as <-. injection Ht as <-.
    apply round2_mono, scale_anti; [exact Hlh|].
    now apply clamp_mono.
  - eexists. split; [apply normalize_value_num_lower; exact Hlh|].
    apply (round2_of_Z 100). rewrite clamp_lo by exact Hlh.
    apply scale_lower_lo; exact Hlh.
  - eexists. split; [apply normalize_value_num_lower; exact Hlh|].
    apply (round2_of_Z 0). rewrite clamp_hi by exact Hlh.
    apply scale_lower_hi; exact Hlh.
  - intros v Hv. rewrite !normalize_value_num_lower by exact Hlh.
    destruct (clamp_cases lo hi v Hlh) as [[Hv' Ev]|[[Hv' Ev]|[Hv' Ev]]]; try lra.
    now rewrite Ev, clamp_lo.
  - intros v Hv. rewrite !normalize_value_num_lower by exact Hlh.
    destruct (clamp_cases lo hi v Hlh) as [[Hv' Ev]|[[Hv' Ev]|[Hv' Ev]]]; try lra.
    now rewrite Ev, clamp_hi.
Qed.

Lemma normalize_value_lower_better_witness :
  1 < 200 /\
  exists s, normalize_value (VNum 50) 1 200 false = Ok s /\ 0 <= s <= 100.
Proof.
  split; [reflexivity|].
  apply (proj1 (normalize_value_lower_better 1 200 eq_refl)).
Defined.

Lemma clamp_inverted (lo hi v : Q) : hi < lo -> clamp lo hi v = lo.
Proof.
  intros H. unfold clamp, py_max2, py_min2.
  destruct (Qltb_spec v hi) as [H1|H1].
  - destruct (Qltb_spec lo v); [exfalso; lra | reflexivity].
  - destruct (Qltb_spec lo hi); [exfalso; lra | reflexivity].
Qed.

(** X2. Edge cases of [normalize_value]: [None] scores 0 whatever the
    baseline and direction; a value that is not a number raises
    [TypeError]; a baseline with [min = max] raises [ZeroDivisionError] on
    every number; and a baseline with [max < min] gives every number the
    same score, 0 when higher is better and 100 when lower is better. *)
Theorem normalize_value_edge_cases :
  (forall lo hi hb, normalize_value VNone lo hi hb = Ok 0) /\
  (forall v lo hi hb,
      as_num v = Raise TypeError -> v <> VNone ->
      normalize_value v lo hi hb = Raise TypeError) /\
  (forall v lo hi hb,
      lo == hi -> normalize_value (VNum v) lo hi hb = Raise ZeroDivisionError) /\
  (forall v lo hi,
      hi < lo ->
      (exists s, normalize_value (VNum v) lo hi true = Ok s /\ s == 0) /\
      (exists s, normalize_value (VNum v) lo hi false = Ok s /\ s == 100)).
Proof.
  split; [|split; [|split]].
  - reflexivity.
  - intros v lo hi hb Hv Hn. unfold normalize_value.
    destruct v; try contradiction; try discriminate; now rewrite Hv.
  - intros v lo hi hb E. unfold normalize_value. cbn [as_num bind].
    unfold pydiv.
    destruct (Qeq_bool_spec (hi - lo) 0) as [_|N]; [|exfalso; apply N; lra].
    destruct hb; reflexivity.
  - intros v lo hi Hlt. unfold normalize_value. cbn [as_num bind].
    rewrite (clamp_inverted lo hi v Hlt), !pydiv_ok by lra. cbn [bind].
    split; eexists; (split; [reflexivity|]).
    + apply (round2_of_Z 0). field. lra.
    + apply (round2_of_Z 100). field. lra.
Qed.

Lemma normalize_value_edge_cases_witness :
  normalize_value (VNum 7) 5 5 true = Raise ZeroDivisionError.
Proof.
  apply (proj1 (proj2 (proj2 normalize_value_edge_cases)) 7 5 5 true).
  reflexivity.
Defined.

(* ===================================================================== *)
(** * Normalizer: the range of the scores *)
(* ===================================================================== *)

Lemma round2_fixed (x : Q) : round2 (round2 x) == round2 x.
Proof.
  rewrite (round2_value (round2 x)).
  assert (E : round2 x * 100 == inject_Z (round_half_even (x * 100))).
  { rewrite (round2_value x). field. }
  rewrite (round_half_even_comp _ _ E), round_half_even_Z.
  symmetry. apply round2_value.
Qed.

Lemma round2_between (lo hi q : Q) :
  round2 lo == lo -> round2 hi == hi -> lo <= q <= hi -> lo <= round2 q <= hi.
Proof.
  intros Hlo Hhi [H1 H2]. split.
  - rewrite <- Hlo. now apply round2_mono.
  - rewrite <- Hhi. now apply round2_mono.
Qed.

Lemma normalize_value_range (v : value) (lo hi : Q) (hb : bool) :
  lo < hi -> scorable v ->
  exists s, normalize_value v lo hi hb = Ok s /\ 0 <= s <= 100.
Proof.
  intros Hlh [->|(q & Hq)].
  - exists 0. split; [reflexivity | lra].
  - assert (E : normalize_value v lo hi hb = normalize_value (VNum q) lo hi hb).
    { destruct v as [| b | q' | | |]; try discriminate.
      - cbn in Hq. injection Hq as <-. unfold normalize_value. reflexivity.
      - cbn in Hq. now injection Hq as <-. }
    rewrite E. pose proof (clamp_range lo hi q Hlh) as [Hc1 Hc2].
    destruct hb.
    + eexists. split; [apply normalize_value_num; exact Hlh|].
      apply (round2_bounds 0 100).
      pose proof (scale_mono lo hi _ _ Hlh Hc1) as Hlo.
      pose proof (scale_mono lo hi _ _ Hlh Hc2) as Hhi.
      rewrite (scale_lo lo hi Hlh) in Hlo. rewrite (scale_hi lo hi Hlh) in Hhi.
      split; assumption.
    + eexists. split; [apply normalize_value_num_lower; exact Hlh|].
      apply (round2_bounds 0 100).
      pose proof (scale_anti lo hi _ _ Hlh Hc1) as Hhi.
      pose proof (scale_anti lo hi _ _ Hlh Hc2) as Hlo.
      rewrite (scale_lower_lo lo hi Hlh) in Hhi.
      rewrite (scale_lower_hi lo hi Hlh) in Hlo.
      split; assumption.
Qed.

Lemma score_entry_range (results : value) (metric : string) (b : baseline) (raw : value) :
  min b < max b ->
  raw_mean results metric = Ok raw -> scorable raw ->
  exists s variance,
    score_entry results metric b
    = Ok (VDict [("score", VNum s); ("raw_value", raw);
                 ("metric", VStr metric); ("variance", variance)]) /\
    0 <= s <= 100.
Proof.
  intros Hb Hraw Hs. unfold raw_mean in Hraw. unfold score_entry.
  apply bind_ok in Hraw as (stats & Hstats & Hraw).
  apply bind_ok in Hraw as (m & Hm & Hraw).
  rewrite Hstats. cbn [bind]. rewrite Hm. cbn [bind]. rewrite Hraw. cbn [bind].
  destruct (normalize_value_range raw (min b) (max b) (higher_better b) Hb Hs)
    as (s & -> & Hrange).
  cbn [bind].
  assert (Hv : exists variance, py_get m "variance_percent" (VNum 0) = Ok variance).
  { destruct m; try discriminate. cbn. eauto. }
  destruct Hv as (variance & ->). cbn [bind]. eauto.
Qed.

(** X3. For a CPU, memory or network record without an [error] key whose
    mean is a number, [None] or missing, the normalizer returns a score
    entry whose [raw_value] is that mean and whose score lies in [0, 100]. *)
Theorem domain_scores_in_range (d : dict) (raw : value) :
  dict_has "error" d = false ->
  scorable raw ->
  (raw_mean (VDict d) "events_per_second" = Ok raw ->
   exists s variance,
     normalize_cpu (VDict d)
     = Ok (VDict [("score", VNum s); ("raw_value", raw);
                  ("metric", VStr "events_per_second"); ("variance", variance)]) /\
     0 <= s <= 100) /\
  (raw_mean (VDict d) "transfer_rate_mib_sec" = Ok raw ->
   exists s variance,
     normalize_memory (VDict d)
     = Ok (VDict [("score", VNum s); ("raw_value", raw);
                  ("metric", VStr "transfer_rate_mib_sec"); ("variance", variance)]) /\
     0 <= s <= 100) /\
  (raw_mean (VDict d) "bandwidth_mbps" = Ok raw ->
   exists s variance,
     normalize_network (VDict d)
     = Ok (VDict [("score", VNum s); ("raw_value", raw);
                  ("metric", VStr "bandwidth_mbps"); ("variance", variance)]) /\
     0 <= s <= 100).
Proof.
  intros He Hs.
  unfold normalize_cpu, normalize_memory, normalize_network.
  cbn [py_in bind]. rewrite He.
  repeat split; intros Hraw; eapply score_entry_range; eauto; reflexivity.
Qed.

Lemma domain_scores_in_range_witness :
  exists s variance,
    normalize_cpu (VDict [])
    = Ok (VDict [("score", VNum s); ("raw_value", VNum 0);
                 ("metric", VStr "events_per_second"); ("variance", variance)]) /\
    0 <= s <= 100.
Proof.
  apply (proj1 (domain_scores_in_range [] (VNum 0) eq_refl
                  (or_intror (ex_intro _ 0 eq_refl)))).
  reflexivity.
Defined.

Lemma fold_left_Qplus (l : list Q) (a : Q) :
  fold_left Qplus l a == a + fold_left Qplus l 0.
Proof.
  revert a. induction l as [|x l IH]; intros a; cbn.
  - ring.
  - rewrite (IH (a + x)), (IH (0 + x)). ring.
Qed.

Lemma py_sum_cons (x : Q) (l : list Q) : py_sum (x :: l) == x + py_sum l.
Proof. unfold py_sum. cbn. rewrite fold_left_Qplus. ring. Qed.

(** Sums of weighted scores when every score lies in [lo, hi] and every
    weight is positive. *)
Lemma weighted_sums_bounds (lo hi : Q) (scored : list (Q * Q)) :
  (forall s w, In (s, w) scored -> 0 < w /\ lo <= s <= hi) ->
  0 <= py_sum (map snd scored) /\
  (scored <> [] -> 0 < py_sum (map snd scored)) /\
  lo * py_sum (map snd scored) <= py_sum (map (fun '(s, w) => s * w) scored) /\
  py_sum (map (fun '(s, w) => s * w) scored) <= hi * py_sum (map snd scored).
Proof.
  induction scored as [|[s w] scored IH]; intros H.
  - unfold py_sum. cbn.
    split; [lra|]. split; [intros N; contradiction|]. split; lra.
  - destruct IH as (I1 & I2 & I3 & I4).
    { intros s' w' Hin. apply H. now right. }
    destruct (H s w (or_introl eq_refl)) as (Hw & Hs1 & Hs2).
    cbn [map snd]. rewrite !py_sum_cons.
    set (W := py_sum (map snd scored)) in *.
    set (S := py_sum (map (fun '(s0, w0) => s0 * w0) scored)) in *.
    assert (lo * w <= s * w) by (apply Qmult_le_compat_r; lra).
    assert (s * w <= hi * w) by (apply Qmult_le_compat_r; lra).
    split; [lra|]. split; [intros _; lra|]. split; lra.
Qed.

Lemma weighted_mean_range (lo hi : Q) (parts : list (option Q * Q)) :
  round2 lo == lo -> round2 hi == hi ->
  (forall o w, In (o, w) parts -> 0 < w) ->
  (forall s w, In (Some s, w) parts -> lo <= s <= hi) ->
  (exists s w, In (Some s, w) parts) ->
  lo <= weighted_mean parts <= hi.
Proof.
  intros Hlo Hhi Hw Hs (s0 & w0 & Hin). unfold weighted_mean.
  set (scored := flat_map
                   (fun '(o, w) => match o with Some s => [(s, w)] | None => [] end)
                   parts).
  assert (Hscored : forall s w, In (s, w) scored <-> In (Some s, w) parts).
  { intros s w. subst scored. rewrite in_flat_map. split.
    - intros ([o w'] & Hp & Hx). destruct o as [s'|]; [|contradiction].
      destruct Hx as [E|[]]. now injection E as -> ->.
    - intros Hp. exists (Some s, w). split; [exact Hp | now left]. }
  destruct (weighted_sums_bounds lo hi scored) as (B1 & B2 & B3 & B4).
  { intros s w Hsw. apply Hscored in Hsw. split; [eapply Hw | eapply Hs]; eauto. }
  assert (Hpos : 0 < py_sum (map snd scored)).
  { apply B2. intros E. apply (Hscored s0 w0) in Hin. rewrite E in Hin. contradiction. }
  destruct (Qltb_spec 0 (py_sum (map snd scored))) as [_|N]; [|exfalso; lra].
  apply round2_between; [assumption | assumption |].
  split.
  - apply Qle_shift_div_l; assumption.
  - apply Qle_shift_div_r; assumption.
Qed.

(** X4. The overall score lies between any two-decimal bounds that hold
    for the scores of the domains present; in particular it lies in
    [0, 100] when they do, and it equals the common score when all
    present domains score the same. *)
Theorem overall_score_between_domain_scores (normalized : dict)
    (c m d n : option Q) (lo hi : Q) :
  domain_value normalized "cpu" = Ok c ->
  domain_value normalized "memory" = Ok m ->
  domain_value normalized "disk" = Ok d ->
  domain_value normalized "network" = Ok n ->
  round2 lo == lo -> round2 hi == hi ->
  (forall s, In (Some s) [c; m; d; n] -> lo <= s <= hi) ->
  (exists s, In (Some s) [c; m; d; n]) ->
  exists x, calculate_overall_score normalized = Ok x /\ lo <= x <= hi.
Proof.
  intros Hc Hm Hd Hn Hlo Hhi Hs (s0 & Hin).
  eexists. split.
  - unfold calculate_overall_score, weights.
    apply overall_score_weighted_mean; eassumption.
  - apply weighted_mean_range; try assumption.
    + intros o w Hp. cbn in Hp.
      destruct Hp as [E|[E|[E|[E|[]]]]]; injection E as _ <-; reflexivity.
    + intros s w Hp. apply Hs. cbn in Hp |- *.
      destruct Hp as [E|[E|[E|[E|[]]]]]; injection E as <- _; auto.
    + cbn in Hin. destruct Hin as [E|[E|[E|[E|[]]]]]; rewrite E;
        eexists; eexists; cbn; eauto 6.
Qed.

Lemma overall_score_between_domain_scores_witness :
  exists x,
    calculate_overall_score
      [("cpu", VDict [("score", VNum 80)]); ("memory", VDict [("score", VNum 60)])]
    = Ok x /\ 60 <= x <= 80.
Proof.
  apply (overall_score_between_domain_scores
           [("cpu", VDict [("score", VNum 80)]); ("memory", VDict [("score", VNum 60)])]
           (Some 80) (Some 60) None None 60 80
           eq_refl eq_refl eq_refl eq_refl eq_refl eq_refl).
  - intros s [E|[E|[E|[E|[]]]]]; try discriminate; injection E as <-; lra.
  - exists 80. now left.
Defined.

(* ===================================================================== *)
(** * Normalizer: the whole record *)
(* ===================================================================== *)

Lemma dict_has_true_of_lookup (k : string) (d : dict) (v : value) :
  dict_lookup k d = Some v -> dict_has k d = true.
Proof. unfold dict_has. now intros ->. Qed.

Lemma dict_has_set (k k' : string) (v : value) (d : dict) :
  dict_has k (dict_set k' v d) = (String.eqb k k' || dict_has k d)%bool.
Proof.
  unfold dict_has. destruct (String.eqb_spec k k') as [->|N].
  - now rewrite dict_lookup_set_eq.
  - now rewrite dict_lookup_set_ne.
Qed.

Lemma normalize_domain_keys (domain : string) (f : value -> res value)
    (results acc acc' : dict) :
  normalize_domain domain f (VDict results) acc = Ok acc' ->
  forall k,
    dict_has k acc'
    = ((String.eqb k domain && dict_has domain results) || dict_has k acc)%bool.
Proof.
  unfold normalize_domain. cbn [py_in bind]. intros H k.
  destruct (dict_has domain results) eqn:E.
  - apply bind_ok in H as (raw & _ & H). apply bind_ok in H as (n & _ & H).
    injection H as <-. rewrite dict_has_set. now rewrite andb_true_r.
  - injection H as <-. now rewrite andb_false_r.
Qed.

(** X5. [normalize] on a dictionary of results returns a dictionary that
    has a domain exactly when the results have it, always has a numeric
    [overall_score], and has no other key. *)
Theorem normalize_keeps_domains (results : dict) (out : value) :
  normalize (VDict results) = Ok out ->
  exists n x,
    out = VDict n /\
    dict_has "cpu" n = dict_has "cpu" results /\
    dict_has "memory" n = dict_has "memory" results /\
    dict_has "disk" n = dict_has "disk" results /\
    dict_has "network" n = dict_has "network" results /\
    dict_lookup "overall_score" n = Some (VNum x) /\
    forall k, dict_has k n = true ->
      In k ["cpu"; "memory"; "disk"; "network"; "overall_score"].
Proof.
  unfold normalize. intros H.
  apply bind_ok in H as (n1 & H1 & H). apply bind_ok in H as (n2 & H2 & H).
  apply bind_ok in H as (n3 & H3 & H). apply bind_ok in H as (n4 & H4 & H).
  apply bind_ok in H as (x & _ & H). injection H as <-.
  pose proof (normalize_domain_keys _ _ _ _ _ H1) as K1.
  pose proof (normalize_domain_keys _ _ _ _ _ H2) as K2.
  pose proof (normalize_domain_keys _ _ _ _ _ H3) as K3.
  pose proof (normalize_domain_keys _ _ _ _ _ H4) as K4.
  assert (K : forall k,
             dict_has k n4
             = ((String.eqb k "network" && dict_has "network" results)
                || ((String.eqb k "disk" && dict_has "disk" results)
                    || ((String.eqb k "memory" && dict_has "memory" results)
                        || (String.eqb k "cpu" && dict_has "cpu" results))))%bool).
  { intros k. rewrite K4, K3, K2, K1. cbn. now rewrite !orb_false_r. }
  exists (dict_set "overall_score" (VNum x) n4), x.
  split; [reflexivity|].
  rewrite !dict_has_set, !K. cbn.
  repeat split; try (now rewrite ?orb_false_r).
  - apply dict_lookup_set_eq.
  - intros k Hk. rewrite dict_has_set, K in Hk. cbn.
    destruct (String.eqb_spec k "overall_score"); [auto 6|].
    destruct (String.eqb_spec k "network"); [auto 6|].
    destruct (String.eqb_spec k "disk"); [auto 6|].
    destruct (String.eqb_spec k "memory"); [auto 6|].
    destruct (String.eqb_spec k "cpu"); [auto 6|].
    discriminate.
Qed.

Lemma normalize_keeps_domains_witness :
  exists n x,
    VDict [("cpu", timed_out); ("overall_score", VNum 0)] = VDict n /\
    dict_has "cpu" n = dict_has "cpu" [("cpu", timed_out)] /\
    dict_has "memory" n = dict_has "memory" [("cpu", timed_out)] /\
    dict_has "disk" n = dict_has "disk" [("cpu", timed_out)] /\
    dict_has "network" n = dict_has "network" [("cpu", timed_out)] /\
    dict_lookup "overall_score" n = Some (VNum x) /\
    forall k, dict_has k n = true ->
      In k ["cpu"; "memory"; "disk"; "network"; "overall_score"].
Proof.
  apply (normalize_keeps_domains [("cpu", timed_out)]). reflexivity.
Defined.

Lemma normalize_value_two_decimals (v : value) (lo hi : Q) (hb : bool) (s : Q) :
  normalize_value v lo hi hb = Ok s -> round2 s == s.
Proof.
  unfold normalize_value. intros H.
  assert (G : forall r : res Q,
             bind r (fun n => Ok (round2 n)) = Ok s -> round2 s == s).
  { intros [n|e]; cbn; [|discriminate]. intros E. injection E as <-.
    apply round2_fixed. }
  destruct v; cbv beta iota in H;
    try (apply bind_ok in H as (q' & _ & H); now apply G in H).
  injection H as <-. reflexivity.
Qed.

Lemma single_weight_mean (s w : Q) :
  0 < w -> round2 s == s -> weighted_mean [(Some s, w)] == s.
Proof.
  intros Hw Hs. unfold weighted_mean, py_sum. cbn [flat_map app map snd fold_left].
  destruct (Qltb_spec 0 (0 + w)); [|exfalso; lra].
  rewrite <- Hs at 2. apply round2_comp. field. lra.
Qed.

(** X6. When the results hold only a CPU record (as with [--cpu-only])
    and that record is free of error, the normalized record holds the CPU
    entry and an overall score equal to the CPU score: a missing domain
    does not lower the overall score. *)
Theorem cpu_only_overall_is_cpu_score (results d : dict) (raw : value) :
  dict_lookup "cpu" results = Some (VDict d) ->
  dict_has "memory" results = false ->
  dict_has "disk" results = false ->
  dict_has "network" results = false ->
  dict_has "error" d = false ->
  raw_mean (VDict d) "events_per_second" = Ok raw ->
  scorable raw ->
  exists s variance x,
    normalize (VDict results)
    = Ok (VDict [("cpu", VDict [("score", VNum s); ("raw_value", raw);
                                ("metric", VStr "events_per_second");
                                ("variance", variance)]);
                 ("overall_score", VNum x)]) /\
    x == s /\ 0 <= s <= 100.
Proof.
  intros Hcpu Hm Hd Hn He Hraw Hs.
  assert (Hscore : exists s variance,
             normalize_cpu (VDict d)
             = Ok (VDict [("score", VNum s); ("raw_value", raw);
                          ("metric", VStr "events_per_second");
                          ("variance", variance)]) /\
             0 <= s <= 100 /\ round2 s == s).
  { unfold normalize_cpu. cbn [py_in bind]. rewrite He.
    destruct (score_entry_range (VDict d) "events_per_second" baselines_cpu raw
                eq_refl Hraw Hs) as (s & variance & E & R).
    exists s, variance. split; [exact E|]. split; [exact R|].
    unfold score_entry in E. unfold raw_mean in Hraw.
    apply bind_ok in Hraw as (stats & Hstats & Hraw).
    apply bind_ok in Hraw as (m & Hmm & Hraw).
    rewrite Hstats in E. cbn [bind] in E. rewrite Hmm in E. cbn [bind] in E.
    rewrite Hraw in E. cbn [bind] in E.
    apply bind_ok in E as (s' & Hv & E).
    apply bind_ok in E as (variance' & _ & E).
    injection E as <- _. eapply normalize_value_two_decimals; eauto. }
  destruct Hscore as (s & variance & Hcpun & Hrange & Hfix).
  exists s, variance.
  unfold normalize, normalize_domain. cbn [py_in py_index bind].
  rewrite (dict_has_true_of_lookup _ _ _ Hcpu), Hcpu. cbn [bind].
  rewrite Hcpun. cbn [bind dict_set].
  rewrite Hm, Hd, Hn. cbn [bind].
  unfold calculate_overall_score, weights.
  rewrite (overall_score_weighted_mean _ _ _ _ _ (Some s) None None None);
    try reflexivity.
  cbn [bind dict_set String.eqb Ascii.eqb Bool.eqb].
  eexists. split; [reflexivity|]. split; [|exact Hrange].
  change (weighted_mean [(Some s, 3 # 10); (None, 2 # 10); (None, 3 # 10); (None, 2 # 10)])
    with (weighted_mean [(Some s, 3 # 10)]).
  apply single_weight_mean; [reflexivity | exact Hfix].
Qed.

Lemma cpu_only_overall_is_cpu_score_witness :
  exists s variance x,
    normalize (VDict [("cpu", aggregated "events_per_second" 5500)])
    = Ok (VDict [("cpu", VDict [("score", VNum s); ("raw_value", VNum 5500);
                                ("metric", VStr "events_per_second");
                                ("variance", variance)]);
                 ("overall_score", VNum x)]) /\
    x == s /\ 0 <= s <= 100.
Proof.
  apply (cpu_only_overall_is_cpu_score
           [("cpu", aggregated "events_per_second" 5500)]
           [("runs", VList []);
            ("statistics",
             VDict [("events_per_second",
                     VDict [("mean", VNum 5500); ("variance_percent", VNum 1)])])]
           (VNum 5500));
    try reflexivity.
  right. exists 5500. reflexivity.
Defined.

(* ===================================================================== *)
(** * Normalizer: the range of the disk average *)
(* ===================================================================== *)

Lemma len_cons {A : Type} (x : A) (l : list A) : len (x :: l) == 1 + len l.
Proof.
  unfold len. cbn [List.length]. rewrite Nat2Z.inj_succ, <- Z.add_1_l.
  rewrite inject_Z_plus. reflexivity.
Qed.

Lemma py_sum_bounds (lo hi : Q) (l : list Q) :
  (forall x, In x l -> lo <= x <= hi) ->
  lo * len l <= py_sum l /\ py_sum l <= hi * len l.
Proof.
  induction l as [|x l IH]; intros H.
  - change (py_sum []) with 0. change (len (@nil Q)) with 0. split; lra.
  - destruct IH as [I1 I2]; [intros y Hy; apply H; now right|].
    destruct (H x (or_introl eq_refl)) as [H1 H2].
    rewrite py_sum_cons, len_cons. split; nra.
Qed.

Lemma mean_of_present_range (lo hi : Q) (scores : list (option Q)) :
  round2 lo == lo -> round2 hi == hi ->
  (forall s, In (Some s) scores -> lo <= s <= hi) ->
  (exists s, In (Some s) scores) ->
  lo <= mean_of_present scores <= hi.
Proof.
  intros Hlo Hhi Hs (s0 & Hin). unfold mean_of_present.
  assert (Hp : forall s, In s (present scores) <-> In (Some s) scores).
  { intros s. unfold present. rewrite in_flat_map. split.
    - intros ([x|] & Hx & Hy); [|contradiction].
      destruct Hy as [<-|[]]. exact Hx.
    - intros Hx. exists (Some s). split; [exact Hx | now left]. }
  destruct (present scores) as [|x xs] eqn:E.
  - exfalso. apply (Hp s0). exact Hin.
  - destruct (py_sum_bounds lo hi (x :: xs)) as [B1 B2].
    { intros y Hy. apply Hs, Hp, Hy. }
    pose proof (len_pos x xs) as Hl.
    apply round2_between; [assumption | assumption |]. split.
    + apply Qle_shift_div_l; assumption.
    + apply Qle_shift_div_r; assumption.
Qed.

Lemma pattern_score_range (dr : dict) (t : string) (e : option value) (s : Q) :
  pattern dr t e (Some s) -> 0 <= s <= 100.
Proof.
  intros H. inversion H as [| |v mean variance b s' Hv Hm Hb Hn]; subst.
  assert (Hlt : min b < max b).
  { cbn in Hb.
    repeat match type of Hb with
           | (if ?c then _ else _) = _ => destruct c
           end; try discriminate; injection Hb as <-; reflexivity. }
  destruct (normalize_value_range (VNum mean) (min b) (max b) (higher_better b) Hlt)
    as (s'' & Hs & R).
  - right. exists mean. reflexivity.
  - congruence.
Qed.

(** X7. For disk results in which each pattern is absent, failed or
    measured, [average_score] lies in [0, 100], and between any two-decimal
    bounds that hold for the scores of the measured patterns. *)
Theorem disk_average_in_range (dr : dict)
    (e1 e2 e3 e4 : option value) (s1 s2 s3 s4 : option Q) :
  pattern dr "randread" e1 s1 ->
  pattern dr "randwrite" e2 s2 ->
  pattern dr "read" e3 s3 ->
  pattern dr "write" e4 s4 ->
  exists n a,
    normalize_disk (VDict dr) = Ok (VDict n) /\
    dict_lookup "average_score" n = Some (VNum a) /\
    0 <= a <= 100 /\
    forall lo hi,
      round2 lo == lo -> round2 hi == hi ->
      (forall s, In (Some s) [s1; s2; s3; s4] -> lo <= s <= hi) ->
      (exists s, In (Some s) [s1; s2; s3; s4]) ->
      lo <= a <= hi.
Proof.
  intros H1 H2 H3 H4.
  destruct (normalize_disk_average dr e1 e2 e3 e4 s1 s2 s3 s4 H1 H2 H3 H4)
    as (n & Hn & _ & _ & _ & _ & Ha).
  exists n, (mean_of_present [s1; s2; s3; s4]).
  split; [exact Hn|]. split; [exact Ha|]. split.
  - assert (Hall : forall s, In (Some s) [s1; s2; s3; s4] -> 0 <= s <= 100).
    { intros s [E|[E|[E|[E|[]]]]]; subst;
        eapply pattern_score_range; eassumption. }
    destruct s1 as [x|] eqn:E1; [|destruct s2 as [x|] eqn:E2;
      [|destruct s3 as [x|] eqn:E3; [|destruct s4 as [x|] eqn:E4]]];
      try (apply mean_of_present_range;
           [reflexivity | reflexivity | exact Hall | exists x; cbn; auto]).
    cbn. lra.
  - intros lo hi Hlo Hhi Hs Hex. now apply mean_of_present_range.
Qed.

Lemma disk_average_in_range_witness :
  exists n a,
    normalize_disk (VDict disk_example) = Ok (VDict n) /\
    dict_lookup "average_score" n = Some (VNum a) /\
    0 <= a <= 100 /\
    forall lo hi,
      round2 lo == lo -> round2 hi == hi ->
      (forall s, In (Some s) [Some 80; None; Some 60; Some 40] -> lo <= s <= hi) ->
      (exists s, In (Some s) [Some 80; None; Some 60; Some 40]) ->
      lo <= a <= hi.
Proof.
  apply (disk_average_in_range disk_example
           (Some (VDict [("score", VNum 80); ("raw_value", VNum 80020);
                         ("metric", VStr "iops"); ("variance", VNum 1)]))
           (Some timed_out)
           (Some (VDict [("score", VNum 60); ("raw_value", VNum 3004000);
                         ("metric", VStr "bandwidth_kb"); ("variance", VNum 1)]))
           (Some (VDict [("score", VNum 40); ("raw_value", VNum 2006000);
                         ("metric", VStr "bandwidth_kb"); ("variance", VNum 1)]))).
  - apply (pattern_measured disk_example "randread" (aggregated "iops" 80020)
             80020 (VNum 1)
             {| min := 100; max := 100000; higher_better := true |} 80).
    + reflexivity.
    + apply aggregated_measured.
    + reflexivity.
    + reflexivity.
  - apply (pattern_error disk_example "randwrite" timed_out).
    + reflexivity.
    + apply timed_out_error_record.
  - apply (pattern_measured disk_example "read" (aggregated "bandwidth_kb" 3004000)
             3004000 (VNum 1)
             {| min := 10000; max := 5000000; higher_better := true |} 60).
    + reflexivity.
    + apply aggregated_measured.
    + reflexivity.
    + reflexivity.
  - apply (pattern_measured disk_example "write" (aggregated "bandwidth_kb" 2006000)
             2006000 (VNum 1)
             {| min := 10000; max := 5000000; higher_better := true |} 40).
    + reflexivity.
    + apply aggregated_measured.
    + reflexivity.
    + reflexivity.
Defined.

(** X8. Disk results that hold none of the four patterns, such as a lone
    error record, normalize to the record [{'average_score': 0}]: unlike
    the other domains, the disk normalizer never passes a domain-level
    error through. *)
Theorem disk_without_patterns_scores_zero (dr : dict) :
  dict_has "randread" dr = false ->
  dict_has "randwrite" dr = false ->
  dict_has "read" dr = false ->
  dict_has "write" dr = false ->
  normalize_disk (VDict dr) = Ok (VDict [("average_score", VNum 0)]) /\
  domain_value [("disk", VDict [("average_score", VNum 0)])] "disk" = Ok (Some 0).
Proof.
  intros H1 H2 H3 H4. split; [|reflexivity].
  unfold normalize_disk, test_types.
  cbn [disk_loop py_in bind]. rewrite H1, H2, H3, H4. reflexivity.
Qed.

Lemma disk_without_patterns_scores_zero_witness :
  normalize_disk timed_out = Ok (VDict [("average_score", VNum 0)]) /\
  domain_value [("disk", VDict [("average_score", VNum 0)])] "disk" = Ok (Some 0).
Proof.
  apply (disk_without_patterns_scores_zero [("error", VStr "Benchmark timed out")]);
    reflexivity.
Defined.

(* ===================================================================== *)
(** * Aggregator: runs that all succeed *)
(* ===================================================================== *)

Lemma run_loop_clean (aggregate_results : list value -> res value)
    (shown : string) (run_single_test : nat -> value) :
  forall todo i all_results,
    (forall j, (j < todo)%nat -> clean_run shown (run_single_test (i + j)%nat)) ->
    Benchmarks.run_loop aggregate_results shown run_single_test todo i all_results
    = aggregate_results
        (all_results ++ map (fun j => run_single_test (i + j)%nat) (seq 0 todo))%list.
Proof.
  induction todo as [|todo IH]; intros i all_results Hclean.
  - cbn. now rewrite app_nil_r.
  - cbn [Benchmarks.run_loop].
    destruct (Hclean 0%nat ltac:(lia)) as (H0 & v & Hv & Hf).
    rewrite Nat.add_0_r in H0, Hv. rewrite H0. cbn [bind]. rewrite Hv. cbn [bind].
    rewrite Hf. cbn [bind]. rewrite IH.
    + rewrite <- app_assoc. cbn [app seq map]. rewrite Nat.add_0_r.
      rewrite <- seq_shift, map_map.
      assert (E : map (fun j => run_single_test (S i + j)%nat) (seq 0 todo)
                  = map (fun j => run_single_test (i + S j)%nat) (seq 0 todo)).
      { apply map_ext. intros j. f_equal. lia. }
      now rewrite E.
    + intros j Hj. replace (S i + j)%nat with (i + S j)%nat by lia.
      apply Hclean. lia.
Qed.

(** X9. When none of the [num_runs] invocations fails, the CPU, memory and
    network benchmarks return the aggregate of exactly these results, in
    the order they were produced; with [num_runs = 0] that is the empty
    record, which the normalizer scores 0 rather than reporting an error. *)
Theorem run_aggregates_all_runs (sqrt : Q -> Q) (run_single_test : nat -> value)
    (num_runs : nat) :
  ((forall j, (j < num_runs)%nat ->
      clean_run "events_per_second" (run_single_test j)) ->
   CPUBenchmark.run sqrt run_single_test num_runs
   = CPUBenchmark.aggregate_results sqrt (map run_single_test (seq 0 num_runs))) /\
  ((forall j, (j < num_runs)%nat ->
      clean_run "transfer_rate_mib_sec" (run_single_test j)) ->
   MemoryBenchmark.run sqrt run_single_test num_runs
   = MemoryBenchmark.aggregate_results sqrt (map run_single_test (seq 0 num_runs))) /\
  ((forall j, (j < num_runs)%nat ->
      clean_run "bandwidth_mbps" (run_single_test j)) ->
   NetworkBenchmark.run sqrt run_single_test num_runs
   = NetworkBenchmark.aggregate_results sqrt (map run_single_test (seq 0 num_runs))) /\
  CPUBenchmark.run sqrt run_single_test 0 = Ok (VDict []) /\
  normalize_cpu (VDict [])
  = Ok (VDict [("score", VNum 0); ("raw_value", VNum 0);
               ("metric", VStr "events_per_second"); ("variance", VNum 0)]).
Proof.
  unfold CPUBenchmark.run, MemoryBenchmark.run, NetworkBenchmark.run.
  repeat split; try (intros H; now apply (run_loop_clean _ _ _ num_runs 0%nat [])).
Qed.

Lemma run_aggregates_all_runs_witness :
  CPUBenchmark.run (fun q => q) (fun _ => cpu_sample) 3
  = CPUBenchmark.aggregate_results (fun q => q)
      (map (fun _ => cpu_sample) (seq 0 3)).
Proof.
  apply (proj1 (run_aggregates_all_runs (fun q => q) (fun _ => cpu_sample) 3)).
  intros j _. split; [reflexivity|]. exists (VNum 5500). split; reflexivity.
Defined.

Lemma runs_loop_clean (run_single_test : nat -> string -> value) (t : string) :
  forall todo calls all_results test_results,
    (forall j, (j < todo)%nat -> clean_run "iops" (run_single_test (calls + j)%nat t)) ->
    DiskBenchmark.runs_loop run_single_test t todo calls all_results test_results
    = Ok (all_results,
          (test_results
             ++ map (fun j => run_single_test (calls + j)%nat t) (seq 0 todo))%list,
          (calls + todo)%nat).
Proof.
  induction todo as [|todo IH]; intros calls all_results test_results Hclean.
  - cbn. now rewrite app_nil_r, Nat.add_0_r.
  - cbn [DiskBenchmark.runs_loop].
    destruct (Hclean 0%nat ltac:(lia)) as (H0 & v & Hv & Hf).
    rewrite Nat.add_0_r in H0, Hv. rewrite H0. cbn [bind]. rewrite Hv. cbn [bind].
    rewrite Hf. cbn [bind]. rewrite IH.
    + rewrite <- app_assoc. cbn [app seq map]. rewrite Nat.add_0_r.
      rewrite <- seq_shift, map_map.
      assert (E : map (fun j => run_single_test (S calls + j)%nat t) (seq 0 todo)
                  = map (fun j => run_single_test (calls + S j)%nat t) (seq 0 todo)).
      { apply map_ext. intros j. f_equal. lia. }
      rewrite E. do 2 f_equal. lia.
    + intros j Hj. replace (S calls + j)%nat with (calls + S j)%nat by lia.
      apply Hclean. lia.
Qed.

Lemma types_loop_clean_step (sqrt : Q -> Q) (run_single_test : nat -> string -> value)
    (t : string) (rest : list string) (k calls : nat) (all_results : dict) :
  (forall n, clean_run "iops" (run_single_test n t)) ->
  DiskBenchmark.types_loop sqrt run_single_test (t :: rest) (S k) calls all_results
  = (agg <- DiskBenchmark.aggregate_results sqrt
              (disk_block run_single_test calls (S k) t) ;;
     DiskBenchmark.types_loop sqrt run_single_test rest (S k) (calls + S k)
       (dict_set t agg all_results)).
Proof.
  intros Hclean. cbn [DiskBenchmark.types_loop].
  rewrite runs_loop_clean by (intros; apply Hclean).
  cbn [bind app]. unfold disk_block. cbn [seq map]. reflexivity.
Qed.

(** X10. When no invocation of the disk tool fails, [run] with
    [num_runs >= 1] returns, for each of the four patterns in order, the
    aggregate of [num_runs] consecutive invocations, and makes
    [4 * num_runs] invocations, pattern after pattern. *)
Theorem disk_run_aggregates_each_pattern (sqrt : Q -> Q)
    (run_single_test : nat -> string -> value) (num_runs : nat) :
  (1 <= num_runs)%nat ->
  (forall n t, clean_run "iops" (run_single_test n t)) ->
  DiskBenchmark.run sqrt run_single_test num_runs
  = (a1 <- DiskBenchmark.aggregate_results sqrt
             (disk_block run_single_test 0 num_runs "randread") ;;
     a2 <- DiskBenchmark.aggregate_results sqrt
             (disk_block run_single_test num_runs num_runs "randwrite") ;;
     a3 <- DiskBenchmark.aggregate_results sqrt
             (disk_block run_single_test (2 * num_runs) num_runs "read") ;;
     a4 <- DiskBenchmark.aggregate_results sqrt
             (disk_block run_single_test (3 * num_runs) num_runs "write") ;;
     Ok (VDict [("randread", a1); ("randwrite", a2); ("read", a3); ("write", a4)])).
Proof.
  intros Hn Hclean. destruct num_runs as [|k]; [lia|].
  unfold DiskBenchmark.run, DiskBenchmark.test_types.
  rewrite types_loop_clean_step by (intros; apply Hclean).
  destruct (DiskBenchmark.aggregate_results sqrt
              (disk_block run_single_test 0 (S k) "randread")) as [a1|e];
    [|reflexivity].
  cbn [bind]. rewrite types_loop_clean_step by (intros; apply Hclean).
  replace (0 + S k)%nat with (S k) by lia.
  destruct (DiskBenchmark.aggregate_results sqrt
              (disk_block run_single_test (S k) (S k) "randwrite")) as [a2|e];
    [|reflexivity].
  cbn [bind]. rewrite types_loop_clean_step by (intros; apply Hclean).
  replace (S k + S k)%nat with (2 * S k)%nat by lia.
  destruct (DiskBenchmark.aggregate_results sqrt
              (disk_block run_single_test (2 * S k) (S k) "read")) as [a3|e];
    [|reflexivity].
  cbn [bind]. rewrite types_loop_clean_step by (intros; apply Hclean).
  replace (2 * S k + S k)%nat with (3 * S k)%nat by lia.
  destruct (DiskBenchmark.aggregate_results sqrt
              (disk_block run_single_test (3 * S k) (S k) "write")) as [a4|e];
    reflexivity.
Qed.

Lemma disk_run_aggregates_each_pattern_witness :
  DiskBenchmark.run (fun q => q) (fun _ t => disk_sample t) 2
  = (a1 <- DiskBenchmark.aggregate_results (fun q => q)
             (disk_block (fun _ t => disk_sample t) 0 2 "randread") ;;
     a2 <- DiskBenchmark.aggregate_results (fun q => q)
             (disk_block (fun _ t => disk_sample t) 2 2 "randwrite") ;;
     a3 <- DiskBenchmark.aggregate_results (fun q => q)
             (disk_block (fun _ t => disk_sample t) (2 * 2) 2 "read") ;;
     a4 <- DiskBenchmark.aggregate_results (fun q => q)
             (disk_block (fun _ t => disk_sample t) (3 * 2) 2 "write") ;;
     Ok (VDict [("randread", a1); ("randwrite", a2); ("read", a3); ("write", a4)])).
Proof.
  apply (disk_run_aggregates_each_pattern (fun q => q) (fun _ t => disk_sample t) 2).
  - lia.
  - intros n t. split; [reflexivity|]. exists (VNum 5000). split; reflexivity.
Defined.

(** X11. A failed first run of a disk pattern is stored as that pattern's
    result and does not stop the benchmark: the next pattern is run with
    the next invocation.  When the first run of every pattern fails, the
    result holds the four error records after four invocations. *)
Theorem disk_run_continues_after_failed_pattern (sqrt : Q -> Q)
    (run_single_test : nat -> string -> value) (num_runs : nat) :
  (1 <= num_runs)%nat ->
  py_in "error" (run_single_test 0%nat "randread") = Ok true ->
  py_in "error" (run_single_test 1%nat "randwrite") = Ok true ->
  py_in "error" (run_single_test 2%nat "read") = Ok true ->
  py_in "error" (run_single_test 3%nat "write") = Ok true ->
  DiskBenchmark.run sqrt run_single_test num_runs
  = Ok (VDict [("randread", run_single_test 0%nat "randread");
               ("randwrite", run_single_test 1%nat "randwrite");
               ("read", run_single_test 2%nat "read");
               ("write", run_single_test 3%nat "write")]).
Proof.
  intros Hn H0 H1 H2 H3. destruct num_runs as [|k]; [lia|].
  unfold DiskBenchmark.run, DiskBenchmark.test_types.
  cbn [DiskBenchmark.types_loop DiskBenchmark.runs_loop].
  rewrite H0. cbn [bind]. rewrite H1. cbn [bind].
  rewrite H2. cbn [bind]. rewrite H3. reflexivity.
Qed.

Lemma disk_run_continues_after_failed_pattern_witness :
  DiskBenchmark.run (fun q => q) (fun _ _ => timed_out) 3
  = Ok (VDict [("randread", timed_out); ("randwrite", timed_out);
               ("read", timed_out); ("write", timed_out)]).
Proof.
  apply (disk_run_continues_after_failed_pattern (fun q => q) (fun _ _ => timed_out) 3);
    (lia || reflexivity).
Defined.

(* ===================================================================== *)
(** * Aggregator: what the statistics are *)
(* ===================================================================== *)






Lemma sum_squares_nonneg (m : Q) (l : list Q) :
  0 <= py_sum (map (fun x => (x - m) * (x - m)) l).
Proof.
  induction l as [|x l IH].
  - change (py_sum (map (fun x => (x - m) * (x - m)) [])) with 0. lra.
  - cbn [map]. rewrite py_sum_cons.
    assert (Hsq : 0 <= (x - m) * (x - m)).
    { destruct (Qlt_le_dec (x - m) 0) as [N|P].
      - setoid_replace ((x - m) * (x - m)) with ((- (x - m)) * (- (x - m))) by ring.
        apply Qmult_le_0_compat; lra.
      - apply Qmult_le_0_compat; lra. }
    lra.
Qed.

Lemma sum_squares_zero (m : Q) (l : list Q) :
  (forall x, In x l -> x == m) ->
  py_sum (map (fun x => (x - m) * (x - m)) l) == 0.
Proof.
  induction l as [|x l IH]; intros H.
  - reflexivity.
  - cbn [map]. rewrite py_sum_cons, IH by (intros y Hy; apply H; now right).
    rewrite (H x (or_introl eq_refl)). ring.
Qed.

Lemma py_sum_constant (m : Q) (l : list Q) :
  (forall x, In x l -> x == m) -> py_sum l == m * len l.
Proof.
  induction l as [|x l IH]; intros H.
  - change (py_sum []) with 0. change (len (@nil Q)) with 0. ring.
  - rewrite py_sum_cons, len_cons, IH by (intros y Hy; apply H; now right).
    rewrite (H x (or_introl eq_refl)). ring.
Qed.



(** X13. The sample variance [stdev] takes the square root of is never
    negative, so [math.sqrt] is only applied inside its domain; it is 0
    when all samples are equal, and it is undefined ([StatisticsError])
    for fewer than two samples. *)
Theorem variance_nonnegative (data : list Q) :
  ((List.length data < 2)%nat -> Statistics.variance data = Raise StatisticsError) /\
  ((2 <= List.length data)%nat ->
   exists v, Statistics.variance data = Ok v /\ 0 <= v /\
             forall sqrt, Statistics.stdev sqrt data = Ok (sqrt v)) /\
  (forall m v, (forall x, In x data -> x == m) ->
               Statistics.variance data = Ok v -> v == 0).
Proof.
  unfold Statistics.stdev, Statistics.variance. split; [|split].
  - intros H. destruct (Nat.ltb_spec (List.length data) 2); [reflexivity | lia].
  - intros H. destruct (Nat.ltb_spec (List.length data) 2); [lia|].
    eexists. split; [reflexivity|]. split; [|reflexivity].
    assert (Hlen : 1 < len data).
    { unfold len. change 1 with (inject_Z 1). rewrite <- Zlt_Qlt. lia. }
    apply Qle_shift_div_l; [lra|].
    pose proof (sum_squares_nonneg (py_sum data / len data) data). lra.
  - intros m v Hall H.
    destruct (Nat.ltb_spec (List.length data) 2) as [|Hlen]; [discriminate|].
    injection H as <-.
    assert (Hl : 1 < len data).
    { unfold len. change 1 with (inject_Z 1). rewrite <- Zlt_Qlt. lia. }
    assert (Hm : py_sum data / len data == m).
    { rewrite (py_sum_constant m data Hall). field. lra. }
    rewrite sum_squares_zero.
    + field. lra.
    + intros x Hx. rewrite Hm. now apply Hall.
Qed.

Lemma variance_nonnegative_witness :
  exists v, Statistics.variance [1; 2; 3] = Ok v /\ 0 <= v /\
            forall sqrt, Statistics.stdev sqrt [1; 2; 3] = Ok (sqrt v).
Proof.
  apply (proj1 (proj2 (variance_nonnegative [1; 2; 3]))). cbn. lia.
Defined.

Lemma metric_values_carried (skip : bool) (metric : string) (results : list value) :
  (forall r, In r results -> exists d, r = VDict d) ->
  Benchmarks.metric_values skip metric results = Ok (carried skip metric results).
Proof.
  induction results as [|r rs IH]; intros H; [reflexivity|].
  destruct (H r (or_introl eq_refl)) as (d & ->).
  assert (IH' := IH (fun r' Hr' => H r' (or_intror Hr'))).
  cbn [Benchmarks.metric_values py_in py_get bind carried flat_map].
  fold (carried skip metric rs). unfold dict_has.
  destruct (dict_lookup metric d) as [v|]; [|exact IH'].
  cbn [bind]. rewrite IH'.
  destruct skip, v; reflexivity.
Qed.

Lemma carried_numeric (skip : bool) (metrics : list string) (metric : string)
    (results : list value) :
  In metric metrics ->
  (forall r, In r results -> numeric_run skip metrics r) ->
  exists nums, mapM as_num (carried skip metric results) = Ok nums.
Proof.
  intros Hm. induction results as [|r rs IH]; intros H.
  - exists []. reflexivity.
  - destruct (H r (or_introl eq_refl)) as (d & -> & Hd).
    destruct (IH (fun r' Hr' => H r' (or_intror Hr'))) as (nums & Hnums).
    cbn [carried flat_map]. fold (carried skip metric rs).
    destruct (dict_lookup metric d) as [v|] eqn:E; [|exists nums; exact Hnums].
    destruct (Hd metric v Hm E) as [(q & Hq)|[-> ->]].
    + assert (Hv : (match v with
                    | VNone => if skip then [] else [VNone]
                    | _ => [v]
                    end) = [v]).
      { destruct v; try reflexivity. discriminate. }
      rewrite Hv. cbn [app mapM]. rewrite Hq, Hnums. cbn. eauto.
    + cbn [app]. exists nums. exact Hnums.
Qed.

Lemma statistics_loop_lookup (sqrt : Q -> Q) (skip : bool) (all_metrics : list string)
    (results : list value) :
  (forall r, In r results -> numeric_run skip all_metrics r) ->
  forall metrics acc,
    (forall m, In m metrics -> In m all_metrics) ->
    exists statistics,
      Benchmarks.statistics_loop sqrt skip metrics results acc = Ok statistics /\
      forall m,
        (In m metrics /\ carried skip m results <> [] ->
         exists e, Benchmarks.metric_statistics sqrt (carried skip m results) = Ok e /\
                   dict_lookup m statistics = Some e) /\
        (~ (In m metrics /\ carried skip m results <> []) ->
         dict_lookup m statistics = dict_lookup m acc).
Proof.
  intros Hwf.
  assert (Hdict : forall r, In r results -> exists d, r = VDict d).
  { intros r Hr. destruct (Hwf r Hr) as (d & -> & _). eauto. }
  induction metrics as [|m0 rest IH]; intros acc Hsub.
  - exists acc. split; [reflexivity|]. intros m. split.
    + intros [[] _].
    + reflexivity.
  - cbn [Benchmarks.statistics_loop].
    rewrite (metric_values_carried skip m0 results Hdict). cbn [bind].
    assert (Hrest : forall m, In m rest -> In m all_metrics).
    { intros m Hm. apply Hsub. now right. }
    destruct (carried skip m0 results) as [|v vs] eqn:Ecar.
    + destruct (IH acc Hrest) as (stats & Hloop & Hspec).
      exists stats. split; [exact Hloop|]. intros m.
      destruct (Hspec m) as [S1 S2]. split.
      * intros [[<-|Hin] Hne]; [congruence | now apply S1].
      * intros Hn. apply S2. intros [Hin Hne]. apply Hn. split; [now right | exact Hne].
    + destruct (carried_numeric skip all_metrics m0 results
                  (Hsub m0 (or_introl eq_refl)) Hwf) as (nums & Hnums).
      rewrite Ecar in Hnums.
      assert (Hne : nums <> []).
      { apply mapM_length in Hnums. destruct nums; [discriminate | discriminate]. }
      destruct (metric_statistics_guarded sqrt (v :: vs) nums Hnums Hne)
        as (e0 & He0 & _).
      rewrite He0. cbn [bind].
      destruct (IH (dict_set m0 e0 acc) Hrest) as (stats & Hloop & Hspec).
      exists stats. split; [exact Hloop|]. intros m.
      destruct (Hspec m) as [S1 S2]. split.
      * intros [Hin Hcar].
        destruct (in_dec string_dec m rest) as [Hr|Hr]; [now apply S1|].
        destruct Hin as [<-|Hin]; [|contradiction].
        exists e0. rewrite Ecar. split; [exact He0|].
        rewrite S2 by (intros [Hin' _]; contradiction). apply dict_lookup_set_eq.
      * intros Hn.
        assert (Hm0 : m <> m0).
        { intros ->. apply Hn. split; [now left | rewrite Ecar; discriminate]. }
        rewrite S2.
        -- now apply dict_lookup_set_ne.
        -- intros [Hin Hcar]. apply Hn. split; [now right | exact Hcar].
Qed.

(** X14. Aggregating run records whose metric values are numbers never
    fails.  A metric of the benchmark's list gets statistics exactly when
    at least one run carries it, computed over the runs that carry it; a
    metric no run carries is left out, and no other key is added. *)
Theorem aggregate_uses_runs_that_carry_metric (sqrt : Q -> Q) (skip : bool)
    (metrics : list string) (results : list value) :
  results <> [] ->
  (forall r, In r results -> numeric_run skip metrics r) ->
  exists statistics,
    Benchmarks.aggregate sqrt skip metrics results
    = Ok (VDict [("runs", VList results); ("statistics", VDict statistics)]) /\
    forall m,
      (In m metrics /\ carried skip m results <> [] ->
       exists e, Benchmarks.metric_statistics sqrt (carried skip m results) = Ok e /\
                 dict_lookup m statistics = Some e) /\
      (~ (In m metrics /\ carried skip m results <> []) ->
       dict_lookup m statistics = None).
Proof.
  intros Hne Hwf. unfold Benchmarks.aggregate.
  destruct results as [|r rs]; [contradiction|].
  destruct (statistics_loop_lookup sqrt skip metrics (r :: rs) Hwf metrics []
              (fun m H => H)) as (stats & Hloop & Hspec).
  rewrite Hloop. cbn [bind]. exists stats. split; [reflexivity|].
  intros m. destruct (Hspec m) as [S1 S2]. split; [exact S1|].
  intros Hn. now rewrite S2.
Qed.

Lemma aggregate_uses_runs_that_carry_metric_witness :
  exists statistics,
    Benchmarks.aggregate (fun q => q) false CPUBenchmark.metrics
      [cpu_sample; VDict [("latency_95p_ms", VNum 2)]]
    = Ok (VDict [("runs", VList [cpu_sample; VDict [("latency_95p_ms", VNum 2)]]);
                 ("statistics", VDict statistics)]) /\
    forall m,
      (In m CPUBenchmark.metrics /\
       carried false m [cpu_sample; VDict [("latency_95p_ms", VNum 2)]] <> [] ->
       exists e,
         Benchmarks.metric_statistics (fun q => q)
           (carried false m [cpu_sample; VDict [("latency_95p_ms", VNum 2)]]) = Ok e /\
         dict_lookup m statistics = Some e) /\
      (~ (In m CPUBenchmark.metrics /\
          carried false m [cpu_sample; VDict [("latency_95p_ms", VNum 2)]] <> []) ->
       dict_lookup m statistics = None).
Proof.
  apply (aggregate_uses_runs_that_carry_metric (fun q => q) false CPUBenchmark.metrics
           [cpu_sample; VDict [("latency_95p_ms", VNum 2)]]).
  - discriminate.
  - intros r [<-|[<-|[]]]; eexists; (split; [reflexivity|]);
      intros m v Hm Hl; left; cbn in Hm;
      destruct Hm as [<-|[<-|[<-|[]]]]; cbn in Hl; try discriminate;
      injection Hl as <-; eexists; reflexivity.
Defined.

(* ===================================================================== *)
(** * Recommender: the ranking *)
(* ===================================================================== *)

Lemma filter_none {A : Type} (p : A -> bool) (l : list A) :
  (forall z, In z l -> p z = false) -> filter p l = [].
Proof.
  induction l as [|x l IH]; intros H; [reflexivity|].
  cbn. rewrite (H x (or_introl eq_refl)). apply IH. intros z Hz. apply H. now right.
Qed.

Section SortDesc.

Context {A : Type} (key : A -> Q).

Lemma insert_desc_perm (x : A) (l : list A) :
  Permutation (x :: l) (insert_desc key x l).
Proof.
  induction l as [|y l IH]; cbn; [reflexivity|].
  destruct (Qltb (key y) (key x)); [reflexivity|].
  rewrite perm_swap. now constructor.
Qed.

Lemma sort_desc_perm (l : list A) : Permutation l (sort_desc key l).
Proof.
  unfold sort_desc.
  assert (G : forall acc,
             Permutation (acc ++ l)
               (fold_left (fun a x => insert_desc key x a) l acc)).
  { induction l as [|x l IH]; intros acc; cbn [fold_left].
    - now rewrite app_nil_r.
    - rewrite <- IH. rewrite <- Permutation_middle.
      change (x :: acc ++ l)%list with ((x :: acc) ++ l)%list.
      apply Permutation_app_tail, insert_desc_perm. }
  apply (G []).
Qed.

Lemma insert_desc_sorted (x : A) (l : list A) :
  StronglySorted (desc key) l -> StronglySorted (desc key) (insert_desc key x l).
Proof.
  induction l as [|y l IH]; intros Hs; cbn.
  - repeat constructor.
  - inversion Hs as [|y' l' Hl Hall]; subst.
    destruct (Qltb_spec (key y) (key x)) as [Hlt|Hge].
    + constructor; [exact Hs|]. constructor.
      * unfold desc. now apply Qlt_le_weak.
      * rewrite Forall_forall in *. intros z Hz. unfold desc in *.
        apply Qle_trans with (key y); [now apply Hall | now apply Qlt_le_weak].
    + constructor; [now apply IH|].
      rewrite Forall_forall in *. intros z Hz.
      apply (Permutation_in _ (Permutation_sym (insert_desc_perm x l))) in Hz.
      destruct Hz as [<-|Hz]; [exact Hge | now apply Hall].
Qed.

Lemma sort_desc_sorted (l : list A) : StronglySorted (desc key) (sort_desc key l).
Proof.
  unfold sort_desc.
  assert (G : forall acc,
             StronglySorted (desc key) acc ->
             StronglySorted (desc key) (fold_left (fun a x => insert_desc key x a) l acc)).
  { induction l as [|x l IH]; intros acc Hacc; cbn [fold_left]; [exact Hacc|].
    apply IH, insert_desc_sorted, Hacc. }
  apply G. constructor.
Qed.

(** Inserting into a sorted list puts the new element behind the elements
    of the same key. *)
Lemma insert_desc_filter (q : Q) (x : A) (l : list A) :
  StronglySorted (desc key) l ->
  filter (fun a => Qeq_bool (key a) q) (insert_desc key x l)
  = (filter (fun a => Qeq_bool (key a) q) l
       ++ filter (fun a => Qeq_bool (key a) q) [x])%list.
Proof.
  induction l as [|y l IH]; intros Hs; [reflexivity|].
  inversion Hs as [|y' l' Hl Hall]; subst. cbn [insert_desc].
  destruct (Qltb_spec (key y) (key x)) as [Hlt|Hge].
  - cbn [filter]. destruct (Qeq_bool_spec (key x) q) as [Ex|Nx]; [|now rewrite app_nil_r].
    assert (Hnone : filter (fun a => Qeq_bool (key a) q) (y :: l) = []).
    { apply filter_none. intros z [<-|Hz].
      - destruct (Qeq_bool_spec (key y) q) as [E|]; [|reflexivity].
        exfalso. rewrite E, <- Ex in Hlt. apply (Qlt_irrefl _ Hlt).
      - destruct (Qeq_bool_spec (key z) q) as [E|]; [|reflexivity].
        exfalso. rewrite Forall_forall in Hall. specialize (Hall z Hz).
        unfold desc in Hall. rewrite E, <- Ex in Hall.
        apply (Qlt_not_le _ _ Hlt Hall). }
    cbn [filter] in Hnone. rewrite Hnone. reflexivity.
  - cbn [filter]. rewrite (IH Hl).
    destruct (Qeq_bool (key y) q); reflexivity.
Qed.

Lemma sort_desc_stable (q : Q) (l : list A) :
  filter (fun a => Qeq_bool (key a) q) (sort_desc key l)
  = filter (fun a => Qeq_bool (key a) q) l.
Proof.
  unfold sort_desc.
  assert (G : forall acc,
             StronglySorted (desc key) acc ->
             filter (fun a => Qeq_bool (key a) q)
               (fold_left (fun a x => insert_desc key x a) l acc)
             = (filter (fun a => Qeq_bool (key a) q) acc
                  ++ filter (fun a => Qeq_bool (key a) q) l)%list).
  { induction l as [|x l IH]; intros acc Hacc; cbn [fold_left].
    - now rewrite app_nil_r.
    - rewrite IH by now apply insert_desc_sorted.
      rewrite insert_desc_filter by exact Hacc.
      rewrite <- app_assoc. f_equal. cbn [filter].
      destruct (Qeq_bool (key x) q); reflexivity. }
  rewrite G by constructor. reflexivity.
Qed.

End SortDesc.

Lemma mapM_recommend_names (p : profile) (systems : list system_t)
    (raw : list recommendation) :
  mapM (recommend_one p) systems = Ok raw ->
  map system raw = map name systems.
Proof.
  revert raw. induction systems as [|sys systems IH]; intros raw H; cbn in H.
  - now injection H as <-.
  - apply bind_ok in H as (r & Hr & H). apply bind_ok in H as (rs & Hrs & H).
    injection H as <-. cbn. f_equal; [|now apply IH].
    now apply recommend_one_fields in Hr as (Hname & _).
Qed.

Lemma recommend_for_workload_sorted (systems : list system_t) (workload_type : string)
    (p : profile) (recs : list recommendation) :
  profile_lookup workload_type workload_profiles = Some p ->
  recommend_for_workload systems workload_type = Ok recs ->
  exists raw,
    mapM (recommend_one p) systems = Ok raw /\
    recs = sort_desc workload_score raw.
Proof.
  unfold recommend_for_workload. intros -> H.
  apply bind_ok in H as (raw & Hraw & H). injection H as <-. eauto.
Qed.

(** X15. For a known workload the ranking holds exactly one
    recommendation per loaded system, in descending order of workload
    score, so its first entry, the one reported as best performance, has
    the highest score. *)
Theorem ranking_is_sorted_permutation (systems : list system_t)
    (workload_type : string) (p : profile) (recs : list recommendation) :
  profile_lookup workload_type workload_profiles = Some p ->
  recommend_for_workload systems workload_type = Ok recs ->
  exists raw,
    mapM (recommend_one p) systems = Ok raw /\
    map system raw = map name systems /\
    Permutation raw recs /\
    List.length recs = List.length systems /\
    StronglySorted (desc workload_score) recs /\
    forall best rest, recs = best :: rest ->
      forall r, In r recs -> workload_score r <= workload_score best.
Proof.
  intros Hp H.
  destruct (recommend_for_workload_sorted _ _ _ _ Hp H) as (raw & Hraw & ->).
  exists raw. split; [exact Hraw|].
  pose proof (mapM_recommend_names _ _ _ Hraw) as Hnames.
  pose proof (sort_desc_perm workload_score raw) as Hperm.
  pose proof (sort_desc_sorted workload_score raw) as Hsorted.
  split; [exact Hnames|]. split; [exact Hperm|]. split.
  - rewrite <- (Permutation_length Hperm), <- (length_map system), Hnames.
    apply length_map.
  - split; [exact Hsorted|].
    intros best rest E r Hr. rewrite E in Hsorted, Hr.
    inversion Hsorted as [|b l Hl Hall]; subst.
    destruct Hr as [<-|Hr]; [apply Qle_refl|].
    rewrite Forall_forall in Hall. now apply Hall.
Qed.

Lemma ranking_is_sorted_permutation_witness :
  exists raw,
    mapM (recommend_one general_purpose) [system_B; system_A] = Ok raw /\
    map system raw = map name [system_B; system_A] /\
    Permutation raw [rec_A; rec_B] /\
    List.length [rec_A; rec_B] = List.length [system_B; system_A] /\
    StronglySorted (desc workload_score) [rec_A; rec_B] /\
    forall best rest, [rec_A; rec_B] = best :: rest ->
      forall r, In r [rec_A; rec_B] -> workload_score r <= workload_score best.
Proof.
  apply (ranking_is_sorted_permutation [system_B; system_A] "general_purpose"
           general_purpose);
    reflexivity.
Defined.

(** X16. The ranking is stable: recommendations with equal workload
    scores keep the order in which their systems were loaded. *)
Theorem ranking_is_stable (systems : list system_t) (workload_type : string)
    (p : profile) (recs : list recommendation) :
  profile_lookup workload_type workload_profiles = Some p ->
  recommend_for_workload systems workload_type = Ok recs ->
  exists raw,
    mapM (recommend_one p) systems = Ok raw /\
    map system raw = map name systems /\
    forall q,
      filter (fun r => Qeq_bool (workload_score r) q) recs
      = filter (fun r => Qeq_bool (workload_score r) q) raw.
Proof.
  intros Hp H.
  destruct (recommend_for_workload_sorted _ _ _ _ Hp H) as (raw & Hraw & ->).
  exists raw. split; [exact Hraw|].
  split; [exact (mapM_recommend_names _ _ _ Hraw)|].
  intros q. apply sort_desc_stable.
Qed.

Lemma ranking_is_stable_witness :
  exists raw,
    mapM (recommend_one general_purpose) [system_free; system_zero; system_A] = Ok raw /\
    map system raw = map name [system_free; system_zero; system_A] /\
    forall q,
      filter (fun r => Qeq_bool (workload_score r) q) [rec_A; rec_free; rec_zero]
      = filter (fun r => Qeq_bool (workload_score r) q) raw.
Proof.
  apply (ranking_is_stable [system_free; system_zero; system_A] "general_purpose"
           general_purpose);
    reflexivity.
Defined.

(* ===================================================================== *)
(** * Recommender: bounds on the workload score *)
(* ===================================================================== *)

Lemma workload_profiles_sound :
  forall nm p, In (nm, p) workload_profiles -> sound_weights p.
Proof.
  intros nm p H. cbn in H.
  destruct H as [E|[E|[E|[E|[E|[]]]]]]; injection E as _ <-;
    unfold sound_weights; cbn; repeat split; discriminate.
Qed.

(** X17. With weights that are not negative and add up to 1, which holds
    for each of the five built-in profiles, the workload score of a system
    whose four domain scores lie in [0, 100] lies in [0, 100]. *)
Theorem workload_score_in_range (sys : system_t) (p : profile)
    (vc vm vd vn : value) (c m d n : Q) :
  domain_score (normalized sys) "cpu" "score" = Ok vc ->
  domain_score (normalized sys) "memory" "score" = Ok vm ->
  domain_score (normalized sys) "disk" "average_score" = Ok vd ->
  domain_score (normalized sys) "network" "score" = Ok vn ->
  as_num vc = Ok c -> as_num vm = Ok m -> as_num vd = Ok d -> as_num vn = Ok n ->
  0 <= c <= 100 -> 0 <= m <= 100 -> 0 <= d <= 100 -> 0 <= n <= 100 ->
  (sound_weights p ->
   exists x, calculate_workload_score sys p = Ok x /\ 0 <= x <= 100) /\
  (forall nm q, In (nm, q) workload_profiles -> sound_weights q).
Proof.
  intros Hc Hm Hd Hn Ec Em Ed En Rc Rm Rd Rn.
  split; [|apply workload_profiles_sound].
  intros (W1 & W2 & W3 & W4 & Wsum).
  eexists. split; [eapply calculate_workload_score_sum; eauto|].
  apply (round2_bounds 0 100).
  set (wc := cpu_weight p) in *. set (wm := memory_weight p) in *.
  set (wd := disk_weight p) in *. set (wn := network_weight p) in *.
  split.
  - assert (0 <= c * wc) by (apply Qmult_le_0_compat; lra).
    assert (0 <= m * wm) by (apply Qmult_le_0_compat; lra).
    assert (0 <= d * wd) by (apply Qmult_le_0_compat; lra).
    assert (0 <= n * wn) by (apply Qmult_le_0_compat; lra).
    change (inject_Z 0) with 0. lra.
  - assert (c * wc <= 100 * wc) by (apply Qmult_le_compat_r; lra).
    assert (m * wm <= 100 * wm) by (apply Qmult_le_compat_r; lra).
    assert (d * wd <= 100 * wd) by (apply Qmult_le_compat_r; lra).
    assert (n * wn <= 100 * wn) by (apply Qmult_le_compat_r; lra).
    change (inject_Z 100) with 100. lra.
Qed.

Lemma workload_score_in_range_witness :
  exists x, calculate_workload_score example_system compute_intensive = Ok x /\
            0 <= x <= 100.
Proof.
  refine (proj1 (workload_score_in_range example_system compute_intensive
                   (VNum 90) (VNum 70) (VNum 50) (VNum 40) 90 70 50 40
                   eq_refl eq_refl eq_refl eq_refl eq_refl eq_refl eq_refl eq_refl
                   _ _ _ _) _);
    try (split; discriminate).
  unfold sound_weights. cbn. repeat split; discriminate.
Defined.

Lemma check_requirements_bools (sys : system_t) (p : profile)
    (vc vm vd vn : value) (c m d n : Q) :
  domain_score (normalized sys) "cpu" "score" = Ok vc ->
  domain_score (normalized sys) "memory" "score" = Ok vm ->
  domain_score (normalized sys) "disk" "average_score" = Ok vd ->
  domain_score (normalized sys) "network" "score" = Ok vn ->
  as_num vc = Ok c -> as_num vm = Ok m -> as_num vd = Ok d -> as_num vn = Ok n ->
  check_requirements sys p
  = Ok (Qle_bool (cpu (min_scores p)) c &&
        (Qle_bool (memory (min_scores p)) m &&
         (Qle_bool (disk (min_scores p)) d &&
          Qle_bool (network (min_scores p)) n))).
Proof.
  intros Hc Hm Hd Hn Ec Em Ed En.
  unfold check_requirements. rewrite Hc, Hm, Hd, Hn. cbn [bind].
  rewrite (py_ge_num _ _ _ Ec), (py_ge_num _ _ _ Em),
    (py_ge_num _ _ _ Ed), (py_ge_num _ _ _ En).
  unfold py_and. cbn [bind].
  destruct (Qle_bool (cpu (min_scores p)) c); [|reflexivity].
  destruct (Qle_bool (memory (min_scores p)) m); [|reflexivity].
  destruct (Qle_bool (disk (min_scores p)) d); reflexivity.
Qed.

(** X18. With weights that are not negative, a system that meets the
    requirements of a profile has a workload score of at least the score
    of the minimum requirements themselves (74 for [compute_intensive]). *)
Theorem meeting_requirements_bounds_score (sys : system_t) (p : profile)
    (vc vm vd vn : value) (c m d n : Q) :
  domain_score (normalized sys) "cpu" "score" = Ok vc ->
  domain_score (normalized sys) "memory" "score" = Ok vm ->
  domain_score (normalized sys) "disk" "average_score" = Ok vd ->
  domain_score (normalized sys) "network" "score" = Ok vn ->
  as_num vc = Ok c -> as_num vm = Ok m -> as_num vd = Ok d -> as_num vn = Ok n ->
  0 <= cpu_weight p -> 0 <= memory_weight p ->
  0 <= disk_weight p -> 0 <= network_weight p ->
  check_requirements sys p = Ok true ->
  exists x, calculate_workload_score sys p = Ok x /\ threshold_score p <= x.
Proof.
  intros Hc Hm Hd Hn Ec Em Ed En W1 W2 W3 W4 Hcheck.
  rewrite (check_requirements_bools _ _ _ _ _ _ _ _ _ _ Hc Hm Hd Hn Ec Em Ed En)
    in Hcheck.
  injection Hcheck as Hb. rewrite !andb_true_iff, !Qle_bool_iff in Hb.
  destruct Hb as (B1 & B2 & B3 & B4).
  eexists. split; [eapply calculate_workload_score_sum; eauto|].
  unfold threshold_score. apply round2_mono.
  assert (cpu (min_scores p) * cpu_weight p <= c * cpu_weight p)
    by (apply Qmult_le_compat_r; assumption).
  assert (memory (min_scores p) * memory_weight p <= m * memory_weight p)
    by (apply Qmult_le_compat_r; assumption).
  assert (disk (min_scores p) * disk_weight p <= d * disk_weight p)
    by (apply Qmult_le_compat_r; assumption).
  assert (network (min_scores p) * network_weight p <= n * network_weight p)
    by (apply Qmult_le_compat_r; assumption).
  lra.
Qed.

Lemma meeting_requirements_bounds_score_witness :
  exists x, calculate_workload_score example_system compute_intensive = Ok x /\
            74 <= x.
Proof.
  refine (meeting_requirements_bounds_score example_system compute_intensive
            (VNum 90) (VNum 70) (VNum 50) (VNum 40) 90 70 50 40
            eq_refl eq_refl eq_refl eq_refl eq_refl eq_refl eq_refl eq_refl
            _ _ _ _ eq_refl);
    discriminate.
Defined.

(* ===================================================================== *)
(** * Recommender: the report *)
(* ===================================================================== *)

Section ReportFacts.

Variables (format_0f format_2f format_comma_2f str_num : Q -> string)
          (str_count : nat -> string) (upper : string -> string).

Lemma cost_lines_cases (r : recommendation) :
  (divides_by_zero r /\
   cost_lines format_2f format_comma_2f r = Raise ZeroDivisionError) \/
  (~ divides_by_zero r /\
   exists ls, cost_lines format_2f format_comma_2f r = Ok ls).
Proof.
  unfold divides_by_zero, cost_lines, pydiv.
  destruct (rec_cost r) as [c|]; cbn [truthy_opt].
  - destruct (Qeq_bool_spec c 0) as [Ec|Nc]; cbn [negb].
    + right. split; [intros [H _]; discriminate | eexists; reflexivity].
    + destruct (Qeq_bool_spec (workload_score r) 0) as [E|N]; cbn [bind].
      * left. split; [split; [reflexivity | exact E] | reflexivity].
      * right. split; [intros [_ H]; contradiction | eexists; reflexivity].
  - right. split; [intros [H _]; discriminate | eexists; reflexivity].
Qed.

Lemma ranking_loop_divides (recs : list recommendation) :
  forall i,
    ((exists r, In r recs /\ divides_by_zero r) ->
     CapacityReport.ranking_loop format_2f format_comma_2f str_count i recs
     = Raise ZeroDivisionError) /\
    ((forall r, In r recs -> ~ divides_by_zero r) ->
     exists ls,
       CapacityReport.ranking_loop format_2f format_comma_2f str_count i recs = Ok ls).
Proof.
  induction recs as [|r recs IH]; intros i.
  - split; [intros (r & [] & _) | intros _; exists []; reflexivity].
  - cbn [CapacityReport.ranking_loop]. unfold CapacityReport.ranked_lines.
    destruct (IH (S i)) as [I1 I2].
    destruct (cost_lines_cases r) as [[Hd ->]|[Hn (ls & ->)]]; cbn [bind].
    + split; [reflexivity|]. intros H. exfalso. apply (H r); [now left | exact Hd].
    + split.
      * intros (r' & [<-|Hin] & Hd); [contradiction|].
        rewrite I1 by eauto. reflexivity.
      * intros H. destruct I2 as (more & ->); [intros r' Hr'; apply H; now right|].
        cbn [bind]. eauto.
Qed.

End ReportFacts.

(** X19. [generate_recommendation_report] writes nothing when there is no
    recommendation, that is for an unknown workload or when no system is
    loaded.  Otherwise it fails with [ZeroDivisionError] exactly when some
    ranked system has a non-zero cost and a workload score of 0, and
    writes the report in every other case. *)
Theorem report_written_unless_zero_score_with_cost
    (format_0f format_2f format_comma_2f str_num : Q -> string)
    (str_count : nat -> string) (upper : string -> string)
    (systems : list system_t) (workload_type : string)
    (recs : list recommendation) :
  recommend_for_workload systems workload_type = Ok recs ->
  (recs = [] <->
   profile_lookup workload_type workload_profiles = None \/ systems = []) /\
  (recs = [] ->
   CapacityReport.generate_recommendation_report format_0f format_2f
     format_comma_2f str_num str_count upper systems workload_type = Ok None) /\
  (recs <> [] -> (exists r, In r recs /\ divides_by_zero r) ->
   CapacityReport.generate_recommendation_report format_0f format_2f
     format_comma_2f str_num str_count upper systems workload_type
   = Raise ZeroDivisionError) /\
  (recs <> [] -> (forall r, In r recs -> ~ divides_by_zero r) ->
   exists text,
     CapacityReport.generate_recommendation_report format_0f format_2f
       format_comma_2f str_num str_count upper systems workload_type
     = Ok (Some text)).
Proof.
  intros H. unfold CapacityReport.generate_recommendation_report. rewrite H.
  cbn [bind].
  assert (Hp : recs <> [] ->
               exists p, profile_lookup workload_type workload_profiles = Some p).
  { intros Hne. unfold recommend_for_workload in H.
    destruct (profile_lookup workload_type workload_profiles) as [p|]; [eauto|].
    injection H as <-. contradiction. }
  split; [|split; [|split]].
  - split.
    + intros ->. unfold recommend_for_workload in H.
      destruct (profile_lookup workload_type workload_profiles) as [p|]; [|now left].
      right. apply bind_ok in H as (raw & Hraw & H). injection H as H.
      pose proof (sort_desc_perm workload_score raw) as Hperm. rewrite H in Hperm.
      apply Permutation_sym, Permutation_nil in Hperm. subst raw.
      apply mapM_length in Hraw. destruct systems; [reflexivity | discriminate].
    + unfold recommend_for_workload in H. intros [Hn | ->].
      * rewrite Hn in H. now injection H as <-.
      * destruct (profile_lookup workload_type workload_profiles);
          cbn in H; now injection H as <-.
  - intros ->. reflexivity.
  - intros Hne Hex. destruct (Hp Hne) as (p & ->).
    destruct recs as [|best rest]; [contradiction|].
    rewrite (proj1 (ranking_loop_divides format_2f format_comma_2f str_count
                      (best :: rest) 1%nat) Hex).
    reflexivity.
  - intros Hne Hall. destruct (Hp Hne) as (p & ->).
    destruct recs as [|best rest]; [contradiction|].
    destruct (proj2 (ranking_loop_divides format_2f format_comma_2f str_count
                       (best :: rest) 1%nat) Hall) as (ls & ->).
    cbn [bind]. eauto.
Qed.

Lemma report_written_unless_zero_score_with_cost_witness :
  CapacityReport.generate_recommendation_report
    (fun _ => EmptyString) (fun _ => EmptyString) (fun _ => EmptyString)
    (fun _ => EmptyString) (fun _ => EmptyString)
    (fun s => s) [system_A; system_idle] "general_purpose"
  = Raise ZeroDivisionError.
Proof.
  destruct (recommend_for_workload [system_A; system_idle] "general_purpose")
    as [recs|e] eqn:Hrec; [|discriminate].
  apply (proj1 (proj2 (proj2 (report_written_unless_zero_score_with_cost
           (fun _ => EmptyString) (fun _ => EmptyString) (fun _ => EmptyString)
           (fun _ => EmptyString) (fun _ => EmptyString)
           (fun s => s) [system_A; system_idle] "general_purpose" recs Hrec)))).
  - intros ->. discriminate.
  - vm_compute in Hrec. injection Hrec as <-.
    eexists. split; [right; left; reflexivity|]. split; reflexivity.
Defined.

(* ===================================================================== *)
(** * Ratings and badges *)
(* ===================================================================== *)

Lemma Qle_bool_false (x y : Q) : Qle_bool x y = false -> y < x.
Proof.
  intros H. apply Qnot_le_lt. intros Hle. apply Qle_bool_iff in Hle. congruence.
Qed.

Ltac threshold_cases :=
  repeat match goal with
  | |- context [Qle_bool ?a ?b] =>
      let E := fresh "E" in
      destruct (Qle_bool a b) eqn:E;
      [apply Qle_bool_iff in E | apply Qle_bool_false in E]
  end.

(** X20. [get_performance_rating] gives every number a rating line with
    one to five stars; a higher score never has fewer stars; five stars
    mean a score of at least 90 and a single star a score below 40. *)
Theorem rating_stars_monotone (score1 score2 : value) (s1 s2 : Q) :
  as_num score1 = Ok s1 -> as_num score2 = Ok s2 -> s1 <= s2 ->
  exists r1 r2,
    ReportGenerator.get_performance_rating score1 = Ok r1 /\
    ReportGenerator.get_performance_rating score2 = Ok r2 /\
    (1 <= stars r1 <= 5)%nat /\
    (stars r1 <= stars r2)%nat /\
    (stars r1 = 5%nat <-> 90 <= s1) /\
    (stars r1 = 1%nat <-> s1 < 40).
Proof.
  intros H1 H2 Hle. unfold ReportGenerator.get_performance_rating. rewrite H1, H2. cbn [bind].
  threshold_cases;
    first [ exfalso; lra
          | do 2 eexists; split; [reflexivity|]; split; [reflexivity|];
            vm_compute stars;
            repeat split; intros; try lia; try lra; try discriminate ].
Qed.

Lemma rating_stars_monotone_witness :
  exists r1 r2,
    ReportGenerator.get_performance_rating (VNum 59.99) = Ok r1 /\
    ReportGenerator.get_performance_rating (VNum 60) = Ok r2 /\
    (1 <= stars r1 <= 5)%nat /\
    (stars r1 <= stars r2)%nat /\
    (stars r1 = 5%nat <-> 90 <= 59.99) /\
    (stars r1 = 1%nat <-> 59.99 < 40).
Proof.
  apply (rating_stars_monotone (VNum 59.99) (VNum 60) 59.99 60);
    [reflexivity | reflexivity | discriminate].
Defined.

(** X21. [get_badge] gives every number one of four badges, whose style
    class never gets worse when the score grows; the best class starts at
    70 and the worst ends below 30.  A missing score, read as 0 by the
    table, gets the worst class. *)
Theorem badge_monotone (score1 score2 : value) (s1 s2 : Q) :
  as_num score1 = Ok s1 -> as_num score2 = Ok s2 -> s1 <= s2 ->
  exists b1 b2,
    HardwareComparison.get_badge score1 = Ok b1 /\
    HardwareComparison.get_badge score2 = Ok b2 /\
    (badge_rank b1 <= badge_rank b2)%nat /\
    (badge_rank b1 = 3%nat <-> 70 <= s1) /\
    (badge_rank b1 = 0%nat <-> s1 < 30) /\
    (s1 == 0 -> b1 = HardwareComparison.badge "badge-poor" "Poor").
Proof.
  intros H1 H2 Hle. unfold HardwareComparison.get_badge. rewrite H1, H2. cbn [bind].
  threshold_cases;
    first [ exfalso; lra
          | do 2 eexists; split; [reflexivity|]; split; [reflexivity|];
            vm_compute badge_rank;
            repeat split; intros; try lia; try lra; try discriminate;
            try reflexivity ].
Qed.

Lemma badge_monotone_witness :
  exists b1 b2,
    HardwareComparison.get_badge (VNum 0) = Ok b1 /\
    HardwareComparison.get_badge (VNum 69.5) = Ok b2 /\
    (badge_rank b1 <= badge_rank b2)%nat /\
    (badge_rank b1 = 3%nat <-> 70 <= 0) /\
    (badge_rank b1 = 0%nat <-> 0 < 30) /\
    (0 == 0 -> b1 = HardwareComparison.badge "badge-poor" "Poor").
Proof.
  apply (badge_monotone (VNum 0) (VNum 69.5) 0 69.5);
    [reflexivity | reflexivity | discriminate].
Defined.

(* ===================================================================== *)
(** * Average variance of a comparison *)
(* ===================================================================== *)




(* ===================================================================== *)
(** * Network benchmark: what a run records *)
(* ===================================================================== *)

Import NetworkOutput.

Ltac parse_cases :=
  repeat (cbn [try_bind subscript lift py_in py_get as_num bind];
          match goal with
          | |- context [match dict_lookup ?k ?d with _ => _ end] =>
              destruct (dict_lookup k d) as [?|] eqn:?
          | |- context [if dict_has ?k ?d then _ else _] =>
              destruct (dict_has k d) eqn:?
          | |- context [if str_contains ?k ?d then _ else _] =>
              destruct (str_contains k d) eqn:?
          | |- context [if existsb ?f ?l then _ else _] =>
              destruct (existsb f l) eqn:?
          | |- context [subscript ?v _] => is_var v; destruct v
          | |- context [as_num ?v] => is_var v; destruct v
          | |- context [py_get ?v _ _] => is_var v; destruct v
          | |- context [py_in _ ?v] => is_var v; destruct v
          end).

Lemma parse_data_record (protocol data : value) (results : value) :
  parse_data protocol data = Got results ->
  exists d,
    results = VDict d /\
    dict_has "error" d = false /\
    dict_lookup "protocol" d = Some protocol /\
    ((py_in "end" data = Ok false /\ d = [("protocol", protocol)]) \/
     (py_in "end" data = Ok true /\
      exists b, dict_lookup "bandwidth_mbps" d = Some (VNum b) /\
                dict_has "bytes_transferred" d = true /\
                dict_has "retransmits" d = true)).
Proof.
  unfold parse_data. destruct data; parse_cases.
  all: cbn [try_bind subscript lift py_in py_get as_num bind].
  all: try discriminate.
  all: intros [= <-]; eexists; split; [reflexivity|].
  all: split; [reflexivity|]; split; [reflexivity|].
  all: first [ left; split; reflexivity
             | right; split; [reflexivity|]; eexists; repeat split; reflexivity ].
Qed.

(** X23. [run_single_test] of the network benchmark never raises and
    always returns a record that [run] can test for ['error']: either an
    error record with the single key ['error'], or, from decoded output
    only, a measurement that carries the protocol; a measurement of output
    with an ['end'] section has a numeric ['bandwidth_mbps'], the byte
    count and the retransmits, and one of output without it has the
    protocol alone.  A measurement can always be echoed by [run]. *)
Theorem network_test_error_or_measurement (str_exn : exn -> string)
    (protocol : value) (o : outcome) :
  exists d,
    run_single_test str_exn protocol o = VDict d /\
    ((exists message, d = [("error", VStr message)]) \/
     (dict_has "error" d = false /\
      dict_lookup "protocol" d = Some protocol /\
      clean_run "bandwidth_mbps" (VDict d) /\
      exists data,
        o = Completed (inr data) /\
        ((py_in "end" data = Ok false /\ d = [("protocol", protocol)]) \/
         (py_in "end" data = Ok true /\
          exists b, dict_lookup "bandwidth_mbps" d = Some (VNum b) /\
                    dict_has "bytes_transferred" d = true /\
                    dict_has "retransmits" d = true)))).
Proof.
  destruct o as [[message|data]| | |message]; cbn [run_single_test parse_output];
    try (eexists; split; [reflexivity|]; left; eexists; reflexivity).
  destruct (parse_data protocol data) as [results|key|e] eqn:Hparse;
    try (eexists; split; [reflexivity|]; left; eexists; reflexivity).
  destruct (parse_data_record _ _ _ Hparse) as (d & -> & Herr & Hproto & Hshape).
  exists d. split; [reflexivity|]. right.
  split; [exact Herr|]. split; [exact Hproto|]. split.
  - split; [cbn; now rewrite Herr|].
    destruct Hshape as [[_ ->] | [_ (b & Hb & _)]].
    + exists (VNum 0). split; reflexivity.
    + exists (VNum b). cbn [py_get]. rewrite Hb. split; reflexivity.
  - exists data. split; [reflexivity | exact Hshape].
Qed.

Lemma metric_values_protocol_only (protocol : value) (metric : string) (n : nat) :
  dict_has metric [("protocol", protocol)] = false ->
  Benchmarks.metric_values true metric (repeat (VDict [("protocol", protocol)]) n)
  = Ok [].
Proof.
  intros H. induction n as [|n IH]; [reflexivity|].
  cbn [repeat Benchmarks.metric_values py_in bind]. rewrite H. exact IH.
Qed.

Lemma map_seq_constant {A : Type} (f : nat -> A) (c : A) (n : nat) :
  forall start,
    (forall j, (start <= j < start + n)%nat -> f j = c) ->
    map f (seq start n) = repeat c n.
Proof.
  induction n as [|n IH]; intros start H; [reflexivity|].
  cbn [seq map repeat]. rewrite (H start) by lia. f_equal.
  apply IH. intros j Hj. apply H. lia.
Qed.

(** X24. When the tool's output decodes to objects without an ['end']
    section in each of [num_runs >= 1] runs, the network benchmark reports
    no error: it returns the runs, each holding the protocol alone, with
    empty statistics, and the normalizer gives the network a score of 0. *)
Theorem network_output_without_summary_scores_zero (sqrt : Q -> Q)
    (str_exn : exn -> string) (protocol : value) (outputs : nat -> dict)
    (num_runs : nat) :
  (0 < num_runs)%nat ->
  (forall j, (j < num_runs)%nat -> dict_has "end" (outputs j) = false) ->
  let tool := fun j =>
    run_single_test str_exn protocol (Completed (inr (VDict (outputs j)))) in
  let measured :=
    VDict [("runs", VList (repeat (VDict [("protocol", protocol)]) num_runs));
           ("statistics", VDict [])] in
  NetworkBenchmark.run sqrt tool num_runs = Ok measured /\
  normalize_network measured
  = Ok (VDict [("score", VNum 0); ("raw_value", VNum 0);
               ("metric", VStr "bandwidth_mbps"); ("variance", VNum 0)]).
Proof.
  intros Hpos Hend tool measured. split; [|reflexivity].
  assert (Htool : forall j, (j < num_runs)%nat -> tool j = VDict [("protocol", protocol)]).
  { intros j Hj. unfold tool, run_single_test, parse_output, parse_data.
    cbn [py_in lift try_bind]. now rewrite (Hend j Hj). }
  unfold NetworkBenchmark.run.
  rewrite (run_loop_clean _ _ _ num_runs 0%nat []).
  - rewrite (map_seq_constant (fun j => tool (0 + j)%nat)
               (VDict [("protocol", protocol)]) num_runs 0)
      by (intros j Hj; apply Htool; lia).
    cbn [app].
    unfold NetworkBenchmark.aggregate_results, Benchmarks.aggregate, measured.
    destruct num_runs as [|n]; [lia|].
    cbn [repeat].
    change (VDict [("protocol", protocol)] :: repeat (VDict [("protocol", protocol)]) n)
      with (repeat (VDict [("protocol", protocol)]) (S n)).
    unfold NetworkBenchmark.metrics. cbn [Benchmarks.statistics_loop].
    rewrite (metric_values_protocol_only protocol "bandwidth_mbps") by reflexivity.
    cbn [bind].
    rewrite (metric_values_protocol_only protocol "bandwidth_received_mbps")
      by reflexivity.
    cbn [bind].
    rewrite (metric_values_protocol_only protocol "retransmits") by reflexivity.
    reflexivity.
  - intros j Hj. cbn [Nat.add]. rewrite (Htool j Hj).
    split; [reflexivity|]. exists (VNum 0). split; reflexivity.
Qed.

Lemma network_output_without_summary_scores_zero_witness :
  NetworkBenchmark.run (fun q => q)
    (fun _ => run_single_test (fun _ => "TypeError") (VStr "tcp")
                (Completed (inr (VDict [("start", VDict [])]))))
    3
  = Ok (VDict [("runs", VList (repeat (VDict [("protocol", VStr "tcp")]) 3));
               ("statistics", VDict [])]).
Proof.
  apply (network_output_without_summary_scores_zero (fun q => q)
           (fun _ => "TypeError") (VStr "tcp") (fun _ => [("start", VDict [])]) 3).
  - lia.
  - intros j _. reflexivity.
Defined.
